(** * OAuth credential lifecycle of gistreach: a shallow embedding

    The development follows the TypeScript sources
      - [src/lib/encryption.ts]: module [Encryption], with [CredentialManager];
      - [src/server/services/auth/oauth-state-manager.ts]: modules
        [OAuthStateManager] and [OAuthSessionStore];
      - the credential service ([@/server/services/credential], whose text
        is in [src/server/services/content.ts]): module [CredentialService];
      - [src/server/services/auth/base-auth-provider.ts],
        [x-auth-provider.ts] and [facebook-auth-provider.ts]: modules
        [SocialAuthProvider], [XAuthProvider], [FacebookAuthProvider].

    Strings hold UTF-8 text and are [string]; buffers are [list byte];
    timestamps are milliseconds since the epoch in [Z]; a JS [Map] is a
    [gmap]; the Prisma table is the list of its rows.  What Node provides
    (ciphers, key derivation, base64, JSON, the random source) is the
    interface [NodeRuntime], with the laws the code relies on; exceptions
    and everything mutable are a state-and-exception monad [M] over a
    [World].  The properties follow the embedding, then their instances in
    a reference runtime. *)

From Stdlib Require Import ZArith NArith String Ascii List Lia Bool.
From Stdlib.Strings Require Import Byte.
From stdpp Require Import gmap strings list countable.

#[local] Set Warnings "-register-all".

Local Open Scope string_scope.
Local Open Scope Z_scope.
Local Open Scope list_scope.

Abbreviation bytes := (list byte).

(** ** Hexadecimal text, as [Buffer.toString('hex')] and [Buffer.from(s, 'hex')] *)

Module Hex.

Definition digit (n : N) : ascii :=
  match n with
  | 0%N => "0" | 1%N => "1" | 2%N => "2" | 3%N => "3"
  | 4%N => "4" | 5%N => "5" | 6%N => "6" | 7%N => "7"
  | 8%N => "8" | 9%N => "9" | 10%N => "a" | 11%N => "b"
  | 12%N => "c" | 13%N => "d" | 14%N => "e" | _ => "f"
  end%char.

Definition value (c : ascii) : option N :=
  let n := N_of_ascii c in
  if ((48 <=? n) && (n <=? 57))%N then Some (n - 48)%N
  else if ((97 <=? n) && (n <=? 102))%N then Some (n - 87)%N
  else if ((65 <=? n) && (n <=? 70))%N then Some (n - 55)%N
  else None.

Fixpoint encode (b : bytes) : string :=
  match b with
  | [] => EmptyString
  | x :: b' =>
      String (digit (Byte.to_N x / 16)) (String (digit (Byte.to_N x mod 16)) (encode b'))
  end.

(** Node stops at the first pair that is not two hex digits. *)
Fixpoint decode (s : string) : bytes :=
  match s with
  | String c1 (String c2 s') =>
      match value c1, value c2 with
      | Some h, Some l =>
          match Byte.of_N (16 * h + l) with
          | Some x => x :: decode s'
          | None => []
          end
      | _, _ => []
      end
  | _ => []
  end.

End Hex.

(** ** JSON values *)

(** The JSON data model.  An object is the list of its own properties in
    enumeration order; numbers are the integral ones the code handles
    (timestamps, lifetimes). *)
Inductive json : Type :=
  | JNull
  | JBool (b : bool)
  | JNum (n : Z)
  | JStr (s : string)
  | JArr (items : list json)
  | JObj (props : list (string * json)).

Fixpoint json_wf (v : json) : bool :=
  match v with
  | JArr items => forallb json_wf items
  | JObj props =>
      bool_decide (NoDup (map fst props))
      && forallb (fun kv => json_wf (snd kv)) props
  | _ => true
  end.

(** Property read [o.k] on a parsed value: [None] is [undefined]. *)
Fixpoint assoc (k : string) (props : list (string * json)) : option json :=
  match props with
  | [] => None
  | (k', v) :: rest => if String.eqb k k' then Some v else assoc k rest
  end.

(** JS truthiness, as tested by [!x] and [a || b]. *)
Definition truthy (v : option json) : bool :=
  match v with
  | None => false
  | Some JNull => false
  | Some (JBool b) => b
  | Some (JNum n) => negb (Z.eqb n 0)
  | Some (JStr s) => negb (String.eqb s "")
  | Some (JArr _) => true
  | Some (JObj _) => true
  end.

Definition truthy_string (s : string) : bool := negb (String.eqb s "").

Definition truthy_ostring (s : option string) : bool :=
  match s with Some s => truthy_string s | None => false end.

(** ** What the Node runtime provides *)

Class NodeRuntime := {
  (** [crypto.randomBytes] *)
  Entropy : Type;
  randomBytes : Entropy -> nat -> bytes * Entropy;
  randomBytes_length : forall e n, length (fst (randomBytes e n)) = n;
  (** [crypto.pbkdf2Sync(password, salt, iterations, keylen, digest)] *)
  pbkdf2Sync : string -> bytes -> N -> nat -> string -> bytes;
  (** [createCipheriv('aes-256-gcm', key, iv)] with [setAAD], [update],
      [final], [getAuthTag]: ciphertext and tag *)
  aes256gcm_seal : bytes -> bytes -> bytes -> bytes -> bytes * bytes;
  (** [createDecipheriv] with [setAAD], [setAuthTag], [update], [final];
      [None] when any of them throws *)
  aes256gcm_open : bytes -> bytes -> bytes -> bytes -> bytes -> option bytes;
  aes256gcm_tag_length : forall key iv aad m,
    length (snd (aes256gcm_seal key iv aad m)) = 16%nat;
  aes256gcm_open_seal : forall key iv aad m,
    aes256gcm_open key iv aad (snd (aes256gcm_seal key iv aad m))
                   (fst (aes256gcm_seal key iv aad m)) = Some m;
  (** [createCipher('aes-256-cbc', password)], [update] then [final] *)
  aes256cbc_encrypt : string -> bytes -> bytes;
  (** [createDecipher('aes-256-cbc', password)]; [None] when it throws *)
  aes256cbc_decrypt : string -> bytes -> option bytes;
  aes256cbc_decrypt_encrypt : forall pw m,
    aes256cbc_decrypt pw (aes256cbc_encrypt pw m) = Some m;
  (** [Buffer.toString('base64')], [Buffer.from(s, 'base64')] and the
      url-safe variant; decoding never throws *)
  base64_encode : bytes -> string;
  base64_decode : string -> bytes;
  base64_decode_encode : forall b, base64_decode (base64_encode b) = b;
  base64_encode_empty : forall b, base64_encode b = "" -> b = [];
  base64url_encode : bytes -> string;
  base64url_decode : string -> bytes;
  base64url_decode_encode : forall b, base64url_decode (base64url_encode b) = b;
  (** [JSON.stringify], [JSON.parse] ([None] is a thrown SyntaxError) *)
  JSON_stringify : json -> string;
  JSON_parse : string -> option json;
  JSON_parse_stringify : forall v,
    json_wf v = true -> JSON_parse (JSON_stringify v) = Some v;
  (** the ToNumber coercion of [now - x]; [None] is NaN *)
  ToNumber : json -> option Z;
  ToNumber_num : forall n, ToNumber (JNum n) = Some n;
  (** [Date.prototype.toISOString], also what [JSON.stringify] prints for a [Date] *)
  Date_toISOString : Z -> string
}.

(** ** Exceptions and results *)

Inductive TRPCCode :=
  | BAD_REQUEST | UNAUTHORIZED | FORBIDDEN | NOT_FOUND
  | TOO_MANY_REQUESTS | INTERNAL_SERVER_ERROR.

(** What a [throw] carries: a [TRPCError], or a plain [Error] with the
    optional [response.status] that [handleOAuthError] inspects. *)
Inductive Exn :=
  | TRPCError (code : TRPCCode) (message : string)
  | JsError (message : string) (status : option Z).

Inductive Result (A : Type) :=
  | Ok (a : A)
  | Throw (e : Exn).
Arguments Ok {A} a.
Arguments Throw {A} e.

(** ** The data the services share *)

Inductive SocialPlatform := FACEBOOK | X | LINKEDIN.
Inductive AccountType := PERSONAL | BUSINESS | PAGE.

(** The string values of the two TypeScript enums. *)
Definition platform_tag (p : SocialPlatform) : string :=
  match p with FACEBOOK => "facebook" | X => "x" | LINKEDIN => "linkedin" end.

Definition accountType_tag (a : AccountType) : string :=
  match a with PERSONAL => "personal" | BUSINESS => "business" | PAGE => "page" end.

(** A row of the Prisma model [SocialAccount]. *)
Record SocialAccount := {
  id : string;
  workspaceId : string;
  platform : string;
  accountType : string;
  platformAccountId : string;
  displayName : string;
  encryptedAccessToken : string;
  encryptedRefreshToken : option string;
  tokenExpiresAt : option Z;
  isActive : bool;
  permissions : list string;
  platformMetadata : json;
  createdAt : Z;
  updatedAt : Z
}.

(** [interface SocialCredentials] of the credential service. *)
Record SocialCredentials := {
  accessToken : string;
  refreshToken : option string;
  expiresAt : option Z;
  scope : option (list string);
  cred_platformAccountId : string;
  cred_displayName : string;
  cred_permissions : list string;
  cred_platformMetadata : json
}.

(** An entry of [OAuthSessionStore.store]. *)
Record SessionEntry := { data : json; entry_expiresAt : Z }.

(** [interface OAuthTokens] and [interface PlatformAccount]. *)
Record OAuthTokens := {
  tok_accessToken : string;
  tok_refreshToken : option string;
  tok_expiresIn : option Z;
  tok_scope : option (list string)
}.

Record PlatformAccount := {
  acc_id : string;
  acc_name : string;
  acc_username : option string;
  acc_accountType : AccountType;
  acc_permissions : list string;
  acc_metadata : json
}.

(** What [fetch] does at one endpoint: reject, or resolve to a response with
    its [ok] flag, [statusText] and decoded body. *)
Inductive Fetch (A : Type) :=
  | Rejects (e : Exn)
  | Responds (ok : bool) (statusText : string) (body : A).
Arguments Rejects {A} e.
Arguments Responds {A} ok statusText body.

(** The remote platforms, as far as the providers talk to them. *)
Record UserInfo := {
  user_id : string;
  user_name : string;
  user_username : option string;
  user_public_metrics : option json
}.

(** The remote platforms, as far as the providers talk to them: the token
    endpoint, the identity endpoint, Facebook's permission and page lists
    (each permission with its [status]), and the revoke endpoint. *)
Record Network := {
  tokenEndpoint : SocialPlatform -> Fetch OAuthTokens;
  userEndpoint : SocialPlatform -> Fetch UserInfo;
  permissionsEndpoint : Fetch (list (string * string));
  pagesEndpoint : Fetch (option (list json));
  revokeEndpoint : SocialPlatform -> Fetch unit
}.

Inductive LogLevel := LOG | WARN | ERROR.

(** ** The world and the monad of the services *)

(** Everything the code reads or mutates outside its arguments: the
    environment variables, the clock behind [Date.now()], the random source,
    the console, the [SocialAccount] table (with whether the database
    answers), the static session map and its timer, and the network. *)
Record World `{NodeRuntime} := {
  env_ENCRYPTION_KEY : option string;
  env_OAUTH_STATE_SECRET : option string;
  env_AUTH_SECRET : option string;
  clock : Z;
  entropy : Entropy;
  console : list (LogLevel * string);
  socialAccount : list SocialAccount;
  prismaOnline : bool;
  sessionStore : gmap string SessionEntry;
  cleanupTimer : bool;
  network : Network
}.

Section Monad.
Context `{rt : NodeRuntime}.

Definition M (A : Type) : Type := World -> Result A * World.

Definition ret {A} (a : A) : M A := fun w => (Ok a, w).

Definition bind {A B} (m : M A) (k : A -> M B) : M B :=
  fun w =>
    match m w with
    | (Ok a, w') => k a w'
    | (Throw e, w') => (Throw e, w')
    end.

Definition throw {A} (e : Exn) : M A := fun w => (Throw e, w).

(** [try { m } catch (error) { handler(error) }] *)
Definition tryCatch {A} (m : M A) (handler : Exn -> M A) : M A :=
  fun w =>
    match m w with
    | (Ok a, w') => (Ok a, w')
    | (Throw e, w') => handler e w'
    end.

Definition gets {A} (f : World -> A) : M A := fun w => (Ok (f w), w).

Definition modify (f : World -> World) : M unit := fun w => (Ok tt, f w).

Definition set_entropy (e : Entropy) (w : World) : World :=
  {| env_ENCRYPTION_KEY := env_ENCRYPTION_KEY w;
     env_OAUTH_STATE_SECRET := env_OAUTH_STATE_SECRET w;
     env_AUTH_SECRET := env_AUTH_SECRET w;
     clock := clock w; entropy := e; console := console w;
     socialAccount := socialAccount w; prismaOnline := prismaOnline w;
     sessionStore := sessionStore w; cleanupTimer := cleanupTimer w;
     network := network w |}.

Definition set_console (c : list (LogLevel * string)) (w : World) : World :=
  {| env_ENCRYPTION_KEY := env_ENCRYPTION_KEY w;
     env_OAUTH_STATE_SECRET := env_OAUTH_STATE_SECRET w;
     env_AUTH_SECRET := env_AUTH_SECRET w;
     clock := clock w; entropy := entropy w; console := c;
     socialAccount := socialAccount w; prismaOnline := prismaOnline w;
     sessionStore := sessionStore w; cleanupTimer := cleanupTimer w;
     network := network w |}.

Definition set_socialAccount (rows : list SocialAccount) (w : World) : World :=
  {| env_ENCRYPTION_KEY := env_ENCRYPTION_KEY w;
     env_OAUTH_STATE_SECRET := env_OAUTH_STATE_SECRET w;
     env_AUTH_SECRET := env_AUTH_SECRET w;
     clock := clock w; entropy := entropy w; console := console w;
     socialAccount := rows; prismaOnline := prismaOnline w;
     sessionStore := sessionStore w; cleanupTimer := cleanupTimer w;
     network := network w |}.

Definition set_sessionStore (s : gmap string SessionEntry) (w : World) : World :=
  {| env_ENCRYPTION_KEY := env_ENCRYPTION_KEY w;
     env_OAUTH_STATE_SECRET := env_OAUTH_STATE_SECRET w;
     env_AUTH_SECRET := env_AUTH_SECRET w;
     clock := clock w; entropy := entropy w; console := console w;
     socialAccount := socialAccount w; prismaOnline := prismaOnline w;
     sessionStore := s; cleanupTimer := cleanupTimer w;
     network := network w |}.

Definition set_cleanupTimer (t : bool) (w : World) : World :=
  {| env_ENCRYPTION_KEY := env_ENCRYPTION_KEY w;
     env_OAUTH_STATE_SECRET := env_OAUTH_STATE_SECRET w;
     env_AUTH_SECRET := env_AUTH_SECRET w;
     clock := clock w; entropy := entropy w; console := console w;
     socialAccount := socialAccount w; prismaOnline := prismaOnline w;
     sessionStore := sessionStore w; cleanupTimer := t;
     network := network w |}.

(** The same world at another reading of the clock. *)
Definition set_clock (t : Z) (w : World) : World :=
  {| env_ENCRYPTION_KEY := env_ENCRYPTION_KEY w;
     env_OAUTH_STATE_SECRET := env_OAUTH_STATE_SECRET w;
     env_AUTH_SECRET := env_AUTH_SECRET w;
     clock := t; entropy := entropy w; console := console w;
     socialAccount := socialAccount w; prismaOnline := prismaOnline w;
     sessionStore := sessionStore w; cleanupTimer := cleanupTimer w;
     network := network w |}.

(** [Date.now()] *)
Definition Date_now : M Z := gets clock.

(** [crypto.randomBytes(n)] *)
Definition crypto_randomBytes (n : nat) : M bytes :=
  fun w => let (b, e) := randomBytes (entropy w) n in (Ok b, set_entropy e w).

(** [console.log], [console.warn], [console.error]: newest line first *)
Definition console_write (lvl : LogLevel) (msg : string) : M unit :=
  modify (fun w => set_console ((lvl, msg) :: console w) w).

End Monad.

Notation "x <- m ;; k" := (bind m (fun x => k))
  (at level 100, m at next level, right associativity,
   format "'[v' x  <-  m  ;;  '/' k ']'").
Notation "m ;;; k" := (bind m (fun _ => k))
  (at level 100, right associativity, format "'[v' m  ;;;  '/' k ']'").

(** ** [src/lib/encryption.ts] *)

Module Encryption.
Section Encryption.
Context `{rt : NodeRuntime}.

Definition IV_LENGTH : nat := 16.
Definition SALT_LENGTH : nat := 32.
Definition TAG_LENGTH : nat := 16.

Definition deriveKey (masterKey : string) (salt : bytes) : bytes :=
  pbkdf2Sync masterKey salt 100000 32 "sha256".

Definition encrypt (text : string) : M string :=
  tryCatch
    (masterKey <- gets env_ENCRYPTION_KEY ;;
     match masterKey with
     | Some masterKey =>
         if truthy_string masterKey then
           salt <- crypto_randomBytes SALT_LENGTH ;;
           iv <- crypto_randomBytes IV_LENGTH ;;
           let key := deriveKey masterKey salt in
           let sealed := aes256gcm_seal key iv salt (list_byte_of_string text) in
           let encrypted := Hex.encode (fst sealed) in
           let tag := snd sealed in
           let combined := salt ++ iv ++ tag ++ Hex.decode encrypted in
           ret (base64_encode combined)
         else throw (JsError "ENCRYPTION_KEY environment variable is not set" None)
     | None => throw (JsError "ENCRYPTION_KEY environment variable is not set" None)
     end)
    (fun error =>
       console_write ERROR "Encryption error:" ;;;
       throw (JsError "Failed to encrypt data" None)).

Definition decrypt (encryptedData : string) : M string :=
  tryCatch
    (masterKey <- gets env_ENCRYPTION_KEY ;;
     match masterKey with
     | Some masterKey =>
         if truthy_string masterKey then
           let combined := base64_decode encryptedData in
           let salt := take SALT_LENGTH combined in
           let iv := take IV_LENGTH (drop SALT_LENGTH combined) in
           let tag := take TAG_LENGTH (drop (SALT_LENGTH + IV_LENGTH) combined) in
           let encrypted := drop (SALT_LENGTH + IV_LENGTH + TAG_LENGTH) combined in
           let key := deriveKey masterKey salt in
           match aes256gcm_open key iv salt tag encrypted with
           | Some decrypted => ret (string_of_list_byte decrypted)
           | None => throw (JsError "Unsupported state or unable to authenticate data" None)
           end
         else throw (JsError "ENCRYPTION_KEY environment variable is not set" None)
     | None => throw (JsError "ENCRYPTION_KEY environment variable is not set" None)
     end)
    (fun error =>
       console_write ERROR "Decryption error:" ;;;
       throw (JsError "Failed to decrypt data" None)).

Definition encryptObject (obj : json) : M string :=
  encrypt (JSON_stringify obj).


(** *** [class CredentialManager] *)

Record EncryptedCredentials := {
  enc_encryptedAccessToken : string;
  enc_encryptedRefreshToken : option string;
  enc_encryptedMetadata : option string
}.

(** What remains of [{ ...credentials }] once [accessToken] and
    [refreshToken] are deleted, as [JSON.stringify] prints it: a property
    whose value is [undefined] is left out, a [Date] prints as its ISO
    string. *)
Definition metadata_json (expiresAt : option Z) (scope : option (list string)) : json :=
  JObj (match expiresAt with
        | Some t => [("expiresAt", JStr (Date_toISOString t))]
        | None => []
        end ++
        match scope with
        | Some sc => [("scope", JArr (map JStr sc))]
        | None => []
        end).

(** [encryptCredentials], at the call shape of the credential service: an
    object literal with the four keys [accessToken], [refreshToken],
    [expiresAt], [scope].  Two keys remain after the deletes, so
    [Object.keys(metadata).length > 0] holds and the metadata is always
    encrypted. *)
Definition encryptCredentials (accessToken : string) (refreshToken : option string)
    (expiresAt : option Z) (scope : option (list string)) : M EncryptedCredentials :=
  a <- encrypt accessToken ;;
  r <- (if truthy_ostring refreshToken
        then x <- encrypt (default "" refreshToken) ;; ret (Some x)
        else ret None) ;;
  m <- encryptObject (metadata_json expiresAt scope) ;;
  ret {| enc_encryptedAccessToken := a;
         enc_encryptedRefreshToken := r;
         enc_encryptedMetadata := Some m |}.

Record DecryptedCredentials := {
  dec_accessToken : string;
  dec_refreshToken : option string;
  dec_scope : option (list string)
}.

(** [decryptCredentials], at the call shape of the credential service:
    [encryptedMetadata] is never passed, so nothing is assigned over the
    result and its [scope] stays [undefined]. *)
Definition decryptCredentials (encryptedAccessToken : string)
    (encryptedRefreshToken : option string) : M DecryptedCredentials :=
  a <- decrypt encryptedAccessToken ;;
  r <- (if truthy_ostring encryptedRefreshToken
        then x <- decrypt (default "" encryptedRefreshToken) ;; ret (Some x)
        else ret None) ;;
  ret {| dec_accessToken := a; dec_refreshToken := r; dec_scope := None |}.

End Encryption.
End Encryption.

(** ** [src/server/services/auth/oauth-state-manager.ts] *)

(** Property read [v.k]; on [null] JavaScript throws a TypeError, which the
    callers below treat before reading. *)
Definition property (v : json) (k : string) : option json :=
  match v with
  | JObj props => assoc k props
  | _ => None
  end.

Module OAuthStateManager.
Section OAuthStateManager.
Context `{rt : NodeRuntime}.

Definition STATE_EXPIRY_MS : Z := 10 * 60 * 1000.

(** The object literal [stateData] of [generateState]. *)
Definition stateData (workspaceId : string) (platform : SocialPlatform)
    (accountType : AccountType) (timestamp : Z) (nonce : string) : json :=
  JObj [ ("workspaceId", JStr workspaceId);
         ("platform", JStr (platform_tag platform));
         ("accountType", JStr (accountType_tag accountType));
         ("timestamp", JNum timestamp);
         ("nonce", JStr nonce) ].

Definition getStateSecret : M string :=
  s1 <- gets env_OAUTH_STATE_SECRET ;;
  s2 <- gets env_AUTH_SECRET ;;
  let secret := if truthy_ostring s1 then s1 else s2 in
  match secret with
  | Some secret =>
      if truthy_string secret then ret secret
      else throw (JsError "OAuth state secret not configured" None)
  | None => throw (JsError "OAuth state secret not configured" None)
  end.

Definition generateState (workspaceId : string) (platform : SocialPlatform)
    (accountType : AccountType) : M string :=
  timestamp <- Date_now ;;
  rnd <- crypto_randomBytes 16 ;;
  let nonce := Hex.encode rnd in
  let stateJson :=
    JSON_stringify (stateData workspaceId platform accountType timestamp nonce) in
  secret <- getStateSecret ;;
  let encrypted :=
    Hex.encode (aes256cbc_encrypt secret (list_byte_of_string stateJson)) in
  ret (base64url_encode (Hex.decode encrypted)).

Record ParsedState := {
  state_data : option json;
  isValid : bool;
  error : option string
}.

(** [now - stateData.timestamp > STATE_EXPIRY_MS]; a NaN compares false. *)
Definition expired (now : Z) (timestamp : option json) : bool :=
  match timestamp with
  | Some t =>
      match ToNumber t with
      | Some n => now - n >? STATE_EXPIRY_MS
      | None => false
      end
  | None => false
  end.

Definition parseState (state : string) : M ParsedState :=
  tryCatch
    (let encrypted := Hex.encode (base64url_decode state) in
     secret <- getStateSecret ;;
     match aes256cbc_decrypt secret (Hex.decode encrypted) with
     | None => throw (JsError "bad decrypt" None)
     | Some plain =>
         let decrypted := string_of_list_byte plain in
         match JSON_parse decrypted with
         | None => throw (JsError "Unexpected token in JSON" None)
         | Some JNull => throw (JsError "Cannot read properties of null" None)
         | Some stateData =>
             if negb (truthy (property stateData "workspaceId"))
                || negb (truthy (property stateData "platform"))
                || negb (truthy (property stateData "accountType"))
                || negb (truthy (property stateData "timestamp"))
                || negb (truthy (property stateData "nonce"))
             then ret {| state_data := None; isValid := false;
                         error := Some "Invalid state format" |}
             else
               now <- Date_now ;;
               if expired now (property stateData "timestamp")
               then ret {| state_data := Some stateData; isValid := false;
                           error := Some "State has expired" |}
               else ret {| state_data := Some stateData; isValid := true;
                           error := None |}
         end
     end)
    (fun err =>
       console_write ERROR "Failed to parse OAuth state:" ;;;
       ret {| state_data := None; isValid := false;
              error := Some "Failed to parse state" |}).

Definition generateCodeVerifier : M string :=
  rnd <- crypto_randomBytes 32 ;;
  ret (base64url_encode rnd).

End OAuthStateManager.
End OAuthStateManager.

Module OAuthSessionStore.
Section OAuthSessionStore.
Context `{rt : NodeRuntime}.

Definition CLEANUP_INTERVAL : Z := 5 * 60 * 1000.
Definition DEFAULT_TTL : Z := 10 * 60 * 1000.

(** [setInterval(() => this.cleanup(), CLEANUP_INTERVAL)]: the timer is on. *)
Definition startCleanup : M unit := modify (set_cleanupTimer true).

(** [set(key, data, ttlMs = 10 * 60 * 1000)]; [None] takes the default. *)
Definition set (key : string) (data : json) (ttlMs : option Z) : M unit :=
  now <- Date_now ;;
  let expiresAt := now + default DEFAULT_TTL ttlMs in
  modify (fun w => set_sessionStore
    (<[key := {| data := data; entry_expiresAt := expiresAt |}]> (sessionStore w)) w) ;;;
  timer <- gets cleanupTimer ;;
  if negb timer then startCleanup else ret tt.

(** [get(key)]: [None] is the [null] of a missing or expired entry. *)
Definition get (key : string) : M (option json) :=
  store <- gets sessionStore ;;
  match store !! key with
  | None => ret None
  | Some entry =>
      now <- Date_now ;;
      if now >? entry_expiresAt entry then
        modify (fun w => set_sessionStore (delete key (sessionStore w)) w) ;;;
        ret None
      else
        modify (fun w => set_sessionStore (delete key (sessionStore w)) w) ;;;
        ret (Some (data entry))
  end.

Definition has (key : string) : M bool :=
  store <- gets sessionStore ;;
  match store !! key with
  | None => ret false
  | Some entry =>
      now <- Date_now ;;
      if now >? entry_expiresAt entry then
        modify (fun w => set_sessionStore (delete key (sessionStore w)) w) ;;;
        ret false
      else ret true
  end.

Definition cleanup : M unit :=
  now <- Date_now ;;
  modify (fun w => set_sessionStore
    (filter (fun kv => negb (now >? entry_expiresAt (snd kv))) (sessionStore w)) w) ;;;
  store <- gets sessionStore ;;
  timer <- gets cleanupTimer ;;
  if bool_decide (size store = 0%nat) && timer
  then modify (set_cleanupTimer false)
  else ret tt.

End OAuthSessionStore.
End OAuthSessionStore.

(** ** The Prisma model [socialAccount] *)

Module Prisma.
Section Prisma.
Context `{rt : NodeRuntime}.

(** Every query rejects while the database does not answer. *)
Definition query : M (list SocialAccount) :=
  online <- gets prismaOnline ;;
  if online then gets socialAccount
  else throw (JsError "Can't reach database server" None).

Definition has_id (accountId : string) (r : SocialAccount) : bool :=
  String.eqb (id r) accountId.

Definition has_key (ws pf pid : string) (r : SocialAccount) : bool :=
  String.eqb (workspaceId r) ws && String.eqb (platform r) pf
  && String.eqb (platformAccountId r) pid.

(** [findUnique({ where: { id } })] *)
Definition findUnique (accountId : string) : M (option SocialAccount) :=
  rows <- query ;;
  ret (List.find (has_id accountId) rows).

(** [findUnique({ where: { workspaceId_platform_platformAccountId } })] *)
Definition findUniqueByKey (ws pf pid : string) : M (option SocialAccount) :=
  rows <- query ;;
  ret (List.find (has_key ws pf pid) rows).

(** The [data] of an [update]: a field that is [None] is [undefined] in the
    object literal (or absent from it), and Prisma leaves the column as it is. *)
Record UpdateData := {
  upd_displayName : option string;
  upd_encryptedAccessToken : option string;
  upd_encryptedRefreshToken : option string;
  upd_tokenExpiresAt : option Z;
  upd_isActive : option bool;
  upd_permissions : option (list string);
  upd_platformMetadata : option json;
  upd_updatedAt : option Z
}.

Definition apply_update (d : UpdateData) (r : SocialAccount) : SocialAccount :=
  {| id := id r;
     workspaceId := workspaceId r;
     platform := platform r;
     accountType := accountType r;
     platformAccountId := platformAccountId r;
     displayName := default (displayName r) (upd_displayName d);
     encryptedAccessToken := default (encryptedAccessToken r) (upd_encryptedAccessToken d);
     encryptedRefreshToken :=
       match upd_encryptedRefreshToken d with
       | Some x => Some x
       | None => encryptedRefreshToken r
       end;
     tokenExpiresAt :=
       match upd_tokenExpiresAt d with
       | Some t => Some t
       | None => tokenExpiresAt r
       end;
     isActive := default (isActive r) (upd_isActive d);
     permissions := default (permissions r) (upd_permissions d);
     platformMetadata := default (platformMetadata r) (upd_platformMetadata d);
     createdAt := createdAt r;
     updatedAt := default (updatedAt r) (upd_updatedAt d) |}.

(** [update({ where: { id }, data })]; rejects when no row has the id. *)
Definition update (accountId : string) (d : UpdateData) : M SocialAccount :=
  rows <- query ;;
  match List.find (has_id accountId) rows with
  | None => throw (JsError "Record to update not found." None)
  | Some r =>
      modify (set_socialAccount
        (map (fun x => if has_id accountId x then apply_update d x else x) rows)) ;;;
      ret (apply_update d r)
  end.

Fixpoint longest (rows : list SocialAccount) : nat :=
  match rows with
  | [] => 0%nat
  | r :: rows' => Nat.max (String.length (id r)) (longest rows')
  end.

Fixpoint pad (n : nat) : string :=
  match n with
  | O => EmptyString
  | S n' => String "c" (pad n')
  end.

(** [@default(cuid())]: an id no row of the table has; the model takes one
    longer than every id present. *)
Definition cuid (rows : list SocialAccount) : string := pad (S (longest rows)).

Record CreateData := {
  new_workspaceId : string;
  new_platform : string;
  new_accountType : string;
  new_platformAccountId : string;
  new_displayName : string;
  new_encryptedAccessToken : string;
  new_encryptedRefreshToken : option string;
  new_tokenExpiresAt : option Z;
  new_isActive : bool;
  new_permissions : list string;
  new_platformMetadata : json
}.

(** [create({ data })]; the unique index on (workspaceId, platform,
    platformAccountId) rejects a second row with the same key. *)
Definition new_row (d : CreateData) (rows : list SocialAccount) (now : Z)
    : SocialAccount :=
  {| id := cuid rows;
     workspaceId := new_workspaceId d;
     platform := new_platform d;
     accountType := new_accountType d;
     platformAccountId := new_platformAccountId d;
     displayName := new_displayName d;
     encryptedAccessToken := new_encryptedAccessToken d;
     encryptedRefreshToken := new_encryptedRefreshToken d;
     tokenExpiresAt := new_tokenExpiresAt d;
     isActive := new_isActive d;
     permissions := new_permissions d;
     platformMetadata := new_platformMetadata d;
     createdAt := now;
     updatedAt := now |}.

Definition create (d : CreateData) : M SocialAccount :=
  rows <- query ;;
  now <- Date_now ;;
  if existsb (has_key (new_workspaceId d) (new_platform d) (new_platformAccountId d)) rows
  then throw (JsError "Unique constraint failed" None)
  else
    let r := new_row d rows now in
    modify (set_socialAccount (rows ++ [r])) ;;;
    ret r.

(** [updateMany({ where: { tokenExpiresAt: { lt }, isActive: true }, data })] *)
Definition expired_active (now : Z) (r : SocialAccount) : bool :=
  match tokenExpiresAt r with
  | Some t => (t <? now) && isActive r
  | None => false
  end.

Definition updateManyExpired (now : Z) (d : UpdateData) : M nat :=
  rows <- query ;;
  modify (set_socialAccount
    (map (fun x => if expired_active now x then apply_update d x else x) rows)) ;;;
  ret (length (List.filter (expired_active now) rows)).

End Prisma.
End Prisma.

(** ** [src/server/services/credential.ts] *)

Module CredentialService.
Section CredentialService.
Context `{rt : NodeRuntime}.
Import Encryption.

(** [interface StoredCredentials] *)
Record StoredCredentials := {
  sc_id : string;
  sc_workspaceId : string;
  sc_platform : string;
  sc_accountType : string;
  sc_platformAccountId : string;
  sc_displayName : string;
  sc_isActive : bool;
  sc_tokenExpiresAt : option Z;
  sc_permissions : list string;
  sc_platformMetadata : json;
  sc_createdAt : Z;
  sc_updatedAt : Z
}.

Definition mapToStoredCredentials (account : SocialAccount) : StoredCredentials :=
  {| sc_id := id account;
     sc_workspaceId := workspaceId account;
     sc_platform := platform account;
     sc_accountType := accountType account;
     sc_platformAccountId := platformAccountId account;
     sc_displayName := displayName account;
     sc_isActive := isActive account;
     sc_tokenExpiresAt := tokenExpiresAt account;
     sc_permissions := permissions account;
     sc_platformMetadata := platformMetadata account;
     sc_createdAt := createdAt account;
     sc_updatedAt := updatedAt account |}.

(** The audit line; the [try] around [console.log] never fires. *)
Definition logCredentialAccess (accountId action details : string) : M unit :=
  now <- Date_now ;;
  console_write LOG
    ("[CREDENTIAL_AUDIT] " +:+ Date_toISOString now +:+ " - Account: " +:+ accountId
     +:+ ", Action: " +:+ action +:+ ", Details: " +:+ details).

(** The [data] of the two writes of [storeCredentials]. *)
Definition store_update (credentials : SocialCredentials)
    (encryptedData : EncryptedCredentials) (now : Z) : Prisma.UpdateData :=
  {| Prisma.upd_displayName := Some (cred_displayName credentials);
     Prisma.upd_encryptedAccessToken := Some (enc_encryptedAccessToken encryptedData);
     Prisma.upd_encryptedRefreshToken := enc_encryptedRefreshToken encryptedData;
     Prisma.upd_tokenExpiresAt := expiresAt credentials;
     Prisma.upd_isActive := Some true;
     Prisma.upd_permissions := Some (cred_permissions credentials);
     Prisma.upd_platformMetadata := Some (cred_platformMetadata credentials);
     Prisma.upd_updatedAt := Some now |}.

Definition store_create (workspaceId platform accountType : string)
    (credentials : SocialCredentials) (encryptedData : EncryptedCredentials)
    : Prisma.CreateData :=
  {| Prisma.new_workspaceId := workspaceId;
     Prisma.new_platform := platform;
     Prisma.new_accountType := accountType;
     Prisma.new_platformAccountId := cred_platformAccountId credentials;
     Prisma.new_displayName := cred_displayName credentials;
     Prisma.new_encryptedAccessToken := enc_encryptedAccessToken encryptedData;
     Prisma.new_encryptedRefreshToken := enc_encryptedRefreshToken encryptedData;
     Prisma.new_tokenExpiresAt := expiresAt credentials;
     Prisma.new_isActive := true;
     Prisma.new_permissions := cred_permissions credentials;
     Prisma.new_platformMetadata := cred_platformMetadata credentials |}.

Definition storeCredentials (workspaceId platform accountType : string)
    (credentials : SocialCredentials) : M StoredCredentials :=
  tryCatch
    (encryptedData <- encryptCredentials (accessToken credentials)
                        (refreshToken credentials) (expiresAt credentials)
                        (scope credentials) ;;
     existingAccount <- Prisma.findUniqueByKey workspaceId platform
                          (cred_platformAccountId credentials) ;;
     socialAccount <-
       match existingAccount with
       | Some existing =>
           now <- Date_now ;;
           Prisma.update (id existing) (store_update credentials encryptedData now)
       | None =>
           Prisma.create
             (store_create workspaceId platform accountType credentials encryptedData)
       end ;;
     logCredentialAccess (id socialAccount) "STORED" "Credentials stored successfully" ;;;
     ret (mapToStoredCredentials socialAccount))
    (fun err =>
       console_write ERROR "Failed to store credentials:" ;;;
       throw (TRPCError INTERNAL_SERVER_ERROR "Failed to store credentials securely")).

(** [socialAccount.tokenExpiresAt && socialAccount.tokenExpiresAt < new Date()] *)
Definition token_expired (account : SocialAccount) (now : Z) : bool :=
  match tokenExpiresAt account with
  | Some t => t <? now
  | None => false
  end.

Definition getCredentials (accountId : string) : M (option SocialCredentials) :=
  tryCatch
    (socialAccount <- Prisma.findUnique accountId ;;
     match socialAccount with
     | None => ret None
     | Some account =>
         if negb (isActive account) then ret None
         else
           now <- Date_now ;;
           if token_expired account now then
             logCredentialAccess accountId "EXPIRED" "Token expired" ;;;
             ret None
           else
             decryptedData <- decryptCredentials (encryptedAccessToken account)
                                (if truthy_ostring (encryptedRefreshToken account)
                                 then encryptedRefreshToken account else None) ;;
             logCredentialAccess accountId "ACCESSED"
               "Credentials accessed for API call" ;;;
             ret (Some {| accessToken := dec_accessToken decryptedData;
                          refreshToken := dec_refreshToken decryptedData;
                          expiresAt := tokenExpiresAt account;
                          scope := dec_scope decryptedData;
                          cred_platformAccountId := platformAccountId account;
                          cred_displayName := displayName account;
                          cred_permissions := permissions account;
                          cred_platformMetadata := platformMetadata account |})
     end)
    (fun err =>
       console_write ERROR "Failed to retrieve credentials:" ;;;
       logCredentialAccess accountId "ERROR" "Failed to retrieve credentials" ;;;
       throw (TRPCError INTERNAL_SERVER_ERROR "Failed to retrieve credentials")).

(** [Partial<SocialCredentials>] *)
Record CredentialUpdates := {
  u_accessToken : option string;
  u_refreshToken : option string;
  u_expiresAt : option Z;
  u_scope : option (list string);
  u_displayName : option string;
  u_permissions : option (list string);
  u_platformMetadata : option json
}.

(** [a || b] on optional strings *)
Definition or_else (a b : option string) : option string :=
  if truthy_ostring a then a else b.

(** The object [updateData] as it stands before the write: [tokens] are the
    two encrypted fields, set only when a token was supplied. *)
Definition updateData (updates : CredentialUpdates)
    (tokens : option string * option string) (now : Z) : Prisma.UpdateData :=
  {| Prisma.upd_displayName := u_displayName updates;
     Prisma.upd_encryptedAccessToken := fst tokens;
     Prisma.upd_encryptedRefreshToken := snd tokens;
     Prisma.upd_tokenExpiresAt := u_expiresAt updates;
     Prisma.upd_isActive := None;
     Prisma.upd_permissions := u_permissions updates;
     Prisma.upd_platformMetadata := u_platformMetadata updates;
     Prisma.upd_updatedAt := Some now |}.

(** The [data] of [revokeCredentials] and of the expiry sweep. *)
Definition deactivate (now : Z) : Prisma.UpdateData :=
  {| Prisma.upd_displayName := None;
     Prisma.upd_encryptedAccessToken := None;
     Prisma.upd_encryptedRefreshToken := None;
     Prisma.upd_tokenExpiresAt := None;
     Prisma.upd_isActive := Some false;
     Prisma.upd_permissions := None;
     Prisma.upd_platformMetadata := None;
     Prisma.upd_updatedAt := Some now |}.

Definition updateCredentials (accountId : string) (updates : CredentialUpdates)
    : M StoredCredentials :=
  tryCatch
    (socialAccount <- Prisma.findUnique accountId ;;
     match socialAccount with
     | None => throw (TRPCError NOT_FOUND "Social account not found")
     | Some _ =>
         now <- Date_now ;;
         tokens <-
           (if truthy_ostring (u_accessToken updates)
               || truthy_ostring (u_refreshToken updates)
            then
              currentCredentials <- getCredentials accountId ;;
              encryptedData <-
                encryptCredentials
                  (default ""
                     (or_else (or_else (u_accessToken updates)
                                 (accessToken <$> currentCredentials))
                              (Some "")))
                  (or_else (u_refreshToken updates)
                     (currentCredentials ≫= refreshToken))
                  (match u_expiresAt updates with
                   | Some t => Some t
                   | None => currentCredentials ≫= expiresAt
                   end)
                  (match u_scope updates with
                   | Some sc => Some sc
                   | None => currentCredentials ≫= scope
                   end) ;;
              ret (Some (enc_encryptedAccessToken encryptedData),
                   if truthy_ostring (enc_encryptedRefreshToken encryptedData)
                   then enc_encryptedRefreshToken encryptedData else None)
            else ret (None, None)) ;;
         updatedAccount <- Prisma.update accountId (updateData updates tokens now) ;;
         logCredentialAccess accountId "UPDATED" "Credentials updated successfully" ;;;
         ret (mapToStoredCredentials updatedAccount)
     end)
    (fun err =>
       console_write ERROR "Failed to update credentials:" ;;;
       logCredentialAccess accountId "ERROR" "Failed to update credentials" ;;;
       throw (TRPCError INTERNAL_SERVER_ERROR "Failed to update credentials")).

Definition revokeCredentials (accountId : string) : M unit :=
  tryCatch
    (socialAccount <- Prisma.findUnique accountId ;;
     match socialAccount with
     | None => throw (TRPCError NOT_FOUND "Social account not found")
     | Some _ =>
         now <- Date_now ;;
         Prisma.update accountId
           (deactivate now) ;;;
         logCredentialAccess accountId "REVOKED" "Credentials revoked and deactivated"
     end)
    (fun err =>
       console_write ERROR "Failed to revoke credentials:" ;;;
       logCredentialAccess accountId "ERROR" "Failed to revoke credentials" ;;;
       throw (TRPCError INTERNAL_SERVER_ERROR "Failed to revoke credentials")).

Definition needsRefresh (accountId : string) : M bool :=
  tryCatch
    (socialAccount <- Prisma.findUnique accountId ;;
     match socialAccount with
     | None => ret false
     | Some account =>
         if negb (isActive account) then ret false
         else
           match tokenExpiresAt account with
           | None => ret false
           | Some t =>
               now <- Date_now ;;
               let fiveMinutesFromNow := now + 5 * 60 * 1000 in
               ret (t <=? fiveMinutesFromNow)
           end
     end)
    (fun err =>
       console_write ERROR "Failed to check refresh status:" ;;;
       ret true).

Definition cleanupExpiredCredentials : M nat :=
  tryCatch
    (now <- Date_now ;;
     count <- Prisma.updateManyExpired now
       (deactivate now) ;;
     console_write LOG "Cleaned up expired credentials" ;;;
     ret count)
    (fun err =>
       console_write ERROR "Failed to cleanup expired credentials:" ;;;
       ret 0%nat).

End CredentialService.
End CredentialService.

(** ** [src/server/services/auth/base-auth-provider.ts] *)

Module SocialAuthProvider.
Section SocialAuthProvider.
Context `{rt : NodeRuntime}.

(** [this.platform], fixed by each subclass's constructor *)
Variable platform : SocialPlatform.

(** [tokens.expiresIn ? new Date(Date.now() + tokens.expiresIn * 1000) : undefined] *)
Definition expiry_of (now : Z) (expiresIn : option Z) : option Z :=
  match expiresIn with
  | Some n => if Z.eqb n 0 then None else Some (now + n * 1000)
  | None => None
  end.

Definition storeCredentials (workspaceId : string) (account : PlatformAccount)
    (tokens : OAuthTokens) : M unit :=
  now <- Date_now ;;
  let credentials :=
    {| accessToken := tok_accessToken tokens;
       refreshToken := tok_refreshToken tokens;
       expiresAt := expiry_of now (tok_expiresIn tokens);
       scope := tok_scope tokens;
       cred_platformAccountId := acc_id account;
       cred_displayName := acc_name account;
       cred_permissions := acc_permissions account;
       cred_platformMetadata := acc_metadata account |} in
  CredentialService.storeCredentials workspaceId (platform_tag platform)
    (accountType_tag (acc_accountType account)) credentials ;;;
  ret tt.

Definition getStoredCredentials (accountId : string) : M (option SocialCredentials) :=
  CredentialService.getCredentials accountId.

(** [handleOAuthError]: the classification reads [error.response?.status],
    which a [TRPCError] does not have. *)
Definition handleOAuthError {A} (err : Exn) (context : string) : M A :=
  console_write ERROR ("OAuth error in " +:+ context +:+ ":") ;;;
  match err with
  | JsError _ (Some 401) =>
      throw (TRPCError UNAUTHORIZED
               "Authentication failed. Please try connecting your account again.")
  | JsError _ (Some 403) =>
      throw (TRPCError FORBIDDEN
               "Insufficient permissions. Please grant the required permissions.")
  | JsError _ (Some 429) =>
      throw (TRPCError TOO_MANY_REQUESTS "Rate limit exceeded. Please try again later.")
  | _ =>
      throw (TRPCError INTERNAL_SERVER_ERROR
               ("Failed to " +:+ context +:+ ". Please try again."))
  end.

(** [stateResult.data.workspaceId] handed to the credential service.  A
    value that is not a string is refused by Prisma's query validation
    inside [storeCredentials], whose [catch] rethrows. *)
Definition storeForState (stateData : json) (account : PlatformAccount)
    (tokens : OAuthTokens) : M unit :=
  match property stateData "workspaceId" with
  | Some (JStr workspaceId) => storeCredentials workspaceId account tokens
  | _ => throw (TRPCError INTERNAL_SERVER_ERROR "Failed to store credentials securely")
  end.

End SocialAuthProvider.
End SocialAuthProvider.

(** ** [src/server/services/auth/x-auth-provider.ts] *)

Module XAuthProvider.
Section XAuthProvider.
Context `{rt : NodeRuntime}.
Import SocialAuthProvider.

Definition getRequiredScopes : list string :=
  ["tweet.read"; "tweet.write"; "users.read"; "offline.access"].

Definition exchangeCodeForTokens (code redirectUri : string) (codeVerifier : json)
    : M OAuthTokens :=
  net <- gets network ;;
  match tokenEndpoint net X with
  | Rejects e => throw e
  | Responds ok statusText body =>
      if negb ok
      then throw (JsError ("Token exchange failed: " +:+ statusText) None)
      else ret body
  end.

Definition getAccountInfo (accessToken : string) : M PlatformAccount :=
  tryCatch
    (net <- gets network ;;
     match userEndpoint net X with
     | Rejects e => throw e
     | Responds ok statusText user =>
         if negb ok
         then throw (JsError ("Failed to get user info: " +:+ statusText) None)
         else ret {| acc_id := user_id user;
                     acc_name := user_name user;
                     acc_username := user_username user;
                     acc_accountType := PERSONAL;
                     acc_permissions := getRequiredScopes;
                     acc_metadata :=
                       JObj ([("platform", JStr "x")]
                             ++ match user_username user with
                                | Some u => [("username", JStr u)]
                                | None => []
                                end
                             ++ match user_public_metrics user with
                                | Some m => [("publicMetrics", m)]
                                | None => []
                                end
                             ++ [("apiVersion", JStr "2")]) |}
     end)
    (fun err => handleOAuthError err "get X account info").

Definition handleCallback (code state redirectUri : string)
    : M (PlatformAccount * OAuthTokens) :=
  stateResult <- OAuthStateManager.parseState state ;;
  match OAuthStateManager.isValid stateResult,
        OAuthStateManager.state_data stateResult with
  | true, Some stateData =>
      pkceData <- OAuthSessionStore.get ("pkce:" +:+ state) ;;
      match pkceData ≫= (fun d => property d "codeVerifier") with
      | Some codeVerifier =>
          if truthy (Some codeVerifier) then
            tryCatch
              (tokens <- exchangeCodeForTokens code redirectUri codeVerifier ;;
               account <- getAccountInfo (tok_accessToken tokens) ;;
               storeForState X stateData account tokens ;;;
               ret (account, tokens))
              (fun err => handleOAuthError err "X OAuth callback")
          else throw (TRPCError BAD_REQUEST "PKCE code verifier not found")
      | None => throw (TRPCError BAD_REQUEST "PKCE code verifier not found")
      end
  | _, _ => throw (TRPCError BAD_REQUEST "Invalid or expired OAuth state")
  end.

Definition revokeAccess (accountId : string) : M unit :=
  credentials <- getStoredCredentials accountId ;;
  match credentials with
  | None => ret tt
  | Some _ =>
      tryCatch
        (net <- gets network ;;
         match revokeEndpoint net X with
         | Rejects e => throw e
         | Responds ok statusText _ =>
             (if negb ok
              then console_write WARN ("Failed to revoke X token: " +:+ statusText)
              else ret tt) ;;;
             CredentialService.revokeCredentials accountId
         end)
        (fun err =>
           console_write ERROR "Error revoking X access:" ;;;
           CredentialService.revokeCredentials accountId)
  end.

End XAuthProvider.
End XAuthProvider.

(** ** [src/server/services/auth/facebook-auth-provider.ts] *)

Module FacebookAuthProvider.
Section FacebookAuthProvider.
Context `{rt : NodeRuntime}.
Import SocialAuthProvider.

Definition exchangeCodeForTokens (code redirectUri : string) : M OAuthTokens :=
  net <- gets network ;;
  match tokenEndpoint net FACEBOOK with
  | Rejects e => throw e
  | Responds ok statusText body =>
      if negb ok
      then throw (JsError ("Token exchange failed: " +:+ statusText) None)
      else ret {| tok_accessToken := tok_accessToken body;
                  tok_refreshToken := None;
                  tok_expiresIn := tok_expiresIn body;
                  tok_scope := None |}
  end.

Definition getUserPermissions (accessToken : string) : M (list string) :=
  tryCatch
    (net <- gets network ;;
     match permissionsEndpoint net with
     | Rejects e => throw e
     | Responds ok statusText perms =>
         if negb ok
         then console_write WARN
                ("Failed to get Facebook permissions: " +:+ statusText) ;;;
              ret []
         else ret (map fst (List.filter (fun p => String.eqb (snd p) "granted") perms))
     end)
    (fun err =>
       console_write ERROR "Error getting Facebook permissions:" ;;;
       ret []).

Definition getAccountInfo (accessToken : string) : M PlatformAccount :=
  tryCatch
    (net <- gets network ;;
     match userEndpoint net FACEBOOK with
     | Rejects e => throw e
     | Responds ok statusText user =>
         if negb ok
         then throw (JsError ("Failed to get user info: " +:+ statusText) None)
         else
           permissions <- getUserPermissions accessToken ;;
           ret {| acc_id := user_id user;
                  acc_name := user_name user;
                  acc_username := None;
                  acc_accountType := PERSONAL;
                  acc_permissions := permissions;
                  acc_metadata :=
                    JObj [("platform", JStr "facebook");
                          ("apiVersion", JStr "v19.0")] |}
     end)
    (fun err => handleOAuthError err "get Facebook account info").

Definition getUserPages (accessToken : string) : M (list json) :=
  tryCatch
    (net <- gets network ;;
     match pagesEndpoint net with
     | Rejects e => throw e
     | Responds ok statusText pages =>
         if negb ok
         then throw (JsError ("Failed to get user pages: " +:+ statusText) None)
         else ret (default [] pages)
     end)
    (fun err =>
       console_write ERROR "Error getting Facebook pages:" ;;;
       ret []).

(** [account.metadata.availablePages = pages] *)
Definition with_availablePages (account : PlatformAccount) (pages : list json)
    : PlatformAccount :=
  {| acc_id := acc_id account;
     acc_name := acc_name account;
     acc_username := acc_username account;
     acc_accountType := acc_accountType account;
     acc_permissions := acc_permissions account;
     acc_metadata :=
       match acc_metadata account with
       | JObj props => JObj (props ++ [("availablePages", JArr pages)])
       | other => other
       end |}.

Definition handleCallback (code state redirectUri : string)
    : M (PlatformAccount * OAuthTokens) :=
  stateResult <- OAuthStateManager.parseState state ;;
  match OAuthStateManager.isValid stateResult,
        OAuthStateManager.state_data stateResult with
  | true, Some stateData =>
      tryCatch
        (tokens <- exchangeCodeForTokens code redirectUri ;;
         account <- getAccountInfo (tok_accessToken tokens) ;;
         account <-
           match property stateData "accountType" with
           | Some (JStr "page") =>
               pages <- getUserPages (tok_accessToken tokens) ;;
               ret (with_availablePages account pages)
           | _ => ret account
           end ;;
         storeForState FACEBOOK stateData account tokens ;;;
         ret (account, tokens))
        (fun err => handleOAuthError err "Facebook OAuth callback")
  | _, _ => throw (TRPCError BAD_REQUEST "Invalid or expired OAuth state")
  end.

Definition revokeAccess (accountId : string) : M unit :=
  credentials <- getStoredCredentials accountId ;;
  match credentials with
  | None => ret tt
  | Some _ =>
      tryCatch
        (net <- gets network ;;
         match revokeEndpoint net FACEBOOK with
         | Rejects e => throw e
         | Responds ok statusText _ =>
             (if negb ok
              then console_write WARN
                     ("Failed to revoke Facebook token: " +:+ statusText)
              else ret tt) ;;;
             CredentialService.revokeCredentials accountId
         end)
        (fun err =>
           console_write ERROR "Error revoking Facebook access:" ;;;
           CredentialService.revokeCredentials accountId)
  end.

End FacebookAuthProvider.
End FacebookAuthProvider.

(** * The rest of the credential code

    The helpers of [src/lib/encryption.ts] beside [encrypt] and [decrypt],
    the remaining members of [OAuthStateManager], the listing query of the
    credential service, the token refresh and the authorization request of
    the providers, the credential utilities, and the role tables of the
    workspace middleware. *)

From Stdlib Require Import Sorting.Sorted.

(** ** What else the Node runtime provides *)

(** A decimal digit. *)
Definition is_digit (c : ascii) : bool :=
  let n := N_of_ascii c in ((48 <=? n) && (n <=? 57))%N.

Class NodeWeb `{rt : NodeRuntime} := {
  (** [crypto.createHash('sha256').update(x).digest()] *)
  sha256 : bytes -> bytes;
  (** [new URLSearchParams(record).toString()] *)
  URLSearchParams_toString : list (string * string) -> string;
  (** base64url text is empty only for the empty buffer *)
  base64url_encode_empty : forall b, base64url_encode b = "" -> b = [];
  (** [Number.prototype.toString] and [parseInt(s, 10)] ([None] is NaN): a
      safe non-negative integer prints as its decimal digits and reads
      back *)
  Number_toString : Z -> string;
  parseInt10 : string -> option Z;
  Number_toString_digits : forall n, 0 <= n < 2 ^ 53 ->
    Number_toString n <> ""
    /\ forallb is_digit (list_ascii_of_string (Number_toString n)) = true;
  parseInt10_toString : forall n, 0 <= n < 2 ^ 53 ->
    parseInt10 (Number_toString n) = Some n
}.

(** [s.split(':')] *)
Fixpoint split_colon (s : string) : list string :=
  match s with
  | EmptyString => [EmptyString]
  | String c s' =>
      if Ascii.eqb c ":" then EmptyString :: split_colon s'
      else
        match split_colon s' with
        | part :: parts => String c part :: parts
        | [] => [String c EmptyString]
        end
  end.

(** An element of a destructured array: past the end it is [undefined],
    which is falsy like the empty string. *)
Definition element (parts : list string) (i : nat) : string := nth i parts "".

(** ** [src/lib/encryption.ts]: tokens and comparison *)

Module EncryptionUtils.
Section EncryptionUtils.
Context `{rt : NodeRuntime}.



(** The ToInt32 conversion of the bitwise operators. *)
Definition toInt32 (z : Z) : Z := (z + 2 ^ 31) mod 2 ^ 32 - 2 ^ 31.

(** [s.charCodeAt(i)] on a string given by its UTF-16 code units; past the
    end it is NaN, which the bitwise operators read as 0. *)
Definition charCodeAt (s : list Z) (i : nat) : Z := nth i s 0.

(** [secureCompare(a, b)], the two strings as their UTF-16 code units. *)
Definition secureCompare (a b : list Z) : bool :=
  if negb (Nat.eqb (length a) (length b)) then false
  else
    let result :=
      fold_left
        (fun result i =>
           toInt32 (Z.lor result
                      (toInt32 (Z.lxor (toInt32 (charCodeAt a i))
                                       (toInt32 (charCodeAt b i))))))
        (seq 0 (length a)) 0 in
    Z.eqb result 0.

End EncryptionUtils.
End EncryptionUtils.

(** ** [src/server/services/auth/oauth-state-manager.ts]: PKCE, nonce, CSRF *)

#[global] Instance byte_eq_decision : EqDecision byte := Byte.byte_eq_dec.

Module OAuthStateTokens.
Section OAuthStateTokens.
Context `{web : NodeWeb}.

Definition generateCodeChallenge (verifier : string) : string :=
  base64url_encode (sha256 (list_byte_of_string verifier)).

Definition generateNonce : M string :=
  rnd <- crypto_randomBytes 16 ;;
  ret (Hex.encode rnd).

(** [crypto.timingSafeEqual]: a RangeError on buffers of different length. *)
Definition timingSafeEqual (a b : bytes) : M bool :=
  if negb (Nat.eqb (length a) (length b))
  then throw (JsError "Input buffers must have the same byte length" None)
  else ret (bool_decide (a = b)).

Definition validateCSRFToken (token expectedToken : string) : M bool :=
  if negb (truthy_string token) || negb (truthy_string expectedToken)
  then ret false
  else timingSafeEqual (list_byte_of_string token) (list_byte_of_string expectedToken).

End OAuthStateTokens.
End OAuthStateTokens.

(** ** [src/server/services/credential.ts]: the listing *)

Module CredentialQueries.
Section CredentialQueries.
Context `{rt : NodeRuntime}.
Import CredentialService.

(** [orderBy: { createdAt: "desc" }]: rows created at the same instant stay
    in the order of the table. *)
Fixpoint insert_desc (r : SocialAccount) (sorted : list SocialAccount)
    : list SocialAccount :=
  match sorted with
  | [] => [r]
  | x :: rest =>
      if createdAt x <=? createdAt r then r :: x :: rest
      else x :: insert_desc r rest
  end.

Definition orderBy_createdAt_desc (rows : list SocialAccount) : list SocialAccount :=
  fold_right insert_desc [] rows.

(** [findMany({ where: { workspaceId, isActive: true }, orderBy })] *)
Definition findMany (ws : string) : M (list SocialAccount) :=
  rows <- Prisma.query ;;
  ret (orderBy_createdAt_desc
         (List.filter (fun r => String.eqb (workspaceId r) ws && isActive r) rows)).

Definition getWorkspaceAccounts (workspaceId : string) : M (list StoredCredentials) :=
  tryCatch
    (socialAccounts <- findMany workspaceId ;;
     ret (map mapToStoredCredentials socialAccounts))
    (fun err =>
       console_write ERROR "Failed to get workspace accounts:" ;;;
       throw (TRPCError INTERNAL_SERVER_ERROR "Failed to retrieve workspace accounts")).

End CredentialQueries.
End CredentialQueries.

(** ** The providers: token refresh, permissions, authorization request *)

Module ProviderBase.
Section ProviderBase.
Context `{rt : NodeRuntime}.

(** [updateStoredCredentials] of [base-auth-provider.ts] *)
Definition updateStoredCredentials (accountId : string)
    (updates : CredentialService.CredentialUpdates) : M unit :=
  CredentialService.updateCredentials accountId updates ;;;
  ret tt.

(** [requiredScopes.every(scope => permissions.includes(scope))] *)
Definition every_included (requiredScopes permissions : list string) : bool :=
  forallb (fun scope => existsb (String.eqb scope) permissions) requiredScopes.

(** [{ url, state }] *)
Record AuthUrl := { url : string; auth_state : string }.

End ProviderBase.
End ProviderBase.

(** The state strings of [base-auth-provider.ts] *)

Module BaseState.
Section BaseState.
Context `{web : NodeWeb}.

(** [this.platform] *)
Variable platform : SocialPlatform.

Definition generateState (workspaceId : string) (accountType : AccountType) : M string :=
  now <- Date_now ;;
  let timestamp := Number_toString now in
  rnd <- crypto_randomBytes 16 ;;
  let randomBytes := Hex.encode rnd in
  let data :=
    workspaceId +:+ ":" +:+ platform_tag platform +:+ ":" +:+ accountType_tag accountType
    +:+ ":" +:+ timestamp +:+ ":" +:+ randomBytes in
  ret (base64url_encode (list_byte_of_string data)).

(** The answer of [parseState]; [timestamp] is [None] for NaN. *)
Record ParsedState := {
  workspaceId : string;
  platform_name : string;
  accountType : string;
  timestamp : option Z;
  isValid : bool
}.

Definition rejected : ParsedState :=
  {| workspaceId := ""; platform_name := platform_tag platform;
     accountType := accountType_tag PERSONAL; timestamp := Some 0; isValid := false |}.

Definition parseState (state : string) : M ParsedState :=
  tryCatch
    (let decoded := string_of_list_byte (base64url_decode state) in
     let parts := split_colon decoded in
     let workspaceId := element parts 0 in
     let platform_name := element parts 1 in
     let accountType := element parts 2 in
     let timestampStr := element parts 3 in
     let randomBytes := element parts 4 in
     if negb (truthy_string workspaceId) || negb (truthy_string platform_name)
        || negb (truthy_string accountType) || negb (truthy_string timestampStr)
        || negb (truthy_string randomBytes)
     then ret rejected
     else
       let timestamp := parseInt10 timestampStr in
       now <- Date_now ;;
       let maxAge := 10 * 60 * 1000 in
       let isValid :=
         match timestamp with
         | Some t => now - t <=? maxAge
         | None => false
         end && String.eqb platform_name (platform_tag platform) in
       ret {| workspaceId := workspaceId; platform_name := platform_name;
              accountType := accountType; timestamp := timestamp;
              isValid := isValid |})
    (fun err =>
       console_write ERROR "Failed to parse OAuth state:" ;;;
       ret rejected).

End BaseState.
End BaseState.

Module XAuthFlow.
Section XAuthFlow.
Context `{web : NodeWeb}.
Import SocialAuthProvider ProviderBase.

(** [this.clientId], from [TWITTER_CLIENT_ID]; the constructor refuses an
    empty one. *)
Variable clientId : string.

Definition validatePermissions (permissions : list string) : bool :=
  every_included XAuthProvider.getRequiredScopes permissions.

Definition initiateAuth (workspaceId : string) (accountType : AccountType)
    (redirectUri : string) : M AuthUrl :=
  state <- OAuthStateManager.generateState workspaceId X accountType ;;
  codeVerifier <- OAuthStateManager.generateCodeVerifier ;;
  let codeChallenge := OAuthStateTokens.generateCodeChallenge codeVerifier in
  OAuthSessionStore.set ("pkce:" +:+ state)
    (JObj [("codeVerifier", JStr codeVerifier)]) None ;;;
  let scopes := XAuthProvider.getRequiredScopes in
  let params :=
    URLSearchParams_toString
      [ ("response_type", "code");
        ("client_id", clientId);
        ("redirect_uri", redirectUri);
        ("scope", String.concat " " scopes);
        ("state", state);
        ("code_challenge", codeChallenge);
        ("code_challenge_method", "S256") ] in
  ret {| url := "https://twitter.com/i/oauth2/authorize?" +:+ params;
         auth_state := state |}.

(** The [updates] of [refreshToken]. *)
Definition refreshed (tokens : OAuthTokens) (now : Z)
    : CredentialService.CredentialUpdates :=
  {| CredentialService.u_accessToken := Some (tok_accessToken tokens);
     CredentialService.u_refreshToken := tok_refreshToken tokens;
     CredentialService.u_expiresAt := expiry_of now (tok_expiresIn tokens);
     CredentialService.u_scope := tok_scope tokens;
     CredentialService.u_displayName := None;
     CredentialService.u_permissions := None;
     CredentialService.u_platformMetadata := None |}.

(** The refresh posts to the token endpoint of the code exchange. *)
Definition refreshToken (accountId : string) : M OAuthTokens :=
  credentials <- getStoredCredentials accountId ;;
  match credentials with
  | None => throw (TRPCError NOT_FOUND "No refresh token available")
  | Some credentials =>
      if negb (truthy_ostring (refreshToken credentials))
      then throw (TRPCError NOT_FOUND "No refresh token available")
      else
        tryCatch
          (net <- gets network ;;
           match tokenEndpoint net X with
           | Rejects e => throw e
           | Responds ok statusText tokens =>
               if negb ok
               then throw (JsError ("Token refresh failed: " +:+ statusText) None)
               else
                 now <- Date_now ;;
                 updateStoredCredentials accountId (refreshed tokens now) ;;;
                 ret tokens
           end)
          (fun err => handleOAuthError err "X token refresh")
  end.

End XAuthFlow.
End XAuthFlow.

Module FacebookAuthFlow.
Section FacebookAuthFlow.
Context `{web : NodeWeb}.
Import SocialAuthProvider ProviderBase.

(** [this.clientId], from [FACEBOOK_APP_ID] *)
Variable clientId : string.

Definition getRequiredScopes : list string :=
  ["pages_show_list"; "pages_read_engagement"; "pages_manage_posts";
   "publish_to_groups"; "read_insights"].

Definition validatePermissions (permissions : list string) : bool :=
  every_included getRequiredScopes permissions.

Definition initiateAuth (workspaceId : string) (accountType : AccountType)
    (redirectUri : string) : M AuthUrl :=
  state <- OAuthStateManager.generateState workspaceId FACEBOOK accountType ;;
  let scopes := getRequiredScopes in
  let params :=
    URLSearchParams_toString
      [ ("client_id", clientId);
        ("redirect_uri", redirectUri);
        ("scope", String.concat "," scopes);
        ("response_type", "code");
        ("state", state) ] in
  ret {| url := "https://www.facebook.com/v19.0/dialog/oauth?" +:+ params;
         auth_state := state |}.

(** The [updates] of [refreshToken]: the access token and its expiry. *)
Definition refreshed (tokens : OAuthTokens) (now : Z)
    : CredentialService.CredentialUpdates :=
  {| CredentialService.u_accessToken := Some (tok_accessToken tokens);
     CredentialService.u_refreshToken := None;
     CredentialService.u_expiresAt := expiry_of now (tok_expiresIn tokens);
     CredentialService.u_scope := None;
     CredentialService.u_displayName := None;
     CredentialService.u_permissions := None;
     CredentialService.u_platformMetadata := None |}.

Definition refreshToken (accountId : string) : M OAuthTokens :=
  credentials <- getStoredCredentials accountId ;;
  match credentials with
  | None => throw (TRPCError NOT_FOUND "No refresh token available")
  | Some credentials =>
      if negb (truthy_ostring (refreshToken credentials))
      then throw (TRPCError NOT_FOUND "No refresh token available")
      else
        tryCatch
          (net <- gets network ;;
           match tokenEndpoint net FACEBOOK with
           | Rejects e => throw e
           | Responds ok statusText body =>
               if negb ok
               then throw (JsError ("Token refresh failed: " +:+ statusText) None)
               else
                 let tokens := {| tok_accessToken := tok_accessToken body;
                                  tok_refreshToken := None;
                                  tok_expiresIn := tok_expiresIn body;
                                  tok_scope := None |} in
                 now <- Date_now ;;
                 updateStoredCredentials accountId (refreshed tokens now) ;;;
                 ret tokens
           end)
          (fun err => handleOAuthError err "Facebook token refresh")
  end.

End FacebookAuthFlow.
End FacebookAuthFlow.

(** ** The credential utilities ([src/lib/credential-utils.ts]) *)

Module CredentialUtils.
Section CredentialUtils.
Context `{web : NodeWeb}.

(** The background job around the sweep of the credential service. *)
Definition cleanupExpiredCredentials : M unit :=
  tryCatch
    (console_write LOG "[CREDENTIAL_CLEANUP] Starting cleanup of expired credentials..." ;;;
     cleanedUp <- CredentialService.cleanupExpiredCredentials ;;
     console_write LOG "[CREDENTIAL_CLEANUP] Cleaned up expired credentials")
    (fun err =>
       console_write ERROR "[CREDENTIAL_CLEANUP] Failed to cleanup expired credentials:").

(** [expiresAt]: [None] is [null] or [undefined]. *)
Definition isCredentialExpired (expiresAt : option Z) : M bool :=
  match expiresAt with
  | None => ret false
  | Some t => now <- Date_now ;; ret (t <=? now)
  end.

Definition isCredentialExpiringSoon (expiresAt : option Z) : M bool :=
  match expiresAt with
  | None => ret false
  | Some t =>
      now <- Date_now ;;
      let fiveMinutesFromNow := now + 5 * 60 * 1000 in
      ret (t <=? fiveMinutesFromNow)
  end.

Definition generateOAuthState (workspaceId platform : string) : M string :=
  now <- Date_now ;;
  let timestamp := Number_toString now in
  rnd <- crypto_randomBytes 16 ;;
  let randomBytes := Hex.encode rnd in
  let data :=
    workspaceId +:+ ":" +:+ platform +:+ ":" +:+ timestamp +:+ ":" +:+ randomBytes in
  ret (base64url_encode (list_byte_of_string data)).

(** The answer of [parseOAuthState]; [timestamp] is [None] for NaN. *)
Record OAuthStateFields := {
  workspaceId : string;
  platform : string;
  timestamp : option Z;
  isValid : bool
}.

Definition parseOAuthState (state : string) : M OAuthStateFields :=
  tryCatch
    (let decoded := string_of_list_byte (base64url_decode state) in
     let parts := split_colon decoded in
     let workspaceId := element parts 0 in
     let platform := element parts 1 in
     let timestampStr := element parts 2 in
     let randomBytes := element parts 3 in
     if negb (truthy_string workspaceId) || negb (truthy_string platform)
        || negb (truthy_string timestampStr) || negb (truthy_string randomBytes)
     then ret {| workspaceId := ""; platform := ""; timestamp := Some 0;
                 isValid := false |}
     else
       let timestamp := parseInt10 timestampStr in
       now <- Date_now ;;
       let maxAge := 10 * 60 * 1000 in
       let isValid :=
         match timestamp with
         | Some t => now - t <=? maxAge
         | None => false
         end in
       ret {| workspaceId := workspaceId; platform := platform;
              timestamp := timestamp; isValid := isValid |})
    (fun err =>
       console_write ERROR "Failed to parse OAuth state:" ;;;
       ret {| workspaceId := ""; platform := ""; timestamp := Some 0;
              isValid := false |}).

(** An entry of the module-level [credentialOperationLimits]. *)
Record RateWindow := { count : Z; resetTime : Z }.

(** [checkCredentialRateLimit], the map passed explicitly and [now] the
    reading of [Date.now()]. *)
Definition checkCredentialRateLimit (userId operation : string) (now : Z)
    (limits : gmap string RateWindow) : bool * gmap string RateWindow :=
  let key := userId +:+ ":" +:+ operation in
  let windowMs := 60 * 1000 in
  let maxOperations := 10 in
  match limits !! key with
  | None =>
      (true, <[key := {| count := 1; resetTime := now + windowMs |}]> limits)
  | Some current =>
      if now >? resetTime current
      then (true, <[key := {| count := 1; resetTime := now + windowMs |}]> limits)
      else if count current >=? maxOperations
      then (false, limits)
      else (true, <[key := {| count := count current + 1;
                              resetTime := resetTime current |}]> limits)
  end.

End CredentialUtils.
End CredentialUtils.

(** ** The role tables of the workspace middleware *)

Module WorkspaceMiddleware.

(** [enum WorkspaceRole]; a role read from the database is any string. *)
Definition OWNER : string := "owner".
Definition ADMIN : string := "admin".
Definition MEMBER : string := "member".
Definition VIEWER : string := "viewer".

Definition canManageUserRole (managerRole targetRole : string) : bool :=
  if String.eqb managerRole OWNER then negb (String.eqb targetRole OWNER)
  else if String.eqb managerRole ADMIN
  then String.eqb targetRole MEMBER || String.eqb targetRole VIEWER
  else false.

Definition getRoleLevel (role : string) : Z :=
  if String.eqb role OWNER then 4
  else if String.eqb role ADMIN then 3
  else if String.eqb role MEMBER then 2
  else if String.eqb role VIEWER then 1
  else 0.

Inductive WorkspacePermission :=
  | CREATE_CONTENT | EDIT_CONTENT | DELETE_CONTENT | PUBLISH_CONTENT
  | CONNECT_SOCIAL_ACCOUNTS | DISCONNECT_SOCIAL_ACCOUNTS
  | VIEW_ANALYTICS | EXPORT_ANALYTICS
  | INVITE_MEMBERS | REMOVE_MEMBERS | MANAGE_ROLES
  | EDIT_WORKSPACE_SETTINGS | DELETE_WORKSPACE | MANAGE_BILLING.

(** The string values of the enum. *)
Definition permission_tag (p : WorkspacePermission) : string :=
  match p with
  | CREATE_CONTENT => "create_content"
  | EDIT_CONTENT => "edit_content"
  | DELETE_CONTENT => "delete_content"
  | PUBLISH_CONTENT => "publish_content"
  | CONNECT_SOCIAL_ACCOUNTS => "connect_social_accounts"
  | DISCONNECT_SOCIAL_ACCOUNTS => "disconnect_social_accounts"
  | VIEW_ANALYTICS => "view_analytics"
  | EXPORT_ANALYTICS => "export_analytics"
  | INVITE_MEMBERS => "invite_members"
  | REMOVE_MEMBERS => "remove_members"
  | MANAGE_ROLES => "manage_roles"
  | EDIT_WORKSPACE_SETTINGS => "edit_workspace_settings"
  | DELETE_WORKSPACE => "delete_workspace"
  | MANAGE_BILLING => "manage_billing"
  end.

Definition getPermissionsForRole (role : string) : list WorkspacePermission :=
  if String.eqb role OWNER then
    [ CREATE_CONTENT; EDIT_CONTENT; DELETE_CONTENT; PUBLISH_CONTENT;
      CONNECT_SOCIAL_ACCOUNTS; DISCONNECT_SOCIAL_ACCOUNTS;
      VIEW_ANALYTICS; EXPORT_ANALYTICS;
      INVITE_MEMBERS; REMOVE_MEMBERS; MANAGE_ROLES;
      EDIT_WORKSPACE_SETTINGS; DELETE_WORKSPACE; MANAGE_BILLING ]
  else if String.eqb role ADMIN then
    [ CREATE_CONTENT; EDIT_CONTENT; DELETE_CONTENT; PUBLISH_CONTENT;
      CONNECT_SOCIAL_ACCOUNTS; DISCONNECT_SOCIAL_ACCOUNTS;
      VIEW_ANALYTICS; EXPORT_ANALYTICS;
      INVITE_MEMBERS; REMOVE_MEMBERS; MANAGE_ROLES;
      EDIT_WORKSPACE_SETTINGS ]
  else if String.eqb role MEMBER then
    [ CREATE_CONTENT; EDIT_CONTENT; PUBLISH_CONTENT;
      CONNECT_SOCIAL_ACCOUNTS; VIEW_ANALYTICS ]
  else if String.eqb role VIEWER then
    [ VIEW_ANALYTICS ]
  else [].

(** [permissions.includes(permission)]: strict equality of the enum values. *)
Definition hasPermission (role : string) (permission : WorkspacePermission) : bool :=
  existsb (fun p => String.eqb (permission_tag p) (permission_tag permission))
    (getPermissionsForRole role).

(** The client-side table of [hooks/use-workspace]: permissions are plain
    strings. *)
Definition getRolePermissions (role : string) : list string :=
  if String.eqb role OWNER then
    [ "create_content"; "edit_content"; "delete_content"; "publish_content";
      "connect_social_accounts"; "disconnect_social_accounts";
      "view_analytics"; "export_analytics";
      "invite_members"; "remove_members"; "manage_roles";
      "edit_workspace_settings"; "delete_workspace"; "manage_billing" ]
  else if String.eqb role ADMIN then
    [ "create_content"; "edit_content"; "delete_content"; "publish_content";
      "connect_social_accounts"; "disconnect_social_accounts";
      "view_analytics"; "export_analytics";
      "invite_members"; "remove_members"; "manage_roles";
      "edit_workspace_settings" ]
  else if String.eqb role MEMBER then
    [ "create_content"; "edit_content"; "publish_content";
      "connect_social_accounts"; "view_analytics" ]
  else if String.eqb role VIEWER then
    [ "view_analytics" ]
  else [].

Definition hasRolePermission (role : string) (permission : string) : bool :=
  existsb (String.eqb permission) (getRolePermissions role).

End WorkspaceMiddleware.

(** * The vocabulary of the claims *)

Section Vocabulary.
Context `{rt : NodeRuntime}.
Import Encryption OAuthStateManager CredentialService.

(** The master key is configured: [env.ENCRYPTION_KEY] is a non-empty string. *)
Definition key_configured (w : World) : Prop :=
  exists k, env_ENCRYPTION_KEY w = Some k /\ k <> "".

(** [w'] differs from [w] at most in the random source and the console. *)
Definition frame (w w' : World) : Prop :=
  env_ENCRYPTION_KEY w' = env_ENCRYPTION_KEY w
  /\ env_OAUTH_STATE_SECRET w' = env_OAUTH_STATE_SECRET w
  /\ env_AUTH_SECRET w' = env_AUTH_SECRET w
  /\ clock w' = clock w
  /\ socialAccount w' = socialAccount w
  /\ prismaOnline w' = prismaOnline w
  /\ sessionStore w' = sessionStore w
  /\ cleanupTimer w' = cleanupTimer w
  /\ network w' = network w.

(** Under master key [k], [blob] decrypts to [text] in every world. *)
Definition opens (k blob text : string) : Prop :=
  forall w, env_ENCRYPTION_KEY w = Some k -> decrypt blob w = (Ok text, w).

(** A record whose stored expiry lies before the clock. *)
Definition expiry_passed (account : SocialAccount) (now : Z) : Prop :=
  exists t, tokenExpiresAt account = Some t /\ t < now.

(** The lookahead of [needsRefresh]: the expiry is set and is no later than
    five minutes after the clock. *)
Definition within_lookahead (account : SocialAccount) (now : Z) : Prop :=
  exists t, tokenExpiresAt account = Some t /\ t <= now + 5 * 60 * 1000.

(** The secret [getStateSecret] settles on, if any. *)
Definition configured_secret (w : World) : option string :=
  match (if truthy_ostring (env_OAUTH_STATE_SECRET w)
         then env_OAUTH_STATE_SECRET w else env_AUTH_SECRET w) with
  | Some secret => if truthy_string secret then Some secret else None
  | None => None
  end.

(** The token [generateState] mints at clock [t] with nonce bytes [rnd]. *)
Definition minted (secret ws : string) (p : SocialPlatform) (a : AccountType)
    (t : Z) (rnd : bytes) : string :=
  base64url_encode
    (Hex.decode (Hex.encode
       (aes256cbc_encrypt secret
          (list_byte_of_string
             (JSON_stringify (stateData ws p a t (Hex.encode rnd))))))).

(** The classification [handleOAuthError] throws. *)
Definition oauth_error_code (err : Exn) : TRPCCode :=
  match err with
  | JsError _ (Some 401) => UNAUTHORIZED
  | JsError _ (Some 403) => FORBIDDEN
  | JsError _ (Some 429) => TOO_MANY_REQUESTS
  | _ => INTERNAL_SERVER_ERROR
  end.

(** How [encryptCredentials] treats the refresh token [r]: sealed when it is
    a non-empty string, left out otherwise. *)
Definition refresh_sealed (k : string) (r encR : option string) : Prop :=
  if truthy_ostring r
  then exists blob, encR = Some blob /\ blob <> "" /\ opens k blob (default "" r)
  else encR = None.

(** The table after [update]. *)
Definition updated_rows (accountId : string) (d : Prisma.UpdateData)
    (rows : list SocialAccount) : list SocialAccount :=
  map (fun x => if Prisma.has_id accountId x then Prisma.apply_update d x else x) rows.

(** The table after [storeCredentials]: the row with the key is rewritten, or
    a new row is appended. *)
Definition stored_rows (ws pf at_ : string) (c : SocialCredentials)
    (enc : EncryptedCredentials) (now : Z) (rows : list SocialAccount)
    : list SocialAccount :=
  match List.find (Prisma.has_key ws pf (cred_platformAccountId c)) rows with
  | Some existing => updated_rows (id existing) (store_update c enc now) rows
  | None => rows ++ [Prisma.new_row (store_create ws pf at_ c enc) rows now]
  end.

(** An update that supplies the refresh token and nothing else. *)
Definition refresh_only (r : string) : CredentialUpdates :=
  {| u_accessToken := None; u_refreshToken := Some r; u_expiresAt := None;
     u_scope := None; u_displayName := None; u_permissions := None;
     u_platformMetadata := None |}.

(** The stored refresh token of [account] is absent, or opens to [r]. *)
Definition refresh_stored (k : string) (account : SocialAccount) (r : option string)
    : Prop :=
  match encryptedRefreshToken account with
  | Some blob =>
      if truthy_string blob then exists x, r = Some x /\ opens k blob x
      else r = None
  | None => r = None
  end.

(** [account] is one [getCredentials] decrypts at clock [now]: active, not
    past its expiry, with an access token that opens to [a] and a refresh
    token that is absent or opens to [r]. *)
Definition fetchable (k : string) (account : SocialAccount) (now : Z)
    (a : string) (r : option string) : Prop :=
  isActive account = true
  /\ token_expired account now = false
  /\ opens k (encryptedAccessToken account) a
  /\ refresh_stored k account r.

(** An update that supplies the access token and nothing else. *)
Definition access_only (a : string) : CredentialUpdates :=
  {| u_accessToken := Some a; u_refreshToken := None; u_expiresAt := None;
     u_scope := None; u_displayName := None; u_permissions := None;
     u_platformMetadata := None |}.

End Vocabulary.

(** * The vocabulary of the further properties *)

Section Vocabulary2.
Context `{rt : NodeRuntime}.
Import Encryption OAuthStateManager CredentialService.

(** A UTF-16 code unit. *)
Definition code_unit (c : Z) : Prop := 0 <= c < 65536.

(** The five fields [parseState] requires of the decrypted state. *)
Definition fields_present (d : json) : Prop :=
  truthy (property d "workspaceId") = true
  /\ truthy (property d "platform") = true
  /\ truthy (property d "accountType") = true
  /\ truthy (property d "timestamp") = true
  /\ truthy (property d "nonce") = true.

(** Every entry of the session store is under a running cleanup timer. *)
Definition timer_covers (w : World) : Prop :=
  sessionStore w <> ∅ -> cleanupTimer w = true.

(** An entry that [get] would still hand out at clock [now]. *)
Definition live (now : Z) (entry : SessionEntry) : Prop :=
  now <= entry_expiresAt entry.

(** [w'] is [w] with the table replaced by [rows], up to the random source
    and the console. *)
Definition wrote (rows : list SocialAccount) (w w' : World) : Prop :=
  frame (set_socialAccount rows w) w'.

(** The table after the expiry sweep at clock [now]. *)
Definition swept (now : Z) (rows : list SocialAccount) : list SocialAccount :=
  map (fun x => if Prisma.expired_active now x
                then Prisma.apply_update (deactivate now) x else x) rows.

(** The unique key of the Prisma model. *)
Definition row_key (r : SocialAccount) : string * string * string :=
  (workspaceId r, platform r, platformAccountId r).


(** The rows [getWorkspaceAccounts] selects. *)
Definition listed (ws : string) (r : SocialAccount) : bool :=
  String.eqb (workspaceId r) ws && isActive r.

(** The row [storeCredentials] answers with: the rewritten one, or the new
    one. *)
Definition stored_row (ws pf at_ : string) (c : SocialCredentials)
    (enc : EncryptedCredentials) (now : Z) (rows : list SocialAccount)
    : SocialAccount :=
  match List.find (Prisma.has_key ws pf (cred_platformAccountId c)) rows with
  | Some existing =>
      match List.find (Prisma.has_id (id existing)) rows with
      | Some r => Prisma.apply_update (store_update c enc now) r
      | None => Prisma.apply_update (store_update c enc now) existing
      end
  | None => Prisma.new_row (store_create ws pf at_ c enc) rows now
  end.


(** Every run of [m], whatever its outcome, relates the world before to the
    world after by [R]. *)
Definition preserves (R : World -> World -> Prop) {A} (m : M A) : Prop :=
  forall w r w', m w = (r, w') -> R w w'.

(** A record no refresh can start from: absent, inactive, past its expiry,
    or fetched without a refresh token. *)
Definition unrefreshable (found : option SocialAccount) (w : World) : Prop :=
  match found with
  | None => True
  | Some account =>
      isActive account = false
      \/ expiry_passed account (clock w)
      \/ exists k a, env_ENCRYPTION_KEY w = Some k
                     /\ fetchable k account (clock w) a None
  end.

(** The refresh token on record after a refresh: the rotated one when the
    platform sent one, the previous one otherwise. *)
Definition rotated (previous : string) (sent : option string) : string :=
  if truthy_ostring sent then default "" sent else previous.

(** The credentials a provider stores for [account] and [tokens] at clock
    [now]. *)
Definition credentials_of (account : PlatformAccount) (tokens : OAuthTokens) (now : Z)
    : SocialCredentials :=
  {| accessToken := tok_accessToken tokens;
     refreshToken := tok_refreshToken tokens;
     expiresAt := SocialAuthProvider.expiry_of now (tok_expiresIn tokens);
     scope := tok_scope tokens;
     cred_platformAccountId := acc_id account;
     cred_displayName := acc_name account;
     cred_permissions := acc_permissions account;
     cred_platformMetadata := acc_metadata account |}.

(** The PKCE verifier the X callback finds under [state]: stored, not
    expired, and truthy. *)
Definition stored_verifier (w : World) (state : string) : option json :=
  match sessionStore w !! ("pkce:" +:+ state) with
  | Some entry =>
      if clock w >? entry_expiresAt entry then None
      else
        match property (data entry) "codeVerifier" with
        | Some v => if truthy (Some v) then Some v else None
        | None => None
        end
  | None => None
  end.

(** [parseState] accepts [state] in [w]. *)
Definition state_accepted (w : World) (state : string) : Prop :=
  exists result w', parseState state w = (Ok result, w') /\ isValid result = true.

(** Successive calls of [checkCredentialRateLimit] for one user and
    operation, at the clock readings [times]: the answers, and the map
    left. *)
Fixpoint calls (userId operation : string) (times : list Z)
    (limits : gmap string CredentialUtils.RateWindow)
    : list bool * gmap string CredentialUtils.RateWindow :=
  match times with
  | [] => ([], limits)
  | now :: rest =>
      let (allowed, limits1) :=
        CredentialUtils.checkCredentialRateLimit userId operation now limits in
      let (answers, limits2) := calls userId operation rest limits1 in
      (allowed :: answers, limits2)
  end.

(** A string without a colon. *)
Definition no_colon (s : string) : Prop :=
  forallb (fun c => negb (Ascii.eqb c ":")) (list_ascii_of_string s) = true.

(** A reading of the clock that [Date.now()] can give: a safe non-negative
    integer. *)
Definition clock_reading (t : Z) : Prop := 0 <= t < 2 ^ 53.

End Vocabulary2.

(** The four values of [WorkspaceRole]. *)
Definition known_role (role : string) : Prop :=
  role = WorkspaceMiddleware.OWNER \/ role = WorkspaceMiddleware.ADMIN
  \/ role = WorkspaceMiddleware.MEMBER \/ role = WorkspaceMiddleware.VIEWER.

(** * A reference runtime

    The smallest implementation of [NodeRuntime]: ciphers that leave the bytes
    as they are under a constant tag, base64 as the byte string itself, JSON
    text as the bits of the value's code.  It shows the interface is
    implementable and gives the examples a world to run in. *)

Module Reference.

Fixpoint json_to_tree (v : json) : gen_tree (bool + Z + string) :=
  match v with
  | JNull => GenNode 0 []
  | JBool b => GenLeaf (inl (inl b))
  | JNum n => GenLeaf (inl (inr n))
  | JStr s => GenLeaf (inr s)
  | JArr items => GenNode 1 (map json_to_tree items)
  | JObj props =>
      GenNode 2
        ((fix go (props : list (string * json)) :=
            match props with
            | [] => []
            | (k, x) :: rest => GenLeaf (inr k) :: json_to_tree x :: go rest
            end) props)
  end.

Fixpoint tree_to_json (t : gen_tree (bool + Z + string)) : option json :=
  match t with
  | GenLeaf (inl (inl b)) => Some (JBool b)
  | GenLeaf (inl (inr n)) => Some (JNum n)
  | GenLeaf (inr s) => Some (JStr s)
  | GenNode 0 _ => Some JNull
  | GenNode 1 ts =>
      option_map JArr
        ((fix go (ts : list (gen_tree (bool + Z + string))) :=
            match ts with
            | [] => Some []
            | t :: rest =>
                match tree_to_json t, go rest with
                | Some x, Some xs => Some (x :: xs)
                | _, _ => None
                end
            end) ts)
  | GenNode 2 ts =>
      option_map JObj
        ((fix go (ts : list (gen_tree (bool + Z + string))) :=
            match ts with
            | [] => Some []
            | GenLeaf (inr k) :: t :: rest =>
                match tree_to_json t, go rest with
                | Some x, Some xs => Some ((k, x) :: xs)
                | _, _ => None
                end
            | _ => None
            end) ts)
  | GenNode _ _ => None
  end.

Fixpoint pos_bits (p : positive) : string :=
  match p with
  | xH => EmptyString
  | xO q => String "0" (pos_bits q)
  | xI q => String "1" (pos_bits q)
  end.

Fixpoint bits_pos (s : string) : option positive :=
  match s with
  | EmptyString => Some xH
  | String c rest =>
      if Ascii.eqb c "0" then option_map xO (bits_pos rest)
      else if Ascii.eqb c "1" then option_map xI (bits_pos rest)
      else None
  end.

Definition stringify (v : json) : string := pos_bits (encode (json_to_tree v)).

Definition parse (s : string) : option json :=
  match bits_pos s with
  | Some p =>
      match decode p with
      | Some t => tree_to_json t
      | None => None
      end
  | None => None
  end.

Definition toNumber (v : json) : option Z :=
  match v with
  | JNum n => Some n
  | _ => None
  end.

(** The interface laws. *)

Section JsonInduction.
Variable P : json -> Prop.
Hypothesis HNull : P JNull.
Hypothesis HBool : forall b, P (JBool b).
Hypothesis HNum : forall n, P (JNum n).
Hypothesis HStr : forall s, P (JStr s).
Hypothesis HArr : forall items, Forall P items -> P (JArr items).
Hypothesis HObj : forall props, Forall (fun kv => P (snd kv)) props -> P (JObj props).

Fixpoint json_nested_ind (v : json) : P v :=
  match v with
  | JNull => HNull
  | JBool b => HBool b
  | JNum n => HNum n
  | JStr s => HStr s
  | JArr items =>
      HArr items
        ((fix go (l : list json) : Forall P l :=
            match l with
            | [] => Forall_nil P
            | x :: r => Forall_cons P x r (json_nested_ind x) (go r)
            end) items)
  | JObj props =>
      HObj props
        ((fix go (l : list (string * json)) : Forall (fun kv => P (snd kv)) l :=
            match l with
            | [] => Forall_nil _
            | kv :: r =>
                Forall_cons (fun kv => P (snd kv)) kv r (json_nested_ind (snd kv)) (go r)
            end) props)
  end.
End JsonInduction.

Lemma tree_to_json_to_tree (v : json) :
  tree_to_json (json_to_tree v) = Some v.
Proof.
  induction v as [| b | n | s | items IH | props IH] using json_nested_ind;
    try reflexivity.
  - cbn [json_to_tree tree_to_json].
    induction IH as [| x r Hx _ IHr]; [reflexivity|].
    cbn [map]. rewrite Hx.
    cbn [option_map] in IHr.
    destruct ((fix go (ts : list (gen_tree (bool + Z + string))) :=
                 match ts with
                 | [] => Some []
                 | t :: rest =>
                     match tree_to_json t, go rest with
                     | Some x, Some xs => Some (x :: xs)
                     | _, _ => None
                     end
                 end) (map json_to_tree r)) as [xs|];
      [|discriminate].
    cbn in IHr |- *. congruence.
  - cbn [json_to_tree tree_to_json].
    induction IH as [| [k x] r Hx _ IHr]; [reflexivity|].
    cbn [snd] in Hx. rewrite Hx.
    match goal with
    | H : option_map JObj ?g = _ |- _ => destruct g as [xs|]; [|discriminate]
    end.
    cbn in IHr |- *. congruence.
Qed.

Lemma bits_pos_bits (p : positive) :
  bits_pos (pos_bits p) = Some p.
Proof.
  induction p as [q IH | q IH |]; cbn; [rewrite IH | rewrite IH |]; reflexivity.
Qed.

Lemma parse_stringify (v : json) :
  parse (stringify v) = Some v.
Proof.
  unfold parse, stringify.
  rewrite bits_pos_bits, decode_encode. apply tree_to_json_to_tree.
Qed.

Lemma base64_empty (b : bytes) : string_of_list_byte b = "" -> b = [].
Proof.
  intros H. rewrite <- (list_byte_of_string_of_list_byte b), H. reflexivity.
Qed.

#[export] Instance runtime : NodeRuntime := {|
  Entropy := unit;
  randomBytes := fun e n => (repeat x00 n, e);
  randomBytes_length := fun e n => repeat_length x00 n;
  pbkdf2Sync := fun _ _ _ keylen _ => repeat x00 keylen;
  aes256gcm_seal := fun _ _ _ m => (m, repeat x00 16);
  aes256gcm_open := fun _ _ _ _ c => Some c;
  aes256gcm_tag_length := fun _ _ _ _ => eq_refl;
  aes256gcm_open_seal := fun _ _ _ _ => eq_refl;
  aes256cbc_encrypt := fun _ m => m;
  aes256cbc_decrypt := fun _ c => Some c;
  aes256cbc_decrypt_encrypt := fun _ _ => eq_refl;
  base64_encode := string_of_list_byte;
  base64_decode := list_byte_of_string;
  base64_decode_encode := list_byte_of_string_of_list_byte;
  base64_encode_empty := base64_empty;
  base64url_encode := string_of_list_byte;
  base64url_decode := list_byte_of_string;
  base64url_decode_encode := list_byte_of_string_of_list_byte;
  JSON_stringify := stringify;
  JSON_parse := parse;
  JSON_parse_stringify := fun v _ => parse_stringify v;
  ToNumber := toNumber;
  ToNumber_num := fun _ => eq_refl;
  Date_toISOString := fun _ => "1970-01-01T00:00:00.000Z"
|}.

(** *** Worlds for the examples *)

(** A network on which every request is refused. *)
Definition unreachable : Network :=
  {| tokenEndpoint := fun _ => Rejects (JsError "fetch failed" None);
     userEndpoint := fun _ => Rejects (JsError "fetch failed" None);
     permissionsEndpoint := Rejects (JsError "fetch failed" None);
     pagesEndpoint := Rejects (JsError "fetch failed" None);
     revokeEndpoint := fun _ => Rejects (JsError "fetch failed" None) |}.

(** A configured server with an empty table, on 2023-11-14 22:13:20 UTC. *)
Definition world0 : World :=
  {| env_ENCRYPTION_KEY := Some "master-key";
     env_OAUTH_STATE_SECRET := Some "state-secret";
     env_AUTH_SECRET := None;
     clock := 1700000000000;
     entropy := tt;
     console := [];
     socialAccount := [];
     prismaOnline := true;
     sessionStore := ∅;
     cleanupTimer := false;
     network := unreachable |}.

(** The same server with the database down. *)
Definition world_down : World :=
  {| env_ENCRYPTION_KEY := Some "master-key";
     env_OAUTH_STATE_SECRET := Some "state-secret";
     env_AUTH_SECRET := None;
     clock := 1700000000000;
     entropy := tt;
     console := [];
     socialAccount := [];
     prismaOnline := false;
     sessionStore := ∅;
     cleanupTimer := false;
     network := unreachable |}.

(** A record of account [acct1], by its flag and expiry. *)
Definition record (active : bool) (expires : option Z) : SocialAccount :=
  {| id := "acct1";
     workspaceId := "ws1";
     platform := "x";
     accountType := "personal";
     platformAccountId := "12345";
     displayName := "Ada";
     encryptedAccessToken := "blob";
     encryptedRefreshToken := None;
     tokenExpiresAt := expires;
     isActive := active;
     permissions := ["tweet.read"];
     platformMetadata := JObj [];
     createdAt := 1690000000000;
     updatedAt := 1690000000000 |}.

Definition world_with (r : SocialAccount) : World := set_socialAccount [r] world0.

Definition minutes (n : Z) : Z := n * 60 * 1000.

Definition credentials (name : string) (access : string) (refresh : option string)
    : SocialCredentials :=
  {| accessToken := access;
     refreshToken := refresh;
     expiresAt := None;
     scope := None;
     cred_platformAccountId := "12345";
     cred_displayName := name;
     cred_permissions := ["tweet.read"; "tweet.write"];
     cred_platformMetadata := JObj [("platform", JStr "x")] |}.

(** A network on which every endpoint answers. *)
Definition answering : Network :=
  {| tokenEndpoint := fun _ =>
       Responds true "OK"
         {| tok_accessToken := "EAAB-access"; tok_refreshToken := None;
            tok_expiresIn := Some 5183944; tok_scope := None |};
     userEndpoint := fun _ =>
       Responds true "OK"
         {| user_id := "1000"; user_name := "Ada"; user_username := None;
            user_public_metrics := None |};
     permissionsEndpoint :=
       Responds true "OK" [("pages_show_list", "granted"); ("read_insights", "declined")];
     pagesEndpoint := Responds true "OK" (Some []);
     revokeEndpoint := fun _ => Responds true "OK" tt |}.

Definition world_answering : World :=
  {| env_ENCRYPTION_KEY := Some "master-key";
     env_OAUTH_STATE_SECRET := Some "state-secret";
     env_AUTH_SECRET := None;
     clock := 1700000000000;
     entropy := tt;
     console := [];
     socialAccount := [];
     prismaOnline := true;
     sessionStore := ∅;
     cleanupTimer := false;
     network := answering |}.

Definition verifier : SessionEntry :=
  {| data := JObj [("codeVerifier", JStr "v3r1f13r")];
     entry_expiresAt := 1700000000000 + minutes 10 |}.


End Reference.

(** * The reference runtime, continued *)

From Stdlib Require Import DecimalString DecimalN.

Module ReferenceWeb.
Import Reference.

Definition toString (n : Z) : string :=
  NilEmpty.string_of_uint (N.to_uint (Z.to_N n)).

Definition parseInt (s : string) : option Z :=
  match NilEmpty.uint_of_string s with
  | Some d => Some (Z.of_N (N.of_uint d))
  | None => None
  end.

Lemma string_of_uint_digits d :
  forallb is_digit (list_ascii_of_string (NilEmpty.string_of_uint d)) = true.
Proof.
  induction d; cbn [NilEmpty.string_of_uint list_ascii_of_string forallb];
    rewrite ?IHd; reflexivity.
Qed.

Lemma toString_digits n :
  0 <= n < 2 ^ 53 ->
  toString n <> "" /\ forallb is_digit (list_ascii_of_string (toString n)) = true.
Proof.
  intros _. split; [|apply string_of_uint_digits].
  unfold toString. destruct (Z.to_N n) as [|p]; [discriminate|].
  cbn [N.to_uint]. pose proof (DecimalPos.Unsigned.to_uint_nonnil p) as Hnil.
  destruct (Pos.to_uint p); [contradiction | discriminate ..].
Qed.

Lemma parseInt_toString n : 0 <= n < 2 ^ 53 -> parseInt (toString n) = Some n.
Proof.
  intros [H0 _]. unfold parseInt, toString.
  rewrite NilEmpty.usu, DecimalN.Unsigned.of_to, Z2N.id by exact H0. reflexivity.
Qed.

(** Query strings as [k=v] joined by [&], a constant digest, decimal
    numerals. *)
#[export] Instance web : NodeWeb := {|
  sha256 := fun _ => repeat x00 32;
  URLSearchParams_toString := fun params =>
    String.concat "&" (map (fun kv => fst kv +:+ "=" +:+ snd kv) params);
  base64url_encode_empty := base64_empty;
  Number_toString := toString;
  parseInt10 := parseInt;
  Number_toString_digits := toString_digits;
  parseInt10_toString := parseInt_toString
|}.

End ReferenceWeb.

(** * Properties *)

(** ** Hexadecimal text *)

Lemma Hex_decode_encode (b : bytes) : Hex.decode (Hex.encode b) = b.
Proof.
  induction b as [|x b IH]; [reflexivity|].
  cbn [Hex.encode Hex.decode].
  assert (Hx : match Hex.value (Hex.digit (Byte.to_N x / 16)),
                     Hex.value (Hex.digit (Byte.to_N x mod 16)) with
               | Some h, Some l => Byte.of_N (16 * h + l)
               | _, _ => None
               end = Some x) by (destruct x; vm_compute; reflexivity).
  destruct (Hex.value (Hex.digit (Byte.to_N x / 16))) as [h|]; [|discriminate].
  destruct (Hex.value (Hex.digit (Byte.to_N x mod 16))) as [l|]; [|discriminate].
  rewrite Hx, IH. reflexivity.
Qed.

(** ** The monad *)

Section MonadFacts.
Context `{rt : NodeRuntime}.

Lemma bind_ok {A B} (m : M A) (k : A -> M B) w a w' :
  m w = (Ok a, w') -> bind m k w = k a w'.
Proof. intros E. unfold bind. rewrite E. reflexivity. Qed.

Lemma bind_throw {A B} (m : M A) (k : A -> M B) w e w' :
  m w = (Throw e, w') -> bind m k w = (Throw e, w').
Proof. intros E. unfold bind. rewrite E. reflexivity. Qed.

Lemma tryCatch_ok {A} (m : M A) h w a w' :
  m w = (Ok a, w') -> tryCatch m h w = (Ok a, w').
Proof. intros E. unfold tryCatch. rewrite E. reflexivity. Qed.

Lemma tryCatch_throw {A} (m : M A) h w e w' :
  m w = (Throw e, w') -> tryCatch m h w = h e w'.
Proof. intros E. unfold tryCatch. rewrite E. reflexivity. Qed.

End MonadFacts.

(** ** Encryption *)

Section EncryptionFacts.
Context `{rt : NodeRuntime}.
Import Encryption.

Lemma frame_refl w : frame w w.
Proof. repeat split. Qed.

Lemma frame_trans w1 w2 w3 : frame w1 w2 -> frame w2 w3 -> frame w1 w3.
Proof.
  unfold frame. intros (?&?&?&?&?&?&?&?&?) (?&?&?&?&?&?&?&?&?).
  repeat split; congruence.
Qed.

Lemma frame_set_entropy e w : frame w (set_entropy e w).
Proof. repeat split. Qed.

Lemma frame_set_console c w : frame w (set_console c w).
Proof. repeat split. Qed.

Lemma frame_key w w' : frame w w' -> env_ENCRYPTION_KEY w' = env_ENCRYPTION_KEY w.
Proof. intros H. apply H. Qed.

Lemma frame_clock w w' : frame w w' -> clock w' = clock w.
Proof. intros H. apply H. Qed.

Lemma frame_rows w w' : frame w w' -> socialAccount w' = socialAccount w.
Proof. intros H. apply H. Qed.

Lemma frame_online w w' : frame w w' -> prismaOnline w' = prismaOnline w.
Proof. intros H. apply H. Qed.

Lemma truthy_string_true s : s <> "" -> truthy_string s = true.
Proof.
  intros Hs. unfold truthy_string.
  destruct (String.eqb_spec s ""); [contradiction | reflexivity].
Qed.

Lemma console_write_run lvl msg w :
  console_write lvl msg w = (Ok tt, set_console ((lvl, msg) :: console w) w).
Proof. reflexivity. Qed.

Lemma encrypt_run k text w :
  env_ENCRYPTION_KEY w = Some k -> k <> "" ->
  exists blob w',
    encrypt text w = (Ok blob, w') /\ frame w w' /\ opens k blob text /\ blob <> "".
Proof.
  intros Hk Hne.
  unfold encrypt, tryCatch, bind, gets, crypto_randomBytes, ret.
  rewrite Hk, (truthy_string_true _ Hne).
  destruct (randomBytes (entropy w) SALT_LENGTH) as [salt e1] eqn:E1.
  cbn [entropy set_entropy].
  destruct (randomBytes e1 IV_LENGTH) as [iv e2] eqn:E2.
  pose proof (randomBytes_length (entropy w) SALT_LENGTH) as L1.
  rewrite E1 in L1. cbn in L1.
  pose proof (randomBytes_length e1 IV_LENGTH) as L2.
  rewrite E2 in L2. cbn in L2.
  eexists _, _. split; [reflexivity|].
  split; [repeat split|]. split.
  - intros w'' Hk''. unfold decrypt, tryCatch, bind, gets, ret.
    rewrite Hk'', (truthy_string_true _ Hne).
    rewrite base64_decode_encode, Hex_decode_encode.
    set (sealed := aes256gcm_seal (deriveKey k salt) iv salt (list_byte_of_string text)).
    pose proof (aes256gcm_tag_length (deriveKey k salt) iv salt
                  (list_byte_of_string text)) as L3.
    fold sealed in L3.
    assert (Hsalt : take SALT_LENGTH (salt ++ iv ++ sealed.2 ++ sealed.1) = salt).
    { rewrite take_app_length'; [reflexivity | symmetry; exact L1]. }
    assert (Hiv : take IV_LENGTH (drop SALT_LENGTH (salt ++ iv ++ sealed.2 ++ sealed.1))
                  = iv).
    { rewrite drop_app_length'; [|symmetry; exact L1].
      rewrite take_app_length'; [reflexivity | symmetry; exact L2]. }
    assert (Htag : take TAG_LENGTH (drop (SALT_LENGTH + IV_LENGTH)
                      (salt ++ iv ++ sealed.2 ++ sealed.1)) = sealed.2).
    { rewrite <- drop_drop, drop_app_length'; [|symmetry; exact L1].
      rewrite drop_app_length'; [|symmetry; exact L2].
      rewrite take_app_length'; [reflexivity | symmetry; exact L3]. }
    assert (Hct : drop (SALT_LENGTH + IV_LENGTH + TAG_LENGTH)
                      (salt ++ iv ++ sealed.2 ++ sealed.1) = sealed.1).
    { rewrite <- !drop_drop, drop_app_length'; [|symmetry; exact L1].
      rewrite drop_app_length'; [|symmetry; exact L2].
      rewrite drop_app_length'; [reflexivity | symmetry; exact L3]. }
    rewrite Hsalt, Hiv, Htag, Hct.
    unfold sealed. rewrite aes256gcm_open_seal.
    rewrite string_of_list_byte_of_string. reflexivity.
  - intros Hblob. apply base64_encode_empty in Hblob.
    destruct salt; [discriminate L1 | discriminate Hblob].
Qed.


End EncryptionFacts.

(** ** The table *)

Section PrismaFacts.
Context `{rt : NodeRuntime}.

Lemma query_run w :
  Prisma.query w =
  if prismaOnline w then (Ok (socialAccount w), w)
  else (Throw (JsError "Can't reach database server" None), w).
Proof. unfold Prisma.query, bind, gets, throw. destruct (prismaOnline w); reflexivity. Qed.

Lemma findUnique_run accountId w :
  Prisma.findUnique accountId w =
  if prismaOnline w
  then (Ok (List.find (Prisma.has_id accountId) (socialAccount w)), w)
  else (Throw (JsError "Can't reach database server" None), w).
Proof.
  unfold Prisma.findUnique, bind. rewrite query_run.
  destruct (prismaOnline w); reflexivity.
Qed.

Lemma findUnique_ok accountId w found w1 :
  Prisma.findUnique accountId w = (Ok found, w1) ->
  w1 = w /\ prismaOnline w = true
  /\ found = List.find (Prisma.has_id accountId) (socialAccount w).
Proof.
  rewrite findUnique_run. destruct (prismaOnline w); [|discriminate].
  intros [= <- <-]. auto.
Qed.

Lemma findUnique_throw accountId w e w1 :
  Prisma.findUnique accountId w = (Throw e, w1) ->
  w1 = w /\ prismaOnline w = false.
Proof.
  rewrite findUnique_run. destruct (prismaOnline w); [discriminate|].
  intros [= <- <-]. auto.
Qed.

End PrismaFacts.

(** ** The credential service: reads *)

Section CredentialReads.
Context `{rt : NodeRuntime}.
Import CredentialService.

Lemma token_expired_true account now :
  expiry_passed account now -> token_expired account now = true.
Proof.
  intros (t & Ht & Hlt). unfold token_expired. rewrite Ht.
  apply Z.ltb_lt. exact Hlt.
Qed.

(** [getCredentials] on a missing, inactive or expired record: [null], and
    nothing but the console changes. *)
Lemma getCredentials_none_run accountId w w1 found :
  Prisma.findUnique accountId w = (Ok found, w1) ->
  match found with
  | None => True
  | Some account => isActive account = false \/ expiry_passed account (clock w)
  end ->
  exists w', getCredentials accountId w = (Ok None, w') /\ frame w w'.
Proof.
  intros Hfind Hcase.
  destruct (findUnique_ok _ _ _ _ Hfind) as (-> & _ & _).
  unfold getCredentials, tryCatch, bind. rewrite Hfind.
  destruct found as [account|]; [|exists w; split; [reflexivity | apply frame_refl]].
  destruct (isActive account) eqn:Hact; cbn [negb].
  - destruct Hcase as [Hc|Hc]; [discriminate|].
    unfold Date_now, gets. rewrite (token_expired_true _ _ Hc).
    unfold logCredentialAccess, bind, Date_now, gets. rewrite console_write_run.
    eexists. split; [reflexivity | apply frame_set_console].
  - exists w. split; [reflexivity | apply frame_refl].
Qed.

(** C8: [getCredentials] returns [null], not an error, when the lookup
    finds no record, when the record found is inactive, and when its stored
    expiry has passed; the table is left as it was. *)
Theorem getCredentials_null accountId w w1 found :
  Prisma.findUnique accountId w = (Ok found, w1) ->
  match found with
  | None => True
  | Some account => isActive account = false \/ expiry_passed account (clock w)
  end ->
  exists w', getCredentials accountId w = (Ok None, w')
             /\ socialAccount w' = socialAccount w.
Proof.
  intros Hfind Hcase.
  destruct (getCredentials_none_run _ _ _ _ Hfind Hcase) as (w' & E & F).
  exists w'. split; [exact E | exact (frame_rows _ _ F)].
Qed.

(** C10: [needsRefresh] answers [false] when the lookup finds no record or
    an inactive one, and [true], without throwing, when the lookup itself
    fails. *)
Theorem needsRefresh_missing_inactive_failing accountId w r w1 :
  Prisma.findUnique accountId w = (r, w1) ->
  match r with
  | Ok None => needsRefresh accountId w = (Ok false, w)
  | Ok (Some account) =>
      isActive account = false -> needsRefresh accountId w = (Ok false, w)
  | Throw e => exists w', needsRefresh accountId w = (Ok true, w')
  end.
Proof.
  intros Hfind. unfold needsRefresh, tryCatch, bind. rewrite Hfind.
  destruct r as [[account|]|e].
  - intros Hact. destruct (findUnique_ok _ _ _ _ Hfind) as (-> & _ & _).
    rewrite Hact. reflexivity.
  - destruct (findUnique_ok _ _ _ _ Hfind) as (-> & _ & _). reflexivity.
  - unfold console_write, modify, ret. eexists. reflexivity.
Qed.

(** C6, amended: for a record the lookup finds active, [needsRefresh]
    returns [true] exactly when an expiry is set and lies within the
    five-minute lookahead; so [true] at now+3min, [false] at now+10min and
    [false] without an expiry. *)
Theorem needsRefresh_active_iff accountId w w1 account :
  Prisma.findUnique accountId w = (Ok (Some account), w1) ->
  isActive account = true ->
  exists b, needsRefresh accountId w = (Ok b, w)
    /\ (b = true <-> within_lookahead account (clock w))
    /\ (tokenExpiresAt account = None -> b = false)
    /\ (tokenExpiresAt account = Some (clock w + 3 * 60 * 1000) -> b = true)
    /\ (tokenExpiresAt account = Some (clock w + 10 * 60 * 1000) -> b = false).
Proof.
  intros Hfind Hact.
  destruct (findUnique_ok _ _ _ _ Hfind) as (-> & _ & _).
  unfold needsRefresh, tryCatch, bind. rewrite Hfind, Hact. cbn [negb].
  unfold within_lookahead.
  destruct (tokenExpiresAt account) as [t|].
  - unfold Date_now, gets, ret.
    exists (t <=? clock w + 5 * 60 * 1000). split; [reflexivity|].
    split; [|split; [discriminate|split]].
    + rewrite Z.leb_le. split.
      * intros H. exists t. auto.
      * intros (t' & [= <-] & H). exact H.
    + intros [= ->]. apply Z.leb_le. lia.
    + intros [= ->]. apply Z.leb_gt. lia.
  - exists false. split; [reflexivity|].
    split; [|split; [reflexivity|split; discriminate]].
    split; [discriminate|]. intros (t & Ht & _). discriminate.
Qed.

End CredentialReads.

(** ** The session store *)

Section SessionStoreFacts.
Context `{rt : NodeRuntime}.
Import OAuthSessionStore.

Lemma get_missing key w :
  sessionStore w !! key = None -> get key w = (Ok None, w).
Proof. intros H. unfold get, bind, gets. rewrite H. reflexivity. Qed.

(** A read of a stored key deletes the entry, expired or not. *)
Lemma get_deletes key entry w :
  sessionStore w !! key = Some entry ->
  exists w1,
    get key w = (Ok (if clock w >? entry_expiresAt entry then None
                     else Some (data entry)), w1)
    /\ sessionStore w1 = delete key (sessionStore w)
    /\ clock w1 = clock w.
Proof.
  intros Hk. unfold get, bind, gets. rewrite Hk. unfold Date_now, gets.
  destruct (clock w >? entry_expiresAt entry); unfold modify, ret;
    eexists; repeat split.
Qed.


(** What [set] leaves in the store. *)
Lemma set_stores key v ttl w :
  exists w1, set key v ttl w = (Ok tt, w1)
    /\ sessionStore w1 !! key
       = Some {| data := v; entry_expiresAt := clock w + default DEFAULT_TTL ttl |}
    /\ clock w1 = clock w.
Proof.
  unfold set, bind, Date_now, gets, modify, startCleanup, modify, ret. cbn.
  destruct (cleanupTimer w); cbn; eexists; (split; [reflexivity|]); cbn;
    (split; [apply lookup_insert_eq | reflexivity]).
Qed.

(** [set], then two reads: the value, then not-found. *)
Lemma set_get_get key v ttl w :
  0 <= default DEFAULT_TTL ttl ->
  exists w1 w2 w3,
    set key v ttl w = (Ok tt, w1)
    /\ get key w1 = (Ok (Some v), w2)
    /\ get key w2 = (Ok None, w3).
Proof.
  intros Httl. destruct (set_stores key v ttl w) as (w1 & E1 & Hk & Hc).
  destruct (get_deletes key _ w1 Hk) as (w2 & E2 & Hdel & _).
  cbn [entry_expiresAt data] in E2.
  replace (clock w1 >? clock w + default DEFAULT_TTL ttl) with false in E2
    by (symmetry; rewrite Z.gtb_ltb; apply Z.ltb_ge; lia).
  exists w1, w2, w2. split; [exact E1|]. split; [exact E2|].
  apply get_missing. rewrite Hdel. apply lookup_delete_eq.
Qed.

End SessionStoreFacts.

(** ** The state manager *)

Section StateManagerFacts.
Context `{rt : NodeRuntime}.
Import OAuthStateManager.

Lemma getStateSecret_run w :
  getStateSecret w =
  match configured_secret w with
  | Some secret => (Ok secret, w)
  | None => (Throw (JsError "OAuth state secret not configured" None), w)
  end.
Proof.
  unfold getStateSecret, configured_secret, bind, gets, ret, throw.
  destruct (if truthy_ostring (env_OAUTH_STATE_SECRET w)
            then env_OAUTH_STATE_SECRET w else env_AUTH_SECRET w) as [s|];
    [destruct (truthy_string s)|]; reflexivity.
Qed.

Lemma configured_secret_set_entropy e w :
  configured_secret (set_entropy e w) = configured_secret w.
Proof. reflexivity. Qed.

Lemma Hex_encode_nonempty (b : bytes) : length b = 16%nat -> Hex.encode b <> "".
Proof. destruct b; [discriminate|]. intros _. discriminate. Qed.

Lemma platform_tag_truthy p : truthy_string (platform_tag p) = true.
Proof. destruct p; reflexivity. Qed.

Lemma accountType_tag_truthy a : truthy_string (accountType_tag a) = true.
Proof. destruct a; reflexivity. Qed.

Lemma stateData_wf ws p a t n : json_wf (stateData ws p a t n) = true.
Proof.
  unfold stateData. cbn [json_wf map fst forallb snd andb].
  rewrite andb_true_r. vm_compute. reflexivity.
Qed.

Lemma generateState_run ws p a w secret :
  configured_secret w = Some secret ->
  generateState ws p a w =
  (Ok (minted secret ws p a (clock w) (fst (randomBytes (entropy w) 16))),
   set_entropy (snd (randomBytes (entropy w) 16)) w).
Proof.
  intros Hs. unfold generateState, bind, Date_now, gets, crypto_randomBytes.
  destruct (randomBytes (entropy w) 16) as [rnd e] eqn:E.
  rewrite getStateSecret_run, configured_secret_set_entropy, Hs. reflexivity.
Qed.

(** What [parseState] makes of a minted token, in any world that holds the
    same secret. *)
Lemma parseState_minted secret ws p a t rnd w2 :
  configured_secret w2 = Some secret ->
  parseState (minted secret ws p a t rnd) w2 =
  if negb (truthy_string ws) || negb (negb (Z.eqb t 0))
     || negb (truthy_string (Hex.encode rnd))
  then (Ok {| state_data := None; isValid := false;
              error := Some "Invalid state format" |}, w2)
  else if clock w2 - t >? STATE_EXPIRY_MS
  then (Ok {| state_data := Some (stateData ws p a t (Hex.encode rnd));
              isValid := false; error := Some "State has expired" |}, w2)
  else (Ok {| state_data := Some (stateData ws p a t (Hex.encode rnd));
              isValid := true; error := None |}, w2).
Proof.
  intros Hs. unfold parseState, minted, tryCatch, bind.
  rewrite getStateSecret_run, Hs.
  rewrite base64url_decode_encode, !Hex_decode_encode, aes256cbc_decrypt_encrypt.
  rewrite string_of_list_byte_of_string, (JSON_parse_stringify _ (stateData_wf _ _ _ _ _)).
  unfold stateData at 1. cbv beta iota.
  change (property (stateData ws p a t (Hex.encode rnd)) "workspaceId")
    with (Some (JStr ws)).
  change (property (stateData ws p a t (Hex.encode rnd)) "platform")
    with (Some (JStr (platform_tag p))).
  change (property (stateData ws p a t (Hex.encode rnd)) "accountType")
    with (Some (JStr (accountType_tag a))).
  change (property (stateData ws p a t (Hex.encode rnd)) "timestamp")
    with (Some (JNum t)).
  change (property (stateData ws p a t (Hex.encode rnd)) "nonce")
    with (Some (JStr (Hex.encode rnd))).
  cbn [truthy].
  fold (truthy_string ws) (truthy_string (platform_tag p))
       (truthy_string (accountType_tag a)) (truthy_string (Hex.encode rnd)).
  rewrite platform_tag_truthy, accountType_tag_truthy. cbn [negb orb].
  rewrite !orb_false_r.
  destruct (negb (truthy_string ws) || negb (negb (Z.eqb t 0))
            || negb (truthy_string (Hex.encode rnd))); [reflexivity|].
  unfold Date_now, gets, expired. rewrite ToNumber_num.
  destruct (clock w2 - t >? STATE_EXPIRY_MS); reflexivity.
Qed.

End StateManagerFacts.

Section StateClaims.
Context `{rt : NodeRuntime}.
Import OAuthStateManager.

Lemma truthy_string_false_iff s : truthy_string s = false <-> s = "".
Proof.
  unfold truthy_string. destruct (String.eqb_spec s ""); cbn; split; intros H;
    try reflexivity; try discriminate; try assumption; contradiction.
Qed.

Lemma minted_fields_pass ws t rnd :
  ws <> "" -> t <> 0 -> length rnd = 16%nat ->
  negb (truthy_string ws) || negb (negb (Z.eqb t 0))
  || negb (truthy_string (Hex.encode rnd)) = false.
Proof.
  intros Hws Ht Hrnd.
  rewrite (truthy_string_true _ Hws).
  rewrite (truthy_string_true _ (Hex_encode_nonempty _ Hrnd)).
  destruct (Z.eqb_spec t 0); [contradiction | reflexivity].
Qed.

(** C3, amended: a token minted at clock T for a non-empty workspace id
    (T not the epoch itself) parses as valid at T+9min and as invalid, with
    the reason "State has expired", at T+11min, in any world holding the
    same secret. *)
Theorem parseState_window ws p a w secret :
  configured_secret w = Some secret -> ws <> "" -> clock w <> 0 ->
  exists tok w1 d,
    generateState ws p a w = (Ok tok, w1)
    /\ (forall w2, configured_secret w2 = Some secret ->
          clock w2 = clock w + 9 * 60 * 1000 ->
          parseState tok w2
          = (Ok {| state_data := Some d; isValid := true; error := None |}, w2))
    /\ (forall w2, configured_secret w2 = Some secret ->
          clock w2 = clock w + 11 * 60 * 1000 ->
          parseState tok w2
          = (Ok {| state_data := Some d; isValid := false;
                   error := Some "State has expired" |}, w2)).
Proof.
  intros Hs Hws Ht.
  eexists _, _, _. split; [apply (generateState_run _ _ _ _ _ Hs)|].
  pose proof (randomBytes_length (entropy w) 16) as Hlen.
  split; intros w2 Hs2 Hclock; rewrite (parseState_minted _ _ _ _ _ _ _ Hs2);
    rewrite (minted_fields_pass _ _ _ Hws Ht Hlen), Hclock.
  - replace (clock w + 9 * 60 * 1000 - clock w >? STATE_EXPIRY_MS) with false;
      [reflexivity|].
    symmetry. rewrite Z.gtb_ltb. apply Z.ltb_ge. unfold STATE_EXPIRY_MS. lia.
  - replace (clock w + 11 * 60 * 1000 - clock w >? STATE_EXPIRY_MS) with true;
      [reflexivity|].
    symmetry. rewrite Z.gtb_ltb. apply Z.ltb_lt. unfold STATE_EXPIRY_MS. lia.
Qed.

(** A token minted for the empty workspace id never parses as valid. *)
Lemma parseState_empty_workspace p a w secret :
  configured_secret w = Some secret ->
  exists tok w1,
    generateState "" p a w = (Ok tok, w1)
    /\ forall w2, configured_secret w2 = Some secret ->
         parseState tok w2
         = (Ok {| state_data := None; isValid := false;
                  error := Some "Invalid state format" |}, w2).
Proof.
  intros Hs. eexists _, _. split; [apply (generateState_run _ _ _ _ _ Hs)|].
  intros w2 Hs2. rewrite (parseState_minted _ _ _ _ _ _ _ Hs2). reflexivity.
Qed.

End StateClaims.

(** ** The providers *)

Section ProviderFacts.
Context `{rt : NodeRuntime}.
Import OAuthStateManager SocialAuthProvider.

Lemma oauth_error_code_not_bad_request err : oauth_error_code err <> BAD_REQUEST.
Proof.
  unfold oauth_error_code.
  repeat match goal with
         | |- context [match ?x with _ => _ end] => destruct x
         end; discriminate.
Qed.

Lemma handleOAuthError_run {A} err context w :
  exists msg w',
    handleOAuthError (A := A) err context w
    = (Throw (TRPCError (oauth_error_code err) msg), w').
Proof.
  unfold handleOAuthError, oauth_error_code, bind, console_write, modify, throw.
  repeat match goal with
         | |- context [match ?x with _ => _ end] => destruct x
         end; eexists _, _; reflexivity.
Qed.

(** A guarded body never ends in BAD_REQUEST: it returns, or its error is
    reclassified by [handleOAuthError]. *)
Lemma guarded_never_bad_request {A} (body : M A) context w msg w' :
  tryCatch body (fun err => handleOAuthError err context) w
  <> (Throw (TRPCError BAD_REQUEST msg), w').
Proof.
  unfold tryCatch. destruct (body w) as [[x|e] w1]; [discriminate|].
  destruct (handleOAuthError_run (A := A) e context w1) as (m & w2 & ->).
  intros [= H _ _]. exact (oauth_error_code_not_bad_request e H).
Qed.

(** A state minted for platform x and handed to the Facebook callback within
    its ten minutes passes the state check: the handler goes on to the token
    exchange and never answers BAD_REQUEST. *)
Lemma facebook_callback_never_bad_request ws a w secret code redirectUri :
  configured_secret w = Some secret -> ws <> "" -> clock w <> 0 ->
  exists tok w1,
    generateState ws X a w = (Ok tok, w1)
    /\ forall w2, configured_secret w2 = Some secret ->
         clock w2 - clock w <= STATE_EXPIRY_MS ->
         (exists d, parseState tok w2
                    = (Ok {| state_data := Some d; isValid := true; error := None |}, w2)
                    /\ property d "platform" = Some (JStr "x"))
         /\ forall msg w3,
              FacebookAuthProvider.handleCallback code tok redirectUri w2
              <> (Throw (TRPCError BAD_REQUEST msg), w3).
Proof.
  intros Hs Hws Ht.
  eexists _, _. split; [apply (generateState_run _ _ _ _ _ Hs)|].
  intros w2 Hs2 Hwin.
  pose proof (randomBytes_length (entropy w) 16) as Hlen.
  pose proof (parseState_minted secret ws X a (clock w)
                (fst (randomBytes (entropy w) 16)) w2 Hs2) as Hparse.
  rewrite (minted_fields_pass _ _ _ Hws Ht Hlen) in Hparse.
  replace (clock w2 - clock w >? STATE_EXPIRY_MS) with false in Hparse
    by (symmetry; rewrite Z.gtb_ltb; apply Z.ltb_ge; lia).
  split; [eexists; split; [exact Hparse | reflexivity]|].
  intros msg w3.
  unfold FacebookAuthProvider.handleCallback, bind. rewrite Hparse. cbv beta iota.
  cbn [isValid state_data].
  apply guarded_never_bad_request.
Qed.

End ProviderFacts.

(** ** The credential service: writes *)

Section ListFacts.
Context {A : Type}.

Lemma find_none_existsb (f : A -> bool) l :
  List.find f l = None -> existsb f l = false.
Proof.
  induction l as [|x l IH]; [reflexivity|]. cbn.
  destruct (f x); [discriminate | exact IH].
Qed.

Lemma find_some_of_member (f : A -> bool) l x :
  In x l -> f x = true -> exists y, List.find f l = Some y.
Proof.
  induction l as [|z l IH]; [intros []|]. cbn. intros [-> | Hin] Hx.
  - rewrite Hx. eauto.
  - destruct (f z); eauto.
Qed.

Lemma find_filter (f : A -> bool) l :
  List.find f l = hd_error (List.filter f l).
Proof.
  induction l as [|x l IH]; [reflexivity|]. cbn.
  destruct (f x); [reflexivity | exact IH].
Qed.

Lemma filter_map_stable (f : A -> bool) (g : A -> A) l :
  (forall x, f (g x) = f x) ->
  List.filter f (map g l) = map g (List.filter f l).
Proof.
  intros Hg. induction l as [|x l IH]; [reflexivity|]. cbn.
  rewrite Hg. destruct (f x); cbn; rewrite IH; reflexivity.
Qed.

Lemma find_map_stable (f : A -> bool) (g : A -> A) l :
  (forall x, f (g x) = f x) ->
  List.find f (map g l) = option_map g (List.find f l).
Proof.
  intros Hg. induction l as [|x l IH]; [reflexivity|]. cbn.
  rewrite Hg. destruct (f x); [reflexivity | exact IH].
Qed.

End ListFacts.

Section CredentialWrites.
Context `{rt : NodeRuntime}.
Import Encryption CredentialService.

Lemma encryptCredentials_run k a r e sc w :
  env_ENCRYPTION_KEY w = Some k -> k <> "" ->
  exists enc w',
    encryptCredentials a r e sc w = (Ok enc, w')
    /\ frame w w'
    /\ opens k (enc_encryptedAccessToken enc) a
    /\ refresh_sealed k r (enc_encryptedRefreshToken enc).
Proof.
  intros Hk Hne. unfold encryptCredentials, refresh_sealed.
  destruct (encrypt_run k a w Hk Hne) as (ba & w1 & E1 & F1 & O1 & _).
  rewrite (bind_ok _ _ _ _ _ E1).
  assert (Hk1 : env_ENCRYPTION_KEY w1 = Some k) by (rewrite (frame_key _ _ F1); exact Hk).
  destruct (truthy_ostring r) eqn:Hr.
  - destruct (encrypt_run k (default "" r) w1 Hk1 Hne) as (br & w2 & E2 & F2 & O2 & N2).
    assert (Hk2 : env_ENCRYPTION_KEY w2 = Some k)
      by (rewrite (frame_key _ _ F2); exact Hk1).
    destruct (encrypt_run k (JSON_stringify (metadata_json e sc)) w2 Hk2 Hne)
      as (bm & w3 & E3 & F3 & _ & _).
    unfold bind at 1. unfold bind at 1. rewrite E2. cbn [ret].
    unfold encryptObject, bind. rewrite E3.
    eexists _, _. split; [reflexivity|].
    split; [exact (frame_trans _ _ _ F1 (frame_trans _ _ _ F2 F3))|].
    split; [exact O1|]. cbn. eauto.
  - destruct (encrypt_run k (JSON_stringify (metadata_json e sc)) w1 Hk1 Hne)
      as (bm & w3 & E3 & F3 & _ & _).
    unfold bind at 1. cbn [ret].
    unfold encryptObject, bind. rewrite E3.
    eexists _, _. split; [reflexivity|].
    split; [exact (frame_trans _ _ _ F1 F3)|].
    split; [exact O1 | reflexivity].
Qed.

Lemma findUniqueByKey_run ws pf pid w :
  prismaOnline w = true ->
  Prisma.findUniqueByKey ws pf pid w
  = (Ok (List.find (Prisma.has_key ws pf pid) (socialAccount w)), w).
Proof.
  intros Hon. unfold Prisma.findUniqueByKey, bind. rewrite query_run, Hon. reflexivity.
Qed.

Lemma update_run accountId d w r :
  prismaOnline w = true ->
  List.find (Prisma.has_id accountId) (socialAccount w) = Some r ->
  Prisma.update accountId d w
  = (Ok (Prisma.apply_update d r),
     set_socialAccount (updated_rows accountId d (socialAccount w)) w).
Proof.
  intros Hon Hfind. unfold Prisma.update, bind. rewrite query_run, Hon, Hfind.
  reflexivity.
Qed.

Lemma create_run d w :
  prismaOnline w = true ->
  List.find (Prisma.has_key (Prisma.new_workspaceId d) (Prisma.new_platform d)
               (Prisma.new_platformAccountId d)) (socialAccount w) = None ->
  Prisma.create d w
  = (Ok (Prisma.new_row d (socialAccount w) (clock w)),
     set_socialAccount (socialAccount w ++ [Prisma.new_row d (socialAccount w) (clock w)]) w).
Proof.
  intros Hon Hfind. unfold Prisma.create, bind. rewrite query_run, Hon.
  unfold Date_now, gets. rewrite (find_none_existsb _ _ Hfind). reflexivity.
Qed.

Lemma logCredentialAccess_run accountId action details w :
  exists w', logCredentialAccess accountId action details w = (Ok tt, w')
             /\ frame w w'.
Proof.
  unfold logCredentialAccess, bind, Date_now, gets. rewrite console_write_run.
  eexists. split; [reflexivity | apply frame_set_console].
Qed.

Lemma storeCredentials_run ws pf at_ c w k :
  env_ENCRYPTION_KEY w = Some k -> k <> "" -> prismaOnline w = true ->
  exists s enc w',
    storeCredentials ws pf at_ c w = (Ok s, w')
    /\ opens k (enc_encryptedAccessToken enc) (accessToken c)
    /\ refresh_sealed k (refreshToken c) (enc_encryptedRefreshToken enc)
    /\ socialAccount w' = stored_rows ws pf at_ c enc (clock w) (socialAccount w)
    /\ env_ENCRYPTION_KEY w' = Some k
    /\ prismaOnline w' = true
    /\ clock w' = clock w.
Proof.
  intros Hk Hne Hon. unfold storeCredentials, stored_rows.
  destruct (encryptCredentials_run k (accessToken c) (refreshToken c) (expiresAt c)
              (scope c) w Hk Hne) as (enc & w1 & E1 & F1 & O1 & R1).
  assert (Hon1 : prismaOnline w1 = true) by (rewrite (frame_online _ _ F1); exact Hon).
  pose proof (frame_rows _ _ F1) as Hrows1.
  pose proof (frame_clock _ _ F1) as Hclock1.
  pose proof (frame_key _ _ F1) as Hkey1.
  unfold tryCatch, bind. rewrite E1, (findUniqueByKey_run _ _ _ _ Hon1), Hrows1.
  destruct (List.find (Prisma.has_key ws pf (cred_platformAccountId c)) (socialAccount w))
    as [existing|] eqn:Hfind.
  - unfold Date_now, gets.
    assert (Hmem : exists r, List.find (Prisma.has_id (id existing)) (socialAccount w1)
                             = Some r).
    { rewrite Hrows1. apply (find_some_of_member _ _ existing).
      - apply (List.find_some _ _ Hfind).
      - unfold Prisma.has_id. apply String.eqb_refl. }
    destruct Hmem as (r & Hr).
    rewrite (update_run _ _ _ _ Hon1 Hr).
    destruct (logCredentialAccess_run (id (Prisma.apply_update
                (store_update c enc (clock w1)) r)) "STORED"
                "Credentials stored successfully"
                (set_socialAccount (updated_rows (id existing)
                   (store_update c enc (clock w1)) (socialAccount w1)) w1))
      as (w2 & E2 & F2).
    rewrite E2. unfold ret.
    eexists _, enc, w2. split; [reflexivity|].
    split; [exact O1|]. split; [exact R1|].
    rewrite (frame_rows _ _ F2), (frame_key _ _ F2), (frame_online _ _ F2),
      (frame_clock _ _ F2). cbn.
    rewrite Hrows1, Hclock1, Hkey1. auto.
  - assert (Hnone : List.find
              (Prisma.has_key (Prisma.new_workspaceId (store_create ws pf at_ c enc))
                 (Prisma.new_platform (store_create ws pf at_ c enc))
                 (Prisma.new_platformAccountId (store_create ws pf at_ c enc)))
              (socialAccount w1) = None) by (rewrite Hrows1; exact Hfind).
    rewrite (create_run _ _ Hon1 Hnone).
    destruct (logCredentialAccess_run
                (id (Prisma.new_row (store_create ws pf at_ c enc) (socialAccount w1)
                       (clock w1))) "STORED" "Credentials stored successfully"
                (set_socialAccount (socialAccount w1 ++
                   [Prisma.new_row (store_create ws pf at_ c enc) (socialAccount w1)
                      (clock w1)]) w1))
      as (w2 & E2 & F2).
    rewrite E2. unfold ret.
    eexists _, enc, w2. split; [reflexivity|].
    split; [exact O1|]. split; [exact R1|].
    rewrite (frame_rows _ _ F2), (frame_key _ _ F2), (frame_online _ _ F2),
      (frame_clock _ _ F2). cbn.
    rewrite Hrows1, Hclock1, Hkey1. auto.
Qed.

End CredentialWrites.

Section StoreTwice.
Context `{rt : NodeRuntime}.
Import Encryption CredentialService.

Lemma has_key_refl r :
  Prisma.has_key (workspaceId r) (platform r) (platformAccountId r) r = true.
Proof. unfold Prisma.has_key. rewrite !String.eqb_refl. reflexivity. Qed.

Lemma filter_at_most_one {A} (f : A -> bool) l x :
  List.find f l = Some x -> (length (List.filter f l) <= 1)%nat ->
  List.filter f l = [x].
Proof.
  rewrite find_filter. destruct (List.filter f l) as [|y [|z l']]; cbn.
  - discriminate.
  - intros [= ->] _. reflexivity.
  - intros _ H. lia.
Qed.

Lemma filter_of_find_none {A} (f : A -> bool) l :
  List.find f l = None -> List.filter f l = [].
Proof.
  rewrite find_filter. destruct (List.filter f l); [reflexivity | discriminate].
Qed.

(** The row [storeCredentials] leaves under the key, when the table held at
    most one row for it. *)
Lemma stored_rows_unique ws pf at_ c enc now rows :
  (length (List.filter (Prisma.has_key ws pf (cred_platformAccountId c)) rows) <= 1)%nat ->
  exists row,
    List.filter (Prisma.has_key ws pf (cred_platformAccountId c))
      (stored_rows ws pf at_ c enc now rows) = [row]
    /\ displayName row = cred_displayName c
    /\ encryptedAccessToken row = enc_encryptedAccessToken enc
    /\ permissions row = cred_permissions c
    /\ platformMetadata row = cred_platformMetadata c
    /\ isActive row = true
    /\ encryptedRefreshToken row
       = match enc_encryptedRefreshToken enc with
         | Some b => Some b
         | None =>
             match List.find (Prisma.has_key ws pf (cred_platformAccountId c)) rows with
             | Some existing => encryptedRefreshToken existing
             | None => None
             end
         end
    /\ (forall t, expiresAt c = Some t -> tokenExpiresAt row = Some t).
Proof.
  intros Hone. unfold stored_rows.
  destruct (List.find (Prisma.has_key ws pf (cred_platformAccountId c)) rows)
    as [existing|] eqn:Hfind.
  - exists (Prisma.apply_update (store_update c enc now) existing).
    unfold updated_rows. rewrite filter_map_stable.
    + rewrite (filter_at_most_one _ _ _ Hfind Hone). cbn [map].
      unfold Prisma.has_id at 1. rewrite String.eqb_refl.
      split; [reflexivity|]. cbn.
      repeat match goal with |- _ /\ _ => split end; try reflexivity.
      intros t Ht. rewrite Ht. reflexivity.
    + intros x. destruct (Prisma.has_id (id existing) x); reflexivity.
  - exists (Prisma.new_row (store_create ws pf at_ c enc) rows now).
    rewrite List.filter_app, (filter_of_find_none _ _ Hfind). cbn [List.filter app].
    replace (Prisma.has_key ws pf (cred_platformAccountId c)
               (Prisma.new_row (store_create ws pf at_ c enc) rows now)) with true
      by (symmetry; apply (has_key_refl
            (Prisma.new_row (store_create ws pf at_ c enc) rows now))).
    split; [reflexivity|]. cbn.
    repeat match goal with |- _ /\ _ => split end; try reflexivity;
      try (destruct (enc_encryptedRefreshToken enc); reflexivity).
    intros t Ht. rewrite Ht. reflexivity.
Qed.

(** Two consecutive [storeCredentials] for one key, over a table with at most
    one row for it: both return, one row carries the key, and it is the
    row the second call wrote. *)
Lemma storeCredentials_twice_run ws pf at1 at2 c1 c2 w k :
  env_ENCRYPTION_KEY w = Some k -> k <> "" -> prismaOnline w = true ->
  cred_platformAccountId c2 = cred_platformAccountId c1 ->
  (length (List.filter (Prisma.has_key ws pf (cred_platformAccountId c1))
             (socialAccount w)) <= 1)%nat ->
  exists s1 w1 s2 w2 enc1 enc2 row1 row,
    storeCredentials ws pf at1 c1 w = (Ok s1, w1)
    /\ storeCredentials ws pf at2 c2 w1 = (Ok s2, w2)
    /\ refresh_sealed k (refreshToken c1) (enc_encryptedRefreshToken enc1)
    /\ encryptedRefreshToken row1
       = match enc_encryptedRefreshToken enc1 with
         | Some b => Some b
         | None =>
             match List.find (Prisma.has_key ws pf (cred_platformAccountId c1))
                     (socialAccount w) with
             | Some existing => encryptedRefreshToken existing
             | None => None
             end
         end
    /\ opens k (enc_encryptedAccessToken enc2) (accessToken c2)
    /\ refresh_sealed k (refreshToken c2) (enc_encryptedRefreshToken enc2)
    /\ List.filter (Prisma.has_key ws pf (cred_platformAccountId c1)) (socialAccount w2)
       = [row]
    /\ displayName row = cred_displayName c2
    /\ encryptedAccessToken row = enc_encryptedAccessToken enc2
    /\ permissions row = cred_permissions c2
    /\ platformMetadata row = cred_platformMetadata c2
    /\ isActive row = true
    /\ encryptedRefreshToken row
       = match enc_encryptedRefreshToken enc2 with
         | Some b => Some b
         | None => encryptedRefreshToken row1
         end
    /\ (forall t, expiresAt c2 = Some t -> tokenExpiresAt row = Some t).
Proof.
  intros Hk Hne Hon Hpid Hone.
  destruct (storeCredentials_run ws pf at1 c1 w k Hk Hne Hon)
    as (s1 & enc1 & w1 & E1 & _ & R1 & T1 & K1 & On1 & C1).
  destruct (storeCredentials_run ws pf at2 c2 w1 k K1 Hne On1)
    as (s2 & enc2 & w2 & E2 & O2 & R2 & T2 & _ & _ & _).
  destruct (stored_rows_unique ws pf at1 c1 enc1 (clock w) (socialAccount w) Hone)
    as (row1 & F1 & _ & _ & _ & _ & _ & Rf1 & _).
  rewrite <- T1 in F1.
  assert (Hone1 : (length (List.filter
             (Prisma.has_key ws pf (cred_platformAccountId c2)) (socialAccount w1)) <= 1)%nat)
    by (rewrite Hpid, F1; cbn; lia).
  destruct (stored_rows_unique ws pf at2 c2 enc2 (clock w1) (socialAccount w1) Hone1)
    as (row & F2 & D2 & A2 & P2 & M2 & Act2 & Rf2 & X2).
  rewrite <- T2, Hpid in F2.
  assert (Hfind1 : List.find (Prisma.has_key ws pf (cred_platformAccountId c2))
                     (socialAccount w1) = Some row1)
    by (rewrite Hpid, find_filter, F1; reflexivity).
  rewrite Hfind1 in Rf2.
  exists s1, w1, s2, w2, enc1, enc2, row1, row.
  repeat (split; [assumption|]). assumption.
Qed.

(** C7, amended: storing twice for one (workspace, platform,
    platformAccountId), over a table that keeps the key unique, leaves
    exactly one row for the key; the row is active and carries the second
    call's access token, display name, permissions and metadata, and the
    second call's refresh token and expiry whenever it supplies them. *)
Theorem storeCredentials_twice_one_record ws pf at1 at2 c1 c2 w k :
  env_ENCRYPTION_KEY w = Some k -> k <> "" -> prismaOnline w = true ->
  cred_platformAccountId c2 = cred_platformAccountId c1 ->
  (length (List.filter (Prisma.has_key ws pf (cred_platformAccountId c1))
             (socialAccount w)) <= 1)%nat ->
  exists s1 w1 s2 w2 row,
    storeCredentials ws pf at1 c1 w = (Ok s1, w1)
    /\ storeCredentials ws pf at2 c2 w1 = (Ok s2, w2)
    /\ List.filter (Prisma.has_key ws pf (cred_platformAccountId c1)) (socialAccount w2)
       = [row]
    /\ isActive row = true
    /\ opens k (encryptedAccessToken row) (accessToken c2)
    /\ displayName row = cred_displayName c2
    /\ permissions row = cred_permissions c2
    /\ platformMetadata row = cred_platformMetadata c2
    /\ (truthy_ostring (refreshToken c2) = true ->
        exists blob, encryptedRefreshToken row = Some blob
                     /\ opens k blob (default "" (refreshToken c2)))
    /\ (forall t, expiresAt c2 = Some t -> tokenExpiresAt row = Some t).
Proof.
  intros Hk Hne Hon Hpid Hone.
  destruct (storeCredentials_twice_run ws pf at1 at2 c1 c2 w k Hk Hne Hon Hpid Hone)
    as (s1 & w1 & s2 & w2 & enc1 & enc2 & row1 & row & E1 & E2 & _ & _ & O2 & R2
        & F & D & A & P & Mt & Act & Rf & X).
  exists s1, w1, s2, w2, row.
  repeat (split; [assumption|]).
  split; [rewrite A; exact O2|].
  repeat (split; [assumption|]).
  split; [|exact X].
  intros Htruthy. unfold refresh_sealed in R2. rewrite Htruthy in R2.
  destruct R2 as (blob & Hb & _ & Hopen). rewrite Hb in Rf. eauto.
Qed.

(** When the second call carries no refresh token, the row keeps the one the
    first call stored. *)
Lemma storeCredentials_twice_stale ws pf at1 at2 c1 c2 w k :
  env_ENCRYPTION_KEY w = Some k -> k <> "" -> prismaOnline w = true ->
  cred_platformAccountId c2 = cred_platformAccountId c1 ->
  (length (List.filter (Prisma.has_key ws pf (cred_platformAccountId c1))
             (socialAccount w)) <= 1)%nat ->
  truthy_ostring (refreshToken c1) = true ->
  refreshToken c2 = None ->
  exists s1 w1 s2 w2 row blob,
    storeCredentials ws pf at1 c1 w = (Ok s1, w1)
    /\ storeCredentials ws pf at2 c2 w1 = (Ok s2, w2)
    /\ List.filter (Prisma.has_key ws pf (cred_platformAccountId c1)) (socialAccount w2)
       = [row]
    /\ encryptedRefreshToken row = Some blob
    /\ opens k blob (default "" (refreshToken c1)).
Proof.
  intros Hk Hne Hon Hpid Hone Hr1 Hr2.
  destruct (storeCredentials_twice_run ws pf at1 at2 c1 c2 w k Hk Hne Hon Hpid Hone)
    as (s1 & w1 & s2 & w2 & enc1 & enc2 & row1 & row & E1 & E2 & R1 & Rf1 & _ & R2
        & F & _ & _ & _ & _ & _ & Rf & _).
  unfold refresh_sealed in R1, R2. rewrite Hr1 in R1. rewrite Hr2 in R2. cbn in R2.
  destruct R1 as (blob & Hb & _ & Hopen).
  rewrite Hb in Rf1. rewrite R2, Rf1 in Rf.
  exists s1, w1, s2, w2, row, blob. auto.
Qed.

End StoreTwice.


Section UpdateAndRevoke.
Context `{rt : NodeRuntime}.
Import Encryption CredentialService.

Lemma has_id_apply_update accountId d x :
  Prisma.has_id accountId (Prisma.apply_update d x) = Prisma.has_id accountId x.
Proof. reflexivity. Qed.

Lemma find_updated_rows accountId d rows r :
  List.find (Prisma.has_id accountId) rows = Some r ->
  List.find (Prisma.has_id accountId) (updated_rows accountId d rows)
  = Some (Prisma.apply_update d r).
Proof.
  intros Hfind. unfold updated_rows. rewrite find_map_stable.
  - rewrite Hfind. cbn.
    destruct (List.find_some _ _ Hfind) as [_ Hid]. rewrite Hid. reflexivity.
  - intros x. destruct (Prisma.has_id accountId x) eqn:Hx; [|exact Hx].
    rewrite has_id_apply_update. exact Hx.
Qed.

(** C4, on the code: for a record that is inactive or past its expiry, an
    update that supplies only the refresh token returns normally and
    leaves, as the stored access token, the encryption of the empty string. *)
Theorem updateCredentials_blanks_access_token accountId w w1 account k r :
  Prisma.findUnique accountId w = (Ok (Some account), w1) ->
  isActive account = false \/ expiry_passed account (clock w) ->
  env_ENCRYPTION_KEY w = Some k -> k <> "" -> r <> "" ->
  exists stored w' account',
    updateCredentials accountId (refresh_only r) w = (Ok stored, w')
    /\ List.find (Prisma.has_id accountId) (socialAccount w') = Some account'
    /\ opens k (encryptedAccessToken account') ""
    /\ exists blob, encryptedRefreshToken account' = Some blob /\ opens k blob r.
Proof.
  intros Hfind Hcase Hk Hne Hr.
  destruct (findUnique_ok _ _ _ _ Hfind) as (-> & Hon & Hrow).
  destruct (getCredentials_none_run accountId w w (Some account) Hfind Hcase)
    as (wa & Eg & Fg).
  assert (Hka : env_ENCRYPTION_KEY wa = Some k) by (rewrite (frame_key _ _ Fg); exact Hk).
  destruct (encryptCredentials_run k "" (Some r) None None wa Hka Hne)
    as (enc & wb & Ee & Fe & Oa & Rr).
  unfold refresh_sealed in Rr. cbn [truthy_ostring] in Rr.
  rewrite (truthy_string_true _ Hr) in Rr. destruct Rr as (blob & Hblob & Hbne & Ob).
  pose proof (frame_trans _ _ _ Fg Fe) as Fb.
  assert (Honb : prismaOnline wb = true) by (rewrite (frame_online _ _ Fb); exact Hon).
  assert (Hfindb : List.find (Prisma.has_id accountId) (socialAccount wb) = Some account)
    by (rewrite (frame_rows _ _ Fb); symmetry; exact Hrow).
  unfold updateCredentials, tryCatch, bind. rewrite Hfind.
  unfold Date_now at 1. unfold gets at 1. cbv beta iota.
  unfold refresh_only at 1 2. cbn [u_accessToken u_refreshToken truthy_ostring orb].
  rewrite (truthy_string_true _ Hr). cbv beta iota.
  rewrite Eg. cbv beta iota.
  replace (default ""
             (or_else (or_else (u_accessToken (refresh_only r)) (accessToken <$> None))
                (Some ""))) with "" by reflexivity.
  replace (or_else (u_refreshToken (refresh_only r)) (None ≫= refreshToken))
    with (Some r)
    by (unfold or_else, refresh_only; cbn; rewrite (truthy_string_true _ Hr); reflexivity).
  cbn [refresh_only u_expiresAt u_scope mbind option_bind].
  rewrite Ee. cbv beta iota. unfold ret at 1. cbv beta iota.
  rewrite Hblob. cbn [truthy_ostring]. rewrite (truthy_string_true _ Hbne).
  rewrite (update_run _ _ _ _ Honb Hfindb).
  match goal with
  | |- context [logCredentialAccess ?a ?b ?c ?w0] =>
      destruct (logCredentialAccess_run a b c w0) as (wc & El & Fl); rewrite El
  end.
  unfold ret.
  eexists _, wc, _. split; [reflexivity|].
  rewrite (frame_rows _ _ Fl). cbn [socialAccount set_socialAccount].
  split; [apply (find_updated_rows _ _ _ _ Hfindb)|].
  cbn. split; [exact Oa|]. exists blob. split; [reflexivity | exact Ob].
Qed.

(** C5, on the code: for an active record whose stored expiry has passed,
    [revokeAccess] returns at once, the remote endpoint is not called, and
    the record stays active. *)
Theorem revokeAccess_leaves_expired_active accountId w w1 account :
  Prisma.findUnique accountId w = (Ok (Some account), w1) ->
  isActive account = true ->
  expiry_passed account (clock w) ->
  exists w',
    XAuthProvider.revokeAccess accountId w = (Ok tt, w')
    /\ socialAccount w' = socialAccount w
    /\ List.find (Prisma.has_id accountId) (socialAccount w') = Some account.
Proof.
  intros Hfind Hact Hexp.
  destruct (findUnique_ok _ _ _ _ Hfind) as (-> & Hon & Hrow).
  destruct (getCredentials_none_run accountId w w (Some account) Hfind (or_intror Hexp))
    as (w' & Eg & Fg).
  exists w'. unfold XAuthProvider.revokeAccess, SocialAuthProvider.getStoredCredentials, bind.
  rewrite Eg. split; [reflexivity|].
  rewrite (frame_rows _ _ Fg). split; [reflexivity | symmetry; exact Hrow].
Qed.

End UpdateAndRevoke.

(** ** Records whose credentials are fetched *)

Section FetchableCredentials.
Context `{rt : NodeRuntime}.
Import Encryption CredentialService.

Lemma decryptCredentials_run k blobA blobR a r w :
  env_ENCRYPTION_KEY w = Some k ->
  opens k blobA a ->
  match blobR with
  | Some blob =>
      if truthy_string blob then exists x, r = Some x /\ opens k blob x else r = None
  | None => r = None
  end ->
  decryptCredentials blobA (if truthy_ostring blobR then blobR else None) w
  = (Ok {| dec_accessToken := a; dec_refreshToken := r; dec_scope := None |}, w).
Proof.
  intros Hk Ha Hr. unfold decryptCredentials, bind. rewrite (Ha w Hk).
  destruct blobR as [blob|]; cbn [truthy_ostring].
  - destruct (truthy_string blob) eqn:Hb; cbn [truthy_ostring]; rewrite ?Hb.
    + destruct Hr as (x & -> & Hx). cbn [default].
      change (Datatypes.id blob) with blob. rewrite (Hx w Hk). reflexivity.
    + rewrite Hr. reflexivity.
  - rewrite Hr. reflexivity.
Qed.

Lemma getCredentials_some_run accountId w w1 account k a r :
  Prisma.findUnique accountId w = (Ok (Some account), w1) ->
  env_ENCRYPTION_KEY w = Some k ->
  fetchable k account (clock w) a r ->
  exists c w',
    getCredentials accountId w = (Ok (Some c), w')
    /\ accessToken c = a /\ refreshToken c = r
    /\ expiresAt c = tokenExpiresAt account /\ scope c = None
    /\ frame w w'.
Proof.
  intros Hfind Hk (Hact & Hexp & Ha & Hr).
  destruct (findUnique_ok _ _ _ _ Hfind) as (-> & _ & _).
  unfold getCredentials, tryCatch, bind. rewrite Hfind, Hact. cbn [negb].
  unfold Date_now at 1. unfold gets at 1. cbv beta iota. rewrite Hexp.
  rewrite (decryptCredentials_run k _ _ a r w Hk Ha Hr).
  match goal with
  | |- context [logCredentialAccess ?x ?y ?z ?w0] =>
      destruct (logCredentialAccess_run x y z w0) as (w' & El & Fl); rewrite El
  end.
  unfold ret. eexists _, w'. split; [reflexivity|]. cbn. auto.
Qed.

Lemma revokeCredentials_run accountId w account :
  prismaOnline w = true ->
  List.find (Prisma.has_id accountId) (socialAccount w) = Some account ->
  exists w',
    revokeCredentials accountId w = (Ok tt, w')
    /\ socialAccount w'
       = updated_rows accountId (deactivate (clock w)) (socialAccount w).
Proof.
  intros Hon Hfind. unfold revokeCredentials, tryCatch, bind.
  rewrite findUnique_run, Hon, Hfind.
  unfold Date_now at 1. unfold gets at 1. cbv beta iota.
  rewrite (update_run _ _ _ _ Hon Hfind).
  match goal with
  | |- context [logCredentialAccess ?x ?y ?z ?w0] =>
      destruct (logCredentialAccess_run x y z w0) as (w' & El & Fl); rewrite El
  end.
  exists w'. split; [reflexivity|]. rewrite (frame_rows _ _ Fl). reflexivity.
Qed.

(** For a record whose credentials are fetched, [revokeAccess] returns
    normally and leaves the record inactive, whatever the revoke endpoint
    does: resolve with [ok], resolve without, or reject. *)
Lemma revokeAccess_marks_inactive accountId w w1 account k a r :
  Prisma.findUnique accountId w = (Ok (Some account), w1) ->
  env_ENCRYPTION_KEY w = Some k ->
  fetchable k account (clock w) a r ->
  exists w' account',
    XAuthProvider.revokeAccess accountId w = (Ok tt, w')
    /\ List.find (Prisma.has_id accountId) (socialAccount w') = Some account'
    /\ isActive account' = false.
Proof.
  intros Hfind Hk Hfetch.
  destruct (getCredentials_some_run _ _ _ _ _ _ _ Hfind Hk Hfetch)
    as (c & wa & Eg & _ & _ & _ & _ & Fg).
  destruct (findUnique_ok _ _ _ _ Hfind) as (-> & Hon & Hrow).
  assert (Hona : prismaOnline wa = true) by (rewrite (frame_online _ _ Fg); exact Hon).
  assert (Hfinda : List.find (Prisma.has_id accountId) (socialAccount wa) = Some account)
    by (rewrite (frame_rows _ _ Fg); symmetry; exact Hrow).
  unfold XAuthProvider.revokeAccess, SocialAuthProvider.getStoredCredentials, bind.
  rewrite Eg. unfold tryCatch, bind, gets.
  assert (Hdone : forall w0, frame wa w0 ->
            exists w' account',
              revokeCredentials accountId w0 = (Ok tt, w')
              /\ List.find (Prisma.has_id accountId) (socialAccount w') = Some account'
              /\ isActive account' = false).
  { intros w0 F0.
    assert (Hon0 : prismaOnline w0 = true) by (rewrite (frame_online _ _ F0); exact Hona).
    assert (Hfind0 : List.find (Prisma.has_id accountId) (socialAccount w0) = Some account)
      by (rewrite (frame_rows _ _ F0); exact Hfinda).
    destruct (revokeCredentials_run accountId w0 account Hon0 Hfind0) as (w' & Er & Hrows).
    exists w', (Prisma.apply_update (deactivate (clock w0)) account).
    split; [exact Er|]. rewrite Hrows.
    split; [apply (find_updated_rows _ _ _ _ Hfind0) | reflexivity]. }
  destruct (revokeEndpoint (network wa) X) as [e | ok statusText body].
  - unfold throw. rewrite console_write_run.
    match goal with
    | |- context [revokeCredentials accountId ?w0] =>
        destruct (Hdone w0 (frame_set_console _ wa)) as (w' & account' & Er & Hf & Hi)
    end.
    rewrite Er. eauto.
  - destruct ok; cbn [negb].
    + unfold ret. destruct (Hdone wa (frame_refl wa)) as (w' & account' & Er & Hf & Hi).
      rewrite Er. eauto.
    + rewrite console_write_run.
      match goal with
      | |- context [revokeCredentials accountId ?w0] =>
          destruct (Hdone w0 (frame_set_console _ wa)) as (w' & account' & Er & Hf & Hi)
      end.
      rewrite Er. eauto.
Qed.

End FetchableCredentials.

Section UpdateMerge.
Context `{rt : NodeRuntime}.
Import Encryption CredentialService.

(** [updateCredentials] with a token supplied, on a record whose credentials
    are fetched: the stored access token becomes the supplied one or else the
    current one; the stored refresh token becomes the supplied one or else
    the current one, and stays as it is when there is neither. *)
Lemma updateCredentials_merge accountId w w1 account k a r updates :
  Prisma.findUnique accountId w = (Ok (Some account), w1) ->
  env_ENCRYPTION_KEY w = Some k -> k <> "" ->
  fetchable k account (clock w) a r ->
  truthy_ostring (u_accessToken updates) || truthy_ostring (u_refreshToken updates) = true ->
  exists stored w' account',
    updateCredentials accountId updates w = (Ok stored, w')
    /\ List.find (Prisma.has_id accountId) (socialAccount w') = Some account'
    /\ opens k (encryptedAccessToken account')
         (default "" (or_else (or_else (u_accessToken updates) (Some a)) (Some "")))
    /\ if truthy_ostring (or_else (u_refreshToken updates) r)
       then exists blob, encryptedRefreshToken account' = Some blob
                         /\ opens k blob (default "" (or_else (u_refreshToken updates) r))
       else encryptedRefreshToken account' = encryptedRefreshToken account.
Proof.
  intros Hfind Hk Hne Hfetch Hsupplied.
  destruct (getCredentials_some_run _ _ _ _ _ _ _ Hfind Hk Hfetch)
    as (c & wa & Eg & Hca & Hcr & _ & _ & Fg).
  destruct (findUnique_ok _ _ _ _ Hfind) as (-> & Hon & Hrow).
  assert (Hka : env_ENCRYPTION_KEY wa = Some k) by (rewrite (frame_key _ _ Fg); exact Hk).
  unfold updateCredentials, tryCatch, bind. rewrite Hfind.
  unfold Date_now at 1. unfold gets at 1. cbv beta iota.
  rewrite Hsupplied, Eg. cbv beta iota.
  cbn [fmap option_fmap option_map mbind option_bind]. rewrite Hca, Hcr.
  match goal with
  | |- context [encryptCredentials ?A ?R ?E ?S wa] =>
      destruct (encryptCredentials_run k A R E S wa Hka Hne)
        as (enc & wb & Ee & Fe & Oa & Rr); rewrite Ee
  end.
  cbv beta iota. unfold ret at 1. cbv beta iota.
  pose proof (frame_trans _ _ _ Fg Fe) as Fb.
  assert (Honb : prismaOnline wb = true) by (rewrite (frame_online _ _ Fb); exact Hon).
  assert (Hfindb : List.find (Prisma.has_id accountId) (socialAccount wb) = Some account)
    by (rewrite (frame_rows _ _ Fb); symmetry; exact Hrow).
  rewrite (update_run _ _ _ _ Honb Hfindb).
  match goal with
  | |- context [logCredentialAccess ?x ?y ?z ?w0] =>
      destruct (logCredentialAccess_run x y z w0) as (wc & El & Fl); rewrite El
  end.
  unfold ret. eexists _, wc, _. split; [reflexivity|].
  rewrite (frame_rows _ _ Fl). cbn [socialAccount set_socialAccount].
  split; [apply (find_updated_rows _ _ _ _ Hfindb)|].
  cbn. split; [exact Oa|].
  unfold refresh_sealed in Rr.
  destruct (truthy_ostring (or_else (u_refreshToken updates) r)).
  - destruct Rr as (blob & -> & Hbne & Ob). cbn [truthy_ostring].
    rewrite (truthy_string_true _ Hbne). eauto.
  - rewrite Rr. reflexivity.
Qed.

(** On a record whose credentials are fetched the omitted token survives:
    an update of the refresh token alone leaves an access token that opens
    to the current one, and an update of the access token alone leaves a
    refresh token that opens to the current one (or the column untouched
    when there is none). *)
Lemma updateCredentials_keeps_omitted_token accountId w w1 account k a r supplied :
  Prisma.findUnique accountId w = (Ok (Some account), w1) ->
  env_ENCRYPTION_KEY w = Some k -> k <> "" ->
  fetchable k account (clock w) a r ->
  supplied <> "" ->
  (exists stored w' account',
      updateCredentials accountId (refresh_only supplied) w = (Ok stored, w')
      /\ List.find (Prisma.has_id accountId) (socialAccount w') = Some account'
      /\ opens k (encryptedAccessToken account') a)
  /\ (exists stored w' account',
        updateCredentials accountId (access_only supplied) w = (Ok stored, w')
        /\ List.find (Prisma.has_id accountId) (socialAccount w') = Some account'
        /\ opens k (encryptedAccessToken account') supplied
        /\ match r with
           | Some x =>
               if truthy_string x
               then exists blob, encryptedRefreshToken account' = Some blob
                                 /\ opens k blob x
               else encryptedRefreshToken account' = encryptedRefreshToken account
           | None => encryptedRefreshToken account' = encryptedRefreshToken account
           end).
Proof.
  intros Hfind Hk Hne Hfetch Hs. split.
  - destruct (updateCredentials_merge accountId w w1 account k a r (refresh_only supplied)
                Hfind Hk Hne Hfetch) as (stored & w' & account' & E & F & Oa & _).
    { cbn. rewrite (truthy_string_true _ Hs). reflexivity. }
    exists stored, w', account'. split; [exact E|]. split; [exact F|].
    cbn [refresh_only u_accessToken] in Oa. unfold or_else in Oa.
    cbn [truthy_ostring] in Oa.
    destruct (truthy_string a) eqn:Ha; cbn in Oa; rewrite ?Ha in Oa; cbn in Oa.
    + exact Oa.
    + apply truthy_string_false_iff in Ha. subst a. exact Oa.
  - destruct (updateCredentials_merge accountId w w1 account k a r (access_only supplied)
                Hfind Hk Hne Hfetch) as (stored & w' & account' & E & F & Oa & Rr).
    { cbn. rewrite (truthy_string_true _ Hs). reflexivity. }
    exists stored, w', account'. split; [exact E|]. split; [exact F|].
    cbn [access_only u_accessToken u_refreshToken] in Oa, Rr. unfold or_else in Oa, Rr.
    cbn [truthy_ostring] in Oa, Rr. rewrite (truthy_string_true _ Hs) in Oa.
    cbn in Oa. rewrite (truthy_string_true _ Hs) in Oa. cbn in Oa.
    split; [exact Oa|].
    destruct r as [x|]; cbn [truthy_ostring] in Rr |- *; [|exact Rr].
    destruct (truthy_string x); exact Rr.
Qed.

End UpdateMerge.

(** ** The Facebook callback, to its end *)

Section FacebookCallback.
Context `{rt : NodeRuntime}.
Import Encryption OAuthStateManager CredentialService SocialAuthProvider.

Lemma stored_rows_member ws pf at_ c enc now rows :
  exists row,
    In row (stored_rows ws pf at_ c enc now rows)
    /\ Prisma.has_key ws pf (cred_platformAccountId c) row = true.
Proof.
  unfold stored_rows.
  destruct (List.find (Prisma.has_key ws pf (cred_platformAccountId c)) rows)
    as [existing|] eqn:Hfind.
  - destruct (List.find_some _ _ Hfind) as [Hin Hkey].
    exists (Prisma.apply_update (store_update c enc now) existing). split.
    + unfold updated_rows. apply in_map_iff. exists existing. split; [|exact Hin].
      unfold Prisma.has_id. rewrite String.eqb_refl. reflexivity.
    + exact Hkey.
  - exists (Prisma.new_row (store_create ws pf at_ c enc) rows now). split.
    + apply in_or_app. right. left. reflexivity.
    + apply (has_key_refl (Prisma.new_row (store_create ws pf at_ c enc) rows now)).
Qed.

Lemma has_key_true ws pf pid row :
  Prisma.has_key ws pf pid row = true ->
  workspaceId row = ws /\ platform row = pf /\ platformAccountId row = pid.
Proof.
  unfold Prisma.has_key. rewrite !andb_true_iff, !String.eqb_eq. tauto.
Qed.

Lemma getUserPermissions_run accessToken w :
  exists perms w',
    FacebookAuthProvider.getUserPermissions accessToken w = (Ok perms, w')
    /\ frame w w'.
Proof.
  unfold FacebookAuthProvider.getUserPermissions, tryCatch, bind, gets.
  destruct (permissionsEndpoint (network w)) as [e | ok st perms].
  - unfold throw. rewrite console_write_run. unfold ret.
    eexists _, _. split; [reflexivity | apply frame_set_console].
  - destruct ok; cbn [negb].
    + unfold ret. eexists _, _. split; [reflexivity | apply frame_refl].
    + rewrite console_write_run. unfold ret.
      eexists _, _. split; [reflexivity | apply frame_set_console].
Qed.

Lemma getUserPages_run accessToken w :
  exists pages w',
    FacebookAuthProvider.getUserPages accessToken w = (Ok pages, w') /\ frame w w'.
Proof.
  unfold FacebookAuthProvider.getUserPages, tryCatch, bind, gets.
  destruct (pagesEndpoint (network w)) as [e | ok st pages].
  - unfold throw. rewrite console_write_run. unfold ret.
    eexists _, _. split; [reflexivity | apply frame_set_console].
  - destruct ok; cbn [negb].
    + unfold ret. eexists _, _. split; [reflexivity | apply frame_refl].
    + unfold throw. rewrite console_write_run. unfold ret.
      eexists _, _. split; [reflexivity | apply frame_set_console].
Qed.

Lemma provider_storeCredentials_run p ws account tokens w k :
  env_ENCRYPTION_KEY w = Some k -> k <> "" -> prismaOnline w = true ->
  exists w' row,
    storeCredentials p ws account tokens w = (Ok tt, w')
    /\ In row (socialAccount w')
    /\ workspaceId row = ws /\ platform row = platform_tag p
    /\ platformAccountId row = acc_id account.
Proof.
  intros Hk Hne Hon. unfold storeCredentials, bind.
  unfold Date_now at 1. unfold gets at 1. cbv beta iota.
  match goal with
  | |- context [CredentialService.storeCredentials ?a ?b ?c ?d w] =>
      destruct (storeCredentials_run a b c d w k Hk Hne Hon)
        as (s & enc & w' & E & _ & _ & T & _ & _ & _);
      destruct (stored_rows_member a b c d enc (clock w) (socialAccount w))
        as (row & Hin & Hkey)
  end.
  rewrite E. unfold ret. exists w', row. split; [reflexivity|].
  rewrite T. split; [exact Hin|].
  apply has_key_true in Hkey. exact Hkey.
Qed.

(** With the platform answering, the Facebook callback completes on a state
    minted for x: it returns the account and stores its credentials in the
    workspace of the state, as a Facebook account. *)
Lemma facebook_callback_stores_for_x_state ws a w secret code redirectUri :
  configured_secret w = Some secret -> ws <> "" -> clock w <> 0 ->
  exists tok w1,
    generateState ws X a w = (Ok tok, w1)
    /\ forall w2 k st1 body st2 user,
         configured_secret w2 = Some secret ->
         clock w2 - clock w <= STATE_EXPIRY_MS ->
         env_ENCRYPTION_KEY w2 = Some k -> k <> "" -> prismaOnline w2 = true ->
         tokenEndpoint (network w2) FACEBOOK = Responds true st1 body ->
         userEndpoint (network w2) FACEBOOK = Responds true st2 user ->
         exists result w3 row,
           FacebookAuthProvider.handleCallback code tok redirectUri w2 = (Ok result, w3)
           /\ In row (socialAccount w3)
           /\ workspaceId row = ws /\ platform row = "facebook"
           /\ platformAccountId row = user_id user.
Proof.
  intros Hs Hws Ht.
  eexists _, _. split; [apply (generateState_run _ _ _ _ _ Hs)|].
  intros w2 k st1 body st2 user Hs2 Hwin Hk Hne Hon Htok Huser.
  pose proof (randomBytes_length (entropy w) 16) as Hlen.
  pose proof (parseState_minted secret ws X a (clock w)
                (fst (randomBytes (entropy w) 16)) w2 Hs2) as Hparse.
  rewrite (minted_fields_pass _ _ _ Hws Ht Hlen) in Hparse.
  replace (clock w2 - clock w >? STATE_EXPIRY_MS) with false in Hparse
    by (symmetry; rewrite Z.gtb_ltb; apply Z.ltb_ge; lia).
  unfold FacebookAuthProvider.handleCallback. rewrite (bind_ok _ _ _ _ _ Hparse).
  cbn [isValid state_data].
  set (d := stateData ws X a (clock w) (Hex.encode (fst (randomBytes (entropy w) 16)))).
  change (property d "accountType") with (Some (JStr (accountType_tag a))).
  unfold tryCatch, bind.
  unfold FacebookAuthProvider.exchangeCodeForTokens at 1. unfold bind, gets.
  rewrite Htok. cbn [negb]. unfold ret at 1. cbv beta iota.
  unfold FacebookAuthProvider.getAccountInfo at 1. unfold tryCatch, bind, gets.
  rewrite Huser. cbn [negb].
  match goal with
  | |- context [FacebookAuthProvider.getUserPermissions ?t w2] =>
      destruct (getUserPermissions_run t w2) as (perms & wp & Ep & Fp); rewrite Ep
  end.
  unfold ret at 1. cbv beta iota.
  assert (Hstore : forall account w0, frame wp w0 ->
            acc_id account = user_id user ->
            exists w3 row,
              storeForState FACEBOOK d account
                {| tok_accessToken := tok_accessToken body; tok_refreshToken := None;
                   tok_expiresIn := tok_expiresIn body; tok_scope := None |} w0
              = (Ok tt, w3)
              /\ In row (socialAccount w3)
              /\ workspaceId row = ws /\ platform row = "facebook"
              /\ platformAccountId row = user_id user).
  { intros account w0 F0 Hid. unfold storeForState.
    change (property d "workspaceId") with (Some (JStr ws)). cbv beta iota.
    pose proof (frame_trans _ _ _ Fp F0) as F20.
    destruct (provider_storeCredentials_run FACEBOOK ws account
                {| tok_accessToken := tok_accessToken body; tok_refreshToken := None;
                   tok_expiresIn := tok_expiresIn body; tok_scope := None |} w0 k)
      as (w3 & row & E & Hin & Hw & Hp & Hi).
    - rewrite (frame_key _ _ F20). exact Hk.
    - exact Hne.
    - rewrite (frame_online _ _ F20). exact Hon.
    - exists w3, row. rewrite <- Hid. auto. }
  destruct a; cbn [accountType_tag].
  - unfold ret at 1. cbv beta iota.
    match goal with
    | |- context [storeForState FACEBOOK d ?acct ?t wp] =>
        destruct (Hstore acct wp (frame_refl wp) eq_refl) as (w3 & row & E & H)
    end.
    rewrite E. unfold ret. eexists _, w3, row. split; [reflexivity | exact H].
  - unfold ret at 1. cbv beta iota.
    match goal with
    | |- context [storeForState FACEBOOK d ?acct ?t wp] =>
        destruct (Hstore acct wp (frame_refl wp) eq_refl) as (w3 & row & E & H)
    end.
    rewrite E. unfold ret. eexists _, w3, row. split; [reflexivity | exact H].
  - match goal with
    | |- context [FacebookAuthProvider.getUserPages ?t wp] =>
        destruct (getUserPages_run t wp) as (pages & wg & Eg & Fg); rewrite Eg
    end.
    unfold ret at 1. cbv beta iota.
    match goal with
    | |- context [storeForState FACEBOOK d ?acct ?t wg] =>
        destruct (Hstore acct wg Fg eq_refl) as (w3 & row & E & H)
    end.
    rewrite E. unfold ret. eexists _, w3, row. split; [reflexivity | exact H].
Qed.

End FacebookCallback.


Section PlatformBinding.
Context `{rt : NodeRuntime}.
Import OAuthStateManager.

(** C1, on the code: a state minted for platform x and handed to the
    Facebook callback within its ten minutes is not rejected.  It parses as
    valid, with platform "x" in its data; the handler never answers
    BAD_REQUEST; and when the token and identity endpoints answer, it
    returns and stores the credentials in the state's workspace as a
    Facebook account. *)
Theorem facebook_callback_accepts_x_state ws a w secret code redirectUri :
  configured_secret w = Some secret -> ws <> "" -> clock w <> 0 ->
  exists tok w1,
    generateState ws X a w = (Ok tok, w1)
    /\ forall w2, configured_secret w2 = Some secret ->
         clock w2 - clock w <= STATE_EXPIRY_MS ->
         (exists d, parseState tok w2
                    = (Ok {| state_data := Some d; isValid := true; error := None |}, w2)
                    /\ property d "platform" = Some (JStr "x"))
         /\ (forall msg w3,
               FacebookAuthProvider.handleCallback code tok redirectUri w2
               <> (Throw (TRPCError BAD_REQUEST msg), w3))
         /\ (forall k st1 body st2 user,
               env_ENCRYPTION_KEY w2 = Some k -> k <> "" -> prismaOnline w2 = true ->
               tokenEndpoint (network w2) FACEBOOK = Responds true st1 body ->
               userEndpoint (network w2) FACEBOOK = Responds true st2 user ->
               exists result w3 row,
                 FacebookAuthProvider.handleCallback code tok redirectUri w2
                 = (Ok result, w3)
                 /\ In row (socialAccount w3)
                 /\ workspaceId row = ws /\ platform row = "facebook"
                 /\ platformAccountId row = user_id user).
Proof.
  intros Hs Hws Ht.
  destruct (facebook_callback_never_bad_request ws a w secret code redirectUri Hs Hws Ht)
    as (tok & w1 & E & Hnever).
  destruct (facebook_callback_stores_for_x_state ws a w secret code redirectUri Hs Hws Ht)
    as (tok' & w1' & E' & Hstores).
  rewrite E in E'. injection E' as <- <-.
  exists tok, w1. split; [exact E|].
  intros w2 Hs2 Hwin. destruct (Hnever w2 Hs2 Hwin) as [Hvalid Hnot].
  split; [exact Hvalid|]. split; [exact Hnot|].
  intros k st1 body st2 user. apply Hstores; assumption.
Qed.

(** At the x callback a state minted for Facebook passes the state check
    too; the handler stops at the PKCE lookup, when no verifier is stored
    under the state. *)
Lemma x_callback_misses_verifier ws a w secret code redirectUri :
  configured_secret w = Some secret -> ws <> "" -> clock w <> 0 ->
  exists tok w1,
    generateState ws FACEBOOK a w = (Ok tok, w1)
    /\ forall w2, configured_secret w2 = Some secret ->
         clock w2 - clock w <= STATE_EXPIRY_MS ->
         sessionStore w2 !! ("pkce:" +:+ tok) = None ->
         XAuthProvider.handleCallback code tok redirectUri w2
         = (Throw (TRPCError BAD_REQUEST "PKCE code verifier not found"), w2).
Proof.
  intros Hs Hws Ht.
  eexists _, _. split; [apply (generateState_run _ _ _ _ _ Hs)|].
  intros w2 Hs2 Hwin Hstore.
  pose proof (randomBytes_length (entropy w) 16) as Hlen.
  pose proof (parseState_minted secret ws FACEBOOK a (clock w)
                (fst (randomBytes (entropy w) 16)) w2 Hs2) as Hparse.
  rewrite (minted_fields_pass _ _ _ Hws Ht Hlen) in Hparse.
  replace (clock w2 - clock w >? STATE_EXPIRY_MS) with false in Hparse
    by (symmetry; rewrite Z.gtb_ltb; apply Z.ltb_ge; lia).
  unfold XAuthProvider.handleCallback. rewrite (bind_ok _ _ _ _ _ Hparse).
  cbn [isValid state_data].
  rewrite (bind_ok _ _ _ _ _ (get_missing _ _ Hstore)). reflexivity.
Qed.

End PlatformBinding.

(** * Further properties *)

(** ** [secureCompare] *)

Section SecureCompare.
Import EncryptionUtils.

Lemma toInt32_small z : 0 <= z < 2 ^ 31 -> toInt32 z = z.
Proof.
  intros H. unfold toInt32. rewrite Z.mod_small; lia.
Qed.

Lemma log2_code_unit c : code_unit c -> Z.log2 c < 16.
Proof.
  unfold code_unit. intros [H0 H1].
  destruct (Z.eq_dec c 0) as [->|Hne]; [reflexivity|].
  apply Z.log2_lt_pow2; lia.
Qed.

Lemma code_unit_of_log2 c : 0 <= c -> Z.log2 c < 16 -> code_unit c.
Proof.
  unfold code_unit. intros H0 Hl. split; [exact H0|].
  destruct (Z.eq_dec c 0) as [->|Hne]; [lia|].
  change 65536 with (2 ^ 16). apply Z.log2_lt_pow2; lia.
Qed.

Lemma code_unit_lxor x y : code_unit x -> code_unit y -> code_unit (Z.lxor x y).
Proof.
  intros Hx Hy. pose proof (log2_code_unit _ Hx). pose proof (log2_code_unit _ Hy).
  destruct Hx as [Hx _], Hy as [Hy _].
  apply code_unit_of_log2; [apply Z.lxor_nonneg; tauto|].
  pose proof (Z.log2_lxor x y Hx Hy). lia.
Qed.

Lemma code_unit_lor x y : code_unit x -> code_unit y -> code_unit (Z.lor x y).
Proof.
  intros Hx Hy. pose proof (log2_code_unit _ Hx). pose proof (log2_code_unit _ Hy).
  destruct Hx as [Hx _], Hy as [Hy _].
  apply code_unit_of_log2; [apply Z.lor_nonneg; tauto|].
  rewrite (Z.log2_lor x y Hx Hy). lia.
Qed.

Lemma toInt32_code_unit c : code_unit c -> toInt32 c = c.
Proof.
  unfold code_unit. intros H. apply toInt32_small. lia.
Qed.

Lemma code_unit_nth s i : Forall code_unit s -> code_unit (nth i s 0).
Proof.
  intros Hs. destruct (Nat.lt_ge_cases i (length s)) as [Hlt|Hge].
  - apply (proj1 (List.Forall_forall _ _) Hs). apply nth_In. exact Hlt.
  - rewrite nth_overflow by exact Hge. unfold code_unit. lia.
Qed.

(** The accumulator of the loop stays a code unit, and it is zero at the
    end exactly when it was zero at the start and the two strings agree at
    every index visited. *)
Lemma secureCompare_loop a b start n result :
  Forall code_unit a -> Forall code_unit b -> code_unit result ->
  let final :=
    fold_left
      (fun result i =>
         toInt32 (Z.lor result
                    (toInt32 (Z.lxor (toInt32 (charCodeAt a i))
                                     (toInt32 (charCodeAt b i))))))
      (seq start n) result in
  code_unit final
  /\ (final = 0 <->
      result = 0 /\ forall i, (start <= i < start + n)%nat -> nth i a 0 = nth i b 0).
Proof.
  intros Ha Hb. revert start result.
  induction n as [|n IH]; intros start result Hr; cbn [seq fold_left].
  - split; [exact Hr|]. split; [intros ->; split; [reflexivity|]; intros; lia | tauto].
  - pose proof (code_unit_nth a start Ha) as Hx.
    pose proof (code_unit_nth b start Hb) as Hy.
    pose proof (code_unit_lxor _ _ Hx Hy) as Hxy.
    pose proof (code_unit_lor _ _ Hr Hxy) as Hacc.
    replace (toInt32 (Z.lor result
               (toInt32 (Z.lxor (toInt32 (charCodeAt a start))
                                (toInt32 (charCodeAt b start))))))
      with (Z.lor result (Z.lxor (nth start a 0) (nth start b 0))).
    2:{ unfold charCodeAt.
        rewrite (toInt32_code_unit _ Hx), (toInt32_code_unit _ Hy),
          (toInt32_code_unit _ Hxy), (toInt32_code_unit _ Hacc). reflexivity. }
    destruct (IH (S start) _ Hacc) as [Hc Hiff].
    split; [exact Hc|].
    etransitivity; [exact Hiff|].
    rewrite Z.lor_eq_0_iff, Z.lxor_eq_0_iff.
    split.
    + intros [[-> Heq] Hrest]. split; [reflexivity|].
      intros i Hi. destruct (Nat.eq_dec i start) as [->|Hne]; [exact Heq|].
      apply Hrest. lia.
    + intros [-> Hall]. split; [split; [reflexivity|]|].
      * apply Hall. lia.
      * intros i Hi. apply Hall. lia.
Qed.

(** X1.  [secureCompare] decides equality: on two strings given by their
    UTF-16 code units it answers true exactly when they are the same
    string. *)
Theorem secureCompare_correct a b :
  Forall code_unit a -> Forall code_unit b ->
  (secureCompare a b = true <-> a = b).
Proof.
  intros Ha Hb. unfold secureCompare.
  destruct (Nat.eqb_spec (length a) (length b)) as [Hlen|Hlen]; cbn [negb].
  - assert (H0 : code_unit 0) by (unfold code_unit; lia).
    destruct (secureCompare_loop a b 0 (length a) 0 Ha Hb H0) as [_ Hiff].
    cbv zeta in Hiff. rewrite Z.eqb_eq. etransitivity; [exact Hiff|].
    split.
    + intros [_ Hall]. apply (nth_ext _ _ 0 0 Hlen). intros i Hi. apply Hall. lia.
    + intros ->. split; [reflexivity|]. reflexivity.
  - split; [discriminate|]. intros ->. contradiction.
Qed.

End SecureCompare.

(** ** The failures of [encrypt] and [decrypt] *)

Section EncryptionFailures.
Context `{rt : NodeRuntime}.
Import Encryption EncryptionUtils.

Lemma key_configured_dec w : key_configured w \/ ~ key_configured w.
Proof.
  unfold key_configured.
  destruct (env_ENCRYPTION_KEY w) as [k|].
  - destruct (String.eqb_spec k "") as [->|Hne].
    + right. intros (k' & [= <-] & Hk'). contradiction.
    + left. eauto.
  - right. intros (k' & [=] & _).
Qed.

Lemma truthy_string_unconfigured w k :
  ~ key_configured w -> env_ENCRYPTION_KEY w = Some k -> truthy_string k = false.
Proof.
  intros Hno Hk. apply truthy_string_false_iff.
  destruct (String.eqb_spec k "") as [->|Hne]; [reflexivity|].
  exfalso. apply Hno. exists k. auto.
Qed.

Lemma encrypt_unconfigured text w :
  ~ key_configured w ->
  encrypt text w
  = (Throw (JsError "Failed to encrypt data" None),
     set_console ((ERROR, "Encryption error:") :: console w) w).
Proof.
  intros Hno. unfold encrypt, tryCatch, bind, gets.
  destruct (env_ENCRYPTION_KEY w) as [k|] eqn:Hk; [|reflexivity].
  rewrite (truthy_string_unconfigured w k Hno Hk). reflexivity.
Qed.

Lemma decrypt_unconfigured blob w :
  ~ key_configured w ->
  decrypt blob w
  = (Throw (JsError "Failed to decrypt data" None),
     set_console ((ERROR, "Decryption error:") :: console w) w).
Proof.
  intros Hno. unfold decrypt, tryCatch, bind, gets.
  destruct (env_ENCRYPTION_KEY w) as [k|] eqn:Hk; [|reflexivity].
  rewrite (truthy_string_unconfigured w k Hno Hk). reflexivity.
Qed.

Lemma encrypt_fails_iff_unconfigured text w :
  ((exists e w', encrypt text w = (Throw e, w')) <-> ~ key_configured w)
  /\ (forall e w', encrypt text w = (Throw e, w') ->
        e = JsError "Failed to encrypt data" None /\ frame w w').
Proof.
  destruct (key_configured_dec w) as [(k & Hk & Hne)|Hno].
  - destruct (encrypt_run k text w Hk Hne) as (blob & w1 & E & _).
    split.
    + split.
      * intros (e & w' & He). rewrite E in He. discriminate.
      * intros Hno. exfalso. apply Hno. exists k. auto.
    + intros e w' He. rewrite E in He. discriminate.
  - rewrite (encrypt_unconfigured text w Hno). split.
    + split; [intros _; exact Hno | intros _; eauto].
    + intros e w' [= <- <-]. split; [reflexivity | apply frame_set_console].
Qed.

Lemma decrypt_outcomes blob w :
  (exists text, decrypt blob w = (Ok text, w))
  \/ decrypt blob w
     = (Throw (JsError "Failed to decrypt data" None),
        set_console ((ERROR, "Decryption error:") :: console w) w).
Proof.
  unfold decrypt, tryCatch, bind, gets.
  destruct (env_ENCRYPTION_KEY w) as [k|]; [|right; reflexivity].
  destruct (truthy_string k); [|right; reflexivity].
  match goal with
  | |- context [aes256gcm_open ?a ?b ?c ?d ?e] =>
      destruct (aes256gcm_open a b c d e) as [plain|]
  end; [left; eexists; reflexivity | right; reflexivity].
Qed.

Lemma decrypt_failures_are_generic blob w :
  (forall e w', decrypt blob w = (Throw e, w') ->
     e = JsError "Failed to decrypt data" None /\ frame w w')
  /\ (~ key_configured w ->
      exists w', decrypt blob w = (Throw (JsError "Failed to decrypt data" None), w'))
  /\ (forall text w', decrypt blob w = (Ok text, w') -> w' = w /\ key_configured w).
Proof.
  destruct (key_configured_dec w) as [(k & Hk & Hne)|Hno].
  - assert (Hcfg : key_configured w) by (exists k; auto).
    unfold decrypt, tryCatch, bind, gets.
    rewrite Hk, (truthy_string_true _ Hne).
    match goal with
    | |- context [aes256gcm_open ?a ?b ?c ?d ?e] =>
        destruct (aes256gcm_open a b c d e) as [plain|]
    end.
    + split; [intros e w' [=]|]. split; [intros Hno; contradiction|].
      intros text w' [= _ <-]. auto.
    + split.
      * intros e w' [= <- <-]. split; [reflexivity | apply frame_set_console].
      * split; [intros Hno; contradiction | intros text w' [=]].
  - rewrite (decrypt_unconfigured blob w Hno). split.
    + intros e w' [= <- <-]. split; [reflexivity | apply frame_set_console].
    + split; [eauto | intros text w' [=]].
Qed.

(** X2.  How [encrypt] and [decrypt] fail.  [encrypt] fails exactly when the
    master key is missing or empty.  Every failure of [decrypt] (a missing
    key, a blob cut short, a tag that does not verify) and every failure of
    [encrypt] reaches the caller as one fixed error, "Failed to decrypt
    data" or "Failed to encrypt data", and touches only the console.
    Without the master key [decrypt] fails on every input; when it succeeds
    it changes nothing. *)
Theorem encryption_failures_are_generic text blob w :
  (((exists e w', encrypt text w = (Throw e, w')) <-> ~ key_configured w)
   /\ (forall e w', encrypt text w = (Throw e, w') ->
         e = JsError "Failed to encrypt data" None /\ frame w w'))
  /\ ((forall e w', decrypt blob w = (Throw e, w') ->
         e = JsError "Failed to decrypt data" None /\ frame w w')
      /\ (~ key_configured w ->
          exists w', decrypt blob w = (Throw (JsError "Failed to decrypt data" None), w'))
      /\ (forall plain w', decrypt blob w = (Ok plain, w') ->
            w' = w /\ key_configured w)).
Proof.
  split; [apply encrypt_fails_iff_unconfigured | apply decrypt_failures_are_generic].
Qed.

(** X4.  The round trip of [CredentialManager] at the shape the credential
    service calls it: what [encryptCredentials] seals, [decryptCredentials]
    opens to the same access token; the refresh token comes back when it was
    a non-empty string and is absent otherwise; the expiry and the scope,
    sealed as metadata, are not read back. *)
Theorem credentials_roundtrip a r e sc w :
  key_configured w ->
  exists enc w1,
    encryptCredentials a r e sc w = (Ok enc, w1)
    /\ decryptCredentials (enc_encryptedAccessToken enc) (enc_encryptedRefreshToken enc) w1
       = (Ok {| dec_accessToken := a;
                dec_refreshToken := if truthy_ostring r then r else None;
                dec_scope := None |}, w1).
Proof.
  intros (k & Hk & Hne).
  destruct (encryptCredentials_run k a r e sc w Hk Hne) as (enc & w1 & E & F & Oa & Rr).
  exists enc, w1. split; [exact E|].
  assert (Hk1 : env_ENCRYPTION_KEY w1 = Some k) by (rewrite (frame_key _ _ F); exact Hk).
  unfold refresh_sealed in Rr.
  unfold decryptCredentials, bind. rewrite (Oa w1 Hk1).
  destruct (truthy_ostring r) eqn:Hr.
  - destruct Rr as (blob & -> & Hbne & Ob). cbn [truthy_ostring].
    rewrite (truthy_string_true _ Hbne). cbn [default].
    change (Datatypes.id blob) with blob. rewrite (Ob w1 Hk1).
    destruct r as [x|]; [reflexivity | discriminate Hr].
  - rewrite Rr. reflexivity.
Qed.



End EncryptionFailures.

(** ** [parseState] and [validateCSRFToken] *)

Section StateManagerMore.
Context `{web : NodeWeb}.
Import OAuthStateManager OAuthStateTokens.

Lemma parseState_outcome state w :
  exists result w',
    parseState state w = (Ok result, w')
    /\ frame w w'
    /\ (isValid result = true ->
        error result = None
        /\ configured_secret w <> None
        /\ exists d, state_data result = Some d
                     /\ fields_present d
                     /\ expired (clock w) (property d "timestamp") = false)
    /\ (isValid result = false -> error result <> None).
Proof.
  unfold parseState, tryCatch. unfold bind at 1. rewrite getStateSecret_run.
  destruct (configured_secret w) as [secret|] eqn:Hs.
  2:{ cbn. eexists _, _. split; [reflexivity|].
      split; [apply frame_set_console|]. split; [discriminate | discriminate]. }
  destruct (aes256cbc_decrypt secret _) as [plain|].
  2:{ cbn. eexists _, _. split; [reflexivity|].
      split; [apply frame_set_console|]. split; [discriminate | discriminate]. }
  destruct (JSON_parse (string_of_list_byte plain)) as [d|].
  2:{ cbn. eexists _, _. split; [reflexivity|].
      split; [apply frame_set_console|]. split; [discriminate | discriminate]. }
  assert (Hbody : forall d', d = d' -> d' <> JNull ->
            exists result w',
              (if negb (truthy (property d' "workspaceId"))
                  || negb (truthy (property d' "platform"))
                  || negb (truthy (property d' "accountType"))
                  || negb (truthy (property d' "timestamp"))
                  || negb (truthy (property d' "nonce"))
               then ret {| state_data := None; isValid := false;
                           error := Some "Invalid state format" |}
               else
                 now <- Date_now ;;
                 if expired now (property d' "timestamp")
                 then ret {| state_data := Some d'; isValid := false;
                             error := Some "State has expired" |}
                 else ret {| state_data := Some d'; isValid := true;
                             error := None |}) w
              = (Ok result, w')
              /\ w' = w
              /\ (isValid result = true ->
                  error result = None
                  /\ exists d0, state_data result = Some d0
                                /\ fields_present d0
                                /\ expired (clock w) (property d0 "timestamp") = false)
              /\ (isValid result = false -> error result <> None)).
  { intros d' _ _. unfold fields_present.
    destruct (truthy (property d' "workspaceId")) eqn:F1; cbn [negb orb];
      [|eexists _, _; split; [reflexivity|]; split; [reflexivity|];
        split; [discriminate | discriminate]].
    destruct (truthy (property d' "platform")) eqn:F2; cbn [negb orb];
      [|eexists _, _; split; [reflexivity|]; split; [reflexivity|];
        split; [discriminate | discriminate]].
    destruct (truthy (property d' "accountType")) eqn:F3; cbn [negb orb];
      [|eexists _, _; split; [reflexivity|]; split; [reflexivity|];
        split; [discriminate | discriminate]].
    destruct (truthy (property d' "timestamp")) eqn:F4; cbn [negb orb];
      [|eexists _, _; split; [reflexivity|]; split; [reflexivity|];
        split; [discriminate | discriminate]].
    destruct (truthy (property d' "nonce")) eqn:F5; cbn [negb orb];
      [|eexists _, _; split; [reflexivity|]; split; [reflexivity|];
        split; [discriminate | discriminate]].
    unfold bind, Date_now, gets.
    destruct (expired (clock w) (property d' "timestamp")) eqn:Hexp.
    - eexists _, _. split; [reflexivity|]. split; [reflexivity|].
      split; [discriminate | discriminate].
    - eexists _, _. split; [reflexivity|]. split; [reflexivity|].
      split; [|discriminate].
      intros _. split; [reflexivity|]. eexists. split; [reflexivity|].
      cbn [state_data]. repeat split; assumption. }
  destruct d as [|b|n|s|items|props];
    try (destruct (Hbody _ eq_refl ltac:(discriminate))
           as (result & w' & E & -> & Hv & Hi);
         rewrite E; exists result, w; split; [reflexivity|];
         split; [apply frame_refl|]; split; [|exact Hi];
         intros Hval; destruct (Hv Hval) as (He & Hd);
         split; [exact He|]; split; [discriminate | exact Hd]).
  cbn. eexists _, _. split; [reflexivity|].
  split; [apply frame_set_console|]. split; [discriminate | discriminate].
Qed.

(** X6.  [parseState] fails closed.  On every input and in every world it
    returns (it never throws, also with no secret configured), touching at
    most the console; a result marked valid carries no error and a state
    with all five fields present, not older than the expiry, read under a
    configured secret; a result marked invalid always carries an error. *)
Theorem parseState_fails_closed state w :
  exists result w',
    parseState state w = (Ok result, w')
    /\ frame w w'
    /\ (isValid result = true ->
        error result = None
        /\ configured_secret w <> None
        /\ exists d, state_data result = Some d
                     /\ fields_present d
                     /\ expired (clock w) (property d "timestamp") = false)
    /\ (isValid result = false -> error result <> None).
Proof. exact (parseState_outcome state w). Qed.




End StateManagerMore.

(** ** The session store: [has], [cleanup] and the timer *)

Section SessionStoreMore.
Context `{rt : NodeRuntime}.
Import OAuthSessionStore.

Lemma live_gtb now entry : live now entry <-> (now >? entry_expiresAt entry) = false.
Proof.
  unfold live. rewrite Z.gtb_ltb, Z.ltb_ge. reflexivity.
Qed.

Lemma has_run key w :
  has key w =
  match sessionStore w !! key with
  | None => (Ok false, w)
  | Some entry =>
      if clock w >? entry_expiresAt entry
      then (Ok false, set_sessionStore (delete key (sessionStore w)) w)
      else (Ok true, w)
  end.
Proof.
  unfold has, bind, Date_now, gets. cbv beta iota.
  destruct (sessionStore w !! key) as [entry|]; [|reflexivity].
  destruct (clock w >? entry_expiresAt entry); reflexivity.
Qed.

Lemma get_run key w :
  get key w =
  match sessionStore w !! key with
  | None => (Ok None, w)
  | Some entry =>
      (Ok (if clock w >? entry_expiresAt entry then None else Some (data entry)),
       set_sessionStore (delete key (sessionStore w)) w)
  end.
Proof.
  unfold get, bind, Date_now, gets. cbv beta iota.
  destruct (sessionStore w !! key) as [entry|]; [|reflexivity].
  destruct (clock w >? entry_expiresAt entry); reflexivity.
Qed.

Lemma set_run key v ttl w :
  set key v ttl w =
  (Ok tt,
   set_cleanupTimer true
     (set_sessionStore
        (<[key := {| data := v; entry_expiresAt := clock w + default DEFAULT_TTL ttl |}]>
           (sessionStore w)) w))
  \/ (cleanupTimer w = true
      /\ set key v ttl w =
         (Ok tt,
          set_sessionStore
            (<[key := {| data := v;
                         entry_expiresAt := clock w + default DEFAULT_TTL ttl |}]>
               (sessionStore w)) w)).
Proof.
  unfold set, bind, Date_now, gets, modify, startCleanup, ret.
  cbn [cleanupTimer set_sessionStore clock sessionStore].
  destruct (cleanupTimer w) eqn:Ht; cbn [negb]; [right | left]; auto.
Qed.

Lemma cleanup_run w :
  let kept :=
    filter (fun kv : string * SessionEntry =>
              negb (clock w >? entry_expiresAt (snd kv))) (sessionStore w) in
  cleanup w =
  (Ok tt,
   if bool_decide (size kept = 0%nat) && cleanupTimer w
   then set_cleanupTimer false (set_sessionStore kept w)
   else set_sessionStore kept w).
Proof.
  unfold cleanup, bind, Date_now, gets, modify, ret.
  cbn [cleanupTimer set_sessionStore clock sessionStore].
  destruct (bool_decide _ && cleanupTimer w); reflexivity.
Qed.

(** X8.  [has] does not consume.  It answers true exactly when the key holds
    an entry that has not expired, and then it leaves the world as it is, so
    that the [get] that follows still hands the data out; it never disturbs
    another key; when it answers false the [get] that follows finds
    nothing. *)
Theorem has_does_not_consume key w :
  exists b w1,
    has key w = (Ok b, w1)
    /\ (b = true <-> exists entry, sessionStore w !! key = Some entry
                                   /\ live (clock w) entry)
    /\ (forall k, k <> key -> sessionStore w1 !! k = sessionStore w !! k)
    /\ (b = true ->
        w1 = w
        /\ exists entry w2, sessionStore w !! key = Some entry
                            /\ get key w1 = (Ok (Some (data entry)), w2))
    /\ (b = false -> get key w1 = (Ok None, w1)).
Proof.
  rewrite has_run.
  destruct (sessionStore w !! key) as [entry|] eqn:Hkey.
  - destruct (clock w >? entry_expiresAt entry) eqn:Hexp.
    + eexists _, _. split; [reflexivity|]. split.
      * split; [discriminate|]. intros (e & [= <-] & Hlive).
        apply live_gtb in Hlive. congruence.
      * split.
        -- intros k Hk. cbn [sessionStore set_sessionStore].
           apply lookup_delete_ne. congruence.
        -- split; [discriminate|]. intros _. apply get_missing.
           cbn [sessionStore set_sessionStore]. apply lookup_delete_eq.
    + eexists _, _. split; [reflexivity|]. split.
      * split; [|reflexivity]. intros _. exists entry. split; [reflexivity|].
        apply live_gtb. exact Hexp.
      * split; [reflexivity|]. split; [|discriminate].
        intros _. split; [reflexivity|].
        eexists entry, _. split; [reflexivity|].
        rewrite get_run, Hkey, Hexp. reflexivity.
  - eexists _, _. split; [reflexivity|]. split.
    + split; [discriminate | intros (e & [=] & _)].
    + split; [reflexivity|]. split; [discriminate|].
      intros _. apply get_missing. exact Hkey.
Qed.

(** X9.  [cleanup] drops exactly the expired entries: afterwards a key holds
    an entry if and only if it held that entry before and the entry has not
    expired.  The timer is stopped only when nothing is left, and the rest
    of the world is untouched. *)
Theorem cleanup_drops_expired w :
  exists w1,
    cleanup w = (Ok tt, w1)
    /\ (forall k entry,
          sessionStore w1 !! k = Some entry
          <-> sessionStore w !! k = Some entry /\ live (clock w) entry)
    /\ (cleanupTimer w1 = true <-> cleanupTimer w = true /\ sessionStore w1 <> ∅)
    /\ clock w1 = clock w
    /\ socialAccount w1 = socialAccount w.
Proof.
  pose proof (cleanup_run w) as Hrun. cbv zeta in Hrun.
  set (kept := filter (fun kv : string * SessionEntry =>
                         negb (clock w >? entry_expiresAt (snd kv))) (sessionStore w))
    in Hrun.
  assert (Hkept : forall k entry,
            kept !! k = Some entry
            <-> sessionStore w !! k = Some entry /\ live (clock w) entry).
  { intros k entry. unfold kept. rewrite map_lookup_filter_Some. cbn [snd].
    rewrite live_gtb.
    destruct (clock w >? entry_expiresAt entry); cbn [negb].
    - split; [intros [_ []] | intros [_ [=]]].
    - split; [intros [H _]; auto | intros [H _]; split; [exact H | exact I]]. }
  eexists. split; [exact Hrun|].
  destruct (bool_decide (size kept = 0%nat)) eqn:Hsz.
  - apply bool_decide_eq_true in Hsz. apply map_size_empty_iff in Hsz.
    destruct (cleanupTimer w) eqn:Ht; cbn [andb].
    + cbn [sessionStore cleanupTimer set_cleanupTimer set_sessionStore clock socialAccount].
      split; [exact Hkept|]. split; [|auto].
      split; [discriminate | intros [_ Hne]; contradiction].
    + cbn [sessionStore cleanupTimer set_cleanupTimer set_sessionStore clock socialAccount].
      split; [exact Hkept|]. split; [|auto].
      rewrite Ht. split; [discriminate | intros [H _]; discriminate].
  - apply bool_decide_eq_false in Hsz. rewrite map_size_empty_iff in Hsz.
    cbn [andb sessionStore cleanupTimer set_cleanupTimer set_sessionStore clock
         socialAccount].
    split; [exact Hkept|]. split; [|auto].
    split; [intros H; auto | intros [H _]; exact H].
Qed.

Lemma delete_nonempty (m : gmap string SessionEntry) key :
  delete key m <> ∅ -> m <> ∅.
Proof.
  intros Hne ->. apply Hne. apply delete_empty.
Qed.

(** X10.  No entry is ever left without a running cleanup timer.  The
    invariant holds of the empty store, [set] establishes it whatever the
    state, and [get], [has] and [cleanup] preserve it. *)
Theorem timer_covers_preserved w :
  timer_covers w ->
  (forall key v ttl, exists w1, set key v ttl w = (Ok tt, w1) /\ timer_covers w1)
  /\ (forall key, exists v w1, get key w = (Ok v, w1) /\ timer_covers w1)
  /\ (forall key, exists b w1, has key w = (Ok b, w1) /\ timer_covers w1)
  /\ (exists w1, cleanup w = (Ok tt, w1) /\ timer_covers w1).
Proof.
  intros Hinv. unfold timer_covers in *. repeat split.
  - intros key v ttl. destruct (set_run key v ttl w) as [E|[Ht E]]; rewrite E.
    + eexists. split; [reflexivity|]. intros _. reflexivity.
    + eexists. split; [reflexivity|]. intros _. exact Ht.
  - intros key. rewrite get_run.
    destruct (sessionStore w !! key) as [entry|].
    + eexists _, _. split; [reflexivity|].
      cbn [sessionStore cleanupTimer set_sessionStore].
      intros Hne. apply Hinv. exact (delete_nonempty _ _ Hne).
    + eexists _, _. split; [reflexivity | exact Hinv].
  - intros key. rewrite has_run.
    destruct (sessionStore w !! key) as [entry|].
    + destruct (clock w >? entry_expiresAt entry).
      * eexists _, _. split; [reflexivity|].
        cbn [sessionStore cleanupTimer set_sessionStore].
        intros Hne. apply Hinv. exact (delete_nonempty _ _ Hne).
      * eexists _, _. split; [reflexivity | exact Hinv].
    + eexists _, _. split; [reflexivity | exact Hinv].
  - pose proof (cleanup_run w) as Hrun. cbv zeta in Hrun.
    eexists. split; [exact Hrun|].
    match goal with
    | |- context [bool_decide (size ?m = 0%nat)] =>
        set (kept := m); destruct (bool_decide (size kept = 0%nat)) eqn:Hsz
    end.
    + apply bool_decide_eq_true in Hsz. apply map_size_empty_iff in Hsz.
      destruct (cleanupTimer w) eqn:Ht; cbn [andb];
        cbn [sessionStore cleanupTimer set_cleanupTimer set_sessionStore];
        intros Hne; contradiction.
    + apply bool_decide_eq_false in Hsz. rewrite map_size_empty_iff in Hsz.
      cbn [andb sessionStore cleanupTimer set_cleanupTimer set_sessionStore].
      intros _. apply Hinv. intros Hemp. apply Hsz. unfold kept.
      rewrite Hemp. apply map_filter_empty.
Qed.

End SessionStoreMore.

(** ** The credential service: what a failure looks like *)

Section ServiceFailures.
Context `{rt : NodeRuntime}.
Import Encryption CredentialService.

Lemma encrypt_frame text w r w' : encrypt text w = (r, w') -> frame w w'.
Proof.
  destruct (key_configured_dec w) as [(k & Hk & Hne)|Hno].
  - destruct (encrypt_run k text w Hk Hne) as (blob & w1 & E & F & _).
    rewrite E. intros [= _ <-]. exact F.
  - rewrite (encrypt_unconfigured text w Hno). intros [= _ <-].
    apply frame_set_console.
Qed.

Lemma decrypt_frame blob w r w' : decrypt blob w = (r, w') -> frame w w'.
Proof.
  destruct (decrypt_outcomes blob w) as [(text & E)|E]; rewrite E;
    intros [= _ <-]; [apply frame_refl | apply frame_set_console].
Qed.

Lemma encryptCredentials_frame a r e sc w res w' :
  encryptCredentials a r e sc w = (res, w') -> frame w w'.
Proof.
  unfold encryptCredentials, encryptObject, bind.
  destruct (encrypt a w) as [[ba|e1] w1] eqn:E1;
    pose proof (encrypt_frame _ _ _ _ E1) as F1.
  2:{ intros [= _ <-]. exact F1. }
  destruct (truthy_ostring r).
  - destruct (encrypt (default "" r) w1) as [[br|e2] w2] eqn:E2;
      pose proof (encrypt_frame _ _ _ _ E2) as F2.
    2:{ intros [= _ <-]. exact (frame_trans _ _ _ F1 F2). }
    cbn [ret].
    destruct (encrypt (JSON_stringify (metadata_json e sc)) w2) as [[bm|e3] w3] eqn:E3;
      pose proof (encrypt_frame _ _ _ _ E3) as F3;
      intros [= _ <-]; exact (frame_trans _ _ _ F1 (frame_trans _ _ _ F2 F3)).
  - cbn [ret].
    destruct (encrypt (JSON_stringify (metadata_json e sc)) w1) as [[bm|e3] w3] eqn:E3;
      pose proof (encrypt_frame _ _ _ _ E3) as F3;
      intros [= _ <-]; exact (frame_trans _ _ _ F1 F3).
Qed.

Lemma decryptCredentials_frame blobA blobR w res w' :
  decryptCredentials blobA blobR w = (res, w') -> frame w w'.
Proof.
  unfold decryptCredentials, bind.
  destruct (decrypt blobA w) as [[a|e1] w1] eqn:E1;
    pose proof (decrypt_frame _ _ _ _ E1) as F1.
  2:{ intros [= _ <-]. exact F1. }
  destruct (truthy_ostring blobR).
  - destruct (decrypt (default "" blobR) w1) as [[r|e2] w2] eqn:E2;
      pose proof (decrypt_frame _ _ _ _ E2) as F2;
      cbn [ret]; intros [= _ <-]; exact (frame_trans _ _ _ F1 F2).
  - cbn [ret]. intros [= _ <-]. exact F1.
Qed.

Lemma findUnique_same accountId w r w' :
  Prisma.findUnique accountId w = (r, w') -> w' = w.
Proof.
  rewrite findUnique_run. destruct (prismaOnline w); intros [= _ <-]; reflexivity.
Qed.

Lemma findUniqueByKey_same ws pf pid w r w' :
  Prisma.findUniqueByKey ws pf pid w = (r, w') -> w' = w.
Proof.
  unfold Prisma.findUniqueByKey, bind. rewrite query_run.
  destruct (prismaOnline w); intros [= _ <-]; reflexivity.
Qed.

Lemma update_throw accountId d w e w' :
  Prisma.update accountId d w = (Throw e, w') -> w' = w.
Proof.
  unfold Prisma.update, bind. rewrite query_run.
  destruct (prismaOnline w); [|intros [= _ <-]; reflexivity].
  destruct (List.find (Prisma.has_id accountId) (socialAccount w));
    [intros [=] | intros [= _ <-]; reflexivity].
Qed.

Lemma create_throw d w e w' :
  Prisma.create d w = (Throw e, w') -> w' = w.
Proof.
  unfold Prisma.create, bind. rewrite query_run.
  destruct (prismaOnline w); [|intros [= _ <-]; reflexivity].
  unfold Date_now, gets.
  destruct (existsb _ (socialAccount w)); [intros [= _ <-]; reflexivity | intros [=]].
Qed.

(** A [catch] that logs and rethrows one fixed error. *)
Lemma rethrown {A} (body : M A) (lines : M unit) (fixed : Exn) w e w' :
  (forall w0, exists w1, lines w0 = (Ok tt, w1) /\ frame w0 w1) ->
  tryCatch body (fun _ => lines ;;; throw fixed) w = (Throw e, w') ->
  e = fixed /\ exists e0 w0, body w = (Throw e0, w0) /\ frame w0 w'.
Proof.
  intros Hlines. unfold tryCatch.
  destruct (body w) as [[a|e0] w0] eqn:Eb; [intros [=]|].
  destruct (Hlines w0) as (w1 & El & Fl). unfold bind. rewrite El.
  intros [= <- <-]. split; [reflexivity|]. eauto.
Qed.

Lemma getCredentials_outcome accountId w res w' :
  getCredentials accountId w = (res, w') ->
  frame w w'
  /\ forall e, res = Throw e ->
       e = TRPCError INTERNAL_SERVER_ERROR "Failed to retrieve credentials".
Proof.
  unfold getCredentials, tryCatch.
  match goal with
  | |- (let (r, w'0) := ?body w in _) = _ -> _ => destruct (body w) as [[c|e0] w0] eqn:Eb
  end.
  - intros [= <- <-]. split; [|intros e [=]].
    revert Eb. unfold bind.
    destruct (Prisma.findUnique accountId w) as [[found|e1] w1] eqn:Ef;
      pose proof (findUnique_same _ _ _ _ Ef) as ->; [|intros [=]].
    destruct found as [account|]; [|intros [= _ <-]; apply frame_refl].
    destruct (isActive account); cbn [negb]; [|intros [= _ <-]; apply frame_refl].
    unfold Date_now at 1. unfold gets at 1. cbv beta iota.
    destruct (token_expired account (clock w)).
    + match goal with
      | |- context [logCredentialAccess ?x ?y ?z ?wl] =>
          destruct (logCredentialAccess_run x y z wl) as (wl' & El & Fl); rewrite El
      end.
      intros [= _ <-]. exact Fl.
    + match goal with
      | |- context [decryptCredentials ?x ?y w] =>
          destruct (decryptCredentials x y w) as [[dd|e2] w2] eqn:Ed;
          pose proof (decryptCredentials_frame _ _ _ _ _ Ed) as Fd
      end; [|intros [=]].
      match goal with
      | |- context [logCredentialAccess ?x ?y ?z ?wl] =>
          destruct (logCredentialAccess_run x y z wl) as (wl' & El & Fl); rewrite El
      end.
      intros [= _ <-]. exact (frame_trans _ _ _ Fd Fl).
  - unfold bind at 1. rewrite console_write_run. unfold bind.
    match goal with
    | |- context [logCredentialAccess ?x ?y ?z ?wl] =>
        destruct (logCredentialAccess_run x y z wl) as (wl' & El & Fl)
    end.
    rewrite El. intros [= <- <-].
    split; [|intros e [= <-]; reflexivity].
    assert (F0 : frame w w0).
    { revert Eb. unfold bind.
      destruct (Prisma.findUnique accountId w) as [[found|e1] w1] eqn:Ef;
        pose proof (findUnique_same _ _ _ _ Ef) as ->;
        [|intros [= _ <-]; apply frame_refl].
      destruct found as [account|]; [|intros [=]].
      destruct (isActive account); cbn [negb]; [|intros [=]].
      unfold Date_now at 1. unfold gets at 1. cbv beta iota.
      destruct (token_expired account (clock w)).
      - match goal with
        | |- context [logCredentialAccess ?x ?y ?z ?wl] =>
            destruct (logCredentialAccess_run x y z wl) as (wl2 & El2 & Fl2);
            rewrite El2
        end.
        intros [=].
      - match goal with
        | |- context [decryptCredentials ?x ?y w] =>
            destruct (decryptCredentials x y w) as [[dd|e2] w2] eqn:Ed;
            pose proof (decryptCredentials_frame _ _ _ _ _ Ed) as Fd
        end.
        + match goal with
          | |- context [logCredentialAccess ?x ?y ?z ?wl] =>
              destruct (logCredentialAccess_run x y z wl) as (wl2 & El2 & Fl2);
              rewrite El2
          end.
          intros [=].
        + intros [= _ <-]. exact Fd. }
    exact (frame_trans _ _ _ F0 (frame_trans _ _ _ (frame_set_console _ _) Fl)).
Qed.

(** A [catch] that logs two lines and rethrows one fixed error. *)
Lemma rethrown_logged {A} (body : M A) lvl line accountId action details fixed w e w' :
  tryCatch body
    (fun _ => console_write lvl line ;;;
              logCredentialAccess accountId action details ;;;
              throw fixed) w = (Throw e, w') ->
  e = fixed /\ exists e0 w0, body w = (Throw e0, w0) /\ frame w0 w'.
Proof.
  unfold tryCatch.
  destruct (body w) as [[a|e0] w0] eqn:Eb; [intros [=]|].
  unfold bind at 1. rewrite console_write_run. unfold bind.
  match goal with
  | |- context [logCredentialAccess ?x ?y ?z ?wl] =>
      destruct (logCredentialAccess_run x y z wl) as (wl' & El & Fl); rewrite El
  end.
  intros [= <- <-]. split; [reflexivity|].
  eexists _, _. split; [reflexivity|].
  exact (frame_trans _ _ _ (frame_set_console _ _) Fl).
Qed.

Lemma storeCredentials_throw ws pf at_ c w e w' :
  storeCredentials ws pf at_ c w = (Throw e, w') ->
  e = TRPCError INTERNAL_SERVER_ERROR "Failed to store credentials securely"
  /\ frame w w'.
Proof.
  unfold storeCredentials. intros H.
  apply rethrown in H.
  2:{ intros w0. rewrite console_write_run. eexists. split; [reflexivity|].
      apply frame_set_console. }
  destruct H as (-> & e0 & w0 & Eb & F0). split; [reflexivity|].
  refine (frame_trans _ _ _ _ F0). clear F0 w'.
  revert Eb. unfold bind at 1.
  destruct (encryptCredentials _ _ _ _ w) as [[enc|e1] w1] eqn:E1;
    pose proof (encryptCredentials_frame _ _ _ _ _ _ _ E1) as F1.
  2:{ intros [= _ <-]. exact F1. }
  unfold bind at 1.
  destruct (Prisma.findUniqueByKey ws pf (cred_platformAccountId c) w1)
    as [[existing|e2] w2] eqn:E2;
    pose proof (findUniqueByKey_same _ _ _ _ _ _ E2) as ->.
  2:{ intros [= _ <-]. exact F1. }
  unfold bind at 1.
  destruct existing as [existing|].
  - unfold bind at 1. unfold Date_now at 1. unfold gets at 1. cbv beta iota.
    destruct (Prisma.update _ _ w1) as [[row|e3] w3] eqn:E3.
    + unfold bind.
      match goal with
      | |- context [logCredentialAccess ?x ?y ?z ?wl] =>
          destruct (logCredentialAccess_run x y z wl) as (wl' & El & Fl); rewrite El
      end.
      intros [=].
    + rewrite (update_throw _ _ _ _ _ E3). intros [= _ <-]. exact F1.
  - destruct (Prisma.create _ w1) as [[row|e3] w3] eqn:E3.
    + unfold bind.
      match goal with
      | |- context [logCredentialAccess ?x ?y ?z ?wl] =>
          destruct (logCredentialAccess_run x y z wl) as (wl' & El & Fl); rewrite El
      end.
      intros [=].
    + rewrite (create_throw _ _ _ _ E3). intros [= _ <-]. exact F1.
Qed.

Lemma revokeCredentials_throw accountId w e w' :
  revokeCredentials accountId w = (Throw e, w') ->
  e = TRPCError INTERNAL_SERVER_ERROR "Failed to revoke credentials"
  /\ frame w w'.
Proof.
  unfold revokeCredentials. intros H. apply rethrown_logged in H.
  destruct H as (-> & e0 & w0 & Eb & F0). split; [reflexivity|].
  refine (frame_trans _ _ _ _ F0). clear F0 w'.
  revert Eb. unfold bind at 1.
  destruct (Prisma.findUnique accountId w) as [[found|e1] w1] eqn:Ef;
    pose proof (findUnique_same _ _ _ _ Ef) as ->.
  2:{ intros [= _ <-]. apply frame_refl. }
  destruct found as [account|]; [|intros [= _ <-]; apply frame_refl].
  unfold bind at 1. unfold Date_now at 1. unfold gets at 1. cbv beta iota.
  unfold bind.
  destruct (Prisma.update _ _ w) as [[row|e3] w3] eqn:E3.
  - match goal with
    | |- context [logCredentialAccess ?x ?y ?z ?wl] =>
        destruct (logCredentialAccess_run x y z wl) as (wl' & El & Fl); rewrite El
    end.
    intros [=].
  - rewrite (update_throw _ _ _ _ _ E3). intros [= _ <-]. apply frame_refl.
Qed.

Lemma updateCredentials_throw accountId updates w e w' :
  updateCredentials accountId updates w = (Throw e, w') ->
  e = TRPCError INTERNAL_SERVER_ERROR "Failed to update credentials"
  /\ frame w w'.
Proof.
  unfold updateCredentials. intros H. apply rethrown_logged in H.
  destruct H as (-> & e0 & w0 & Eb & F0). split; [reflexivity|].
  refine (frame_trans _ _ _ _ F0). clear F0 w'.
  revert Eb. unfold bind at 1.
  destruct (Prisma.findUnique accountId w) as [[found|e1] w1] eqn:Ef;
    pose proof (findUnique_same _ _ _ _ Ef) as ->.
  2:{ intros [= _ <-]. apply frame_refl. }
  destruct found as [account|]; [|intros [= _ <-]; apply frame_refl].
  unfold bind at 1. unfold Date_now at 1. unfold gets at 1. cbv beta iota.
  unfold bind at 1.
  assert (Htok : forall res wt,
            (if truthy_ostring (u_accessToken updates)
                || truthy_ostring (u_refreshToken updates)
             then
               currentCredentials <- getCredentials accountId ;;
               encryptedData <-
                 encryptCredentials
                   (default ""
                      (or_else (or_else (u_accessToken updates)
                                  (accessToken <$> currentCredentials))
                               (Some "")))
                   (or_else (u_refreshToken updates)
                      (currentCredentials ≫= refreshToken))
                   (match u_expiresAt updates with
                    | Some t => Some t
                    | None => currentCredentials ≫= expiresAt
                    end)
                   (match u_scope updates with
                    | Some sc => Some sc
                    | None => currentCredentials ≫= scope
                    end) ;;
               ret (Some (enc_encryptedAccessToken encryptedData),
                    if truthy_ostring (enc_encryptedRefreshToken encryptedData)
                    then enc_encryptedRefreshToken encryptedData else None)
             else ret (None, None)) w = (res, wt) -> frame w wt).
  { intros res wt.
    destruct (truthy_ostring (u_accessToken updates)
              || truthy_ostring (u_refreshToken updates)).
    - unfold bind at 1.
      destruct (getCredentials accountId w) as [[cur|e2] w2] eqn:Eg;
        destruct (getCredentials_outcome _ _ _ _ Eg) as (Fg & _).
      2:{ intros [= _ <-]. exact Fg. }
      unfold bind.
      destruct (encryptCredentials _ _ _ _ w2) as [[enc|e3] w3] eqn:Ee;
        pose proof (encryptCredentials_frame _ _ _ _ _ _ _ Ee) as Fe;
        cbn [ret]; intros [= _ <-]; exact (frame_trans _ _ _ Fg Fe).
    - intros [= _ <-]. apply frame_refl. }
  match goal with
  | |- (let (r, w'0) := ?tokens w in _) = _ -> _ =>
      destruct (tokens w) as [[tk|e2] wt] eqn:Et; pose proof (Htok _ _ eq_refl) as Ft
  end.
  2:{ intros [= _ <-]. exact Ft. }
  unfold bind.
  destruct (Prisma.update _ _ wt) as [[row|e3] w3] eqn:E3.
  - match goal with
    | |- context [logCredentialAccess ?x ?y ?z ?wl] =>
        destruct (logCredentialAccess_run x y z wl) as (wl' & El & Fl); rewrite El
    end.
    intros [=].
  - rewrite (update_throw _ _ _ _ _ E3). intros [= _ <-]. exact Ft.
Qed.

(** X11.  How the credential service fails.  Whatever goes wrong inside
    [storeCredentials], [getCredentials], [updateCredentials] or
    [revokeCredentials] (the key missing, the database down, the record
    absent), the caller sees an INTERNAL_SERVER_ERROR with the method's own
    message, and the failed call has written nothing: every table, the
    session store and the clock are as before. *)
Theorem service_failures_internal_and_clean accountId w e w' :
  (forall ws pf at_ c,
      storeCredentials ws pf at_ c w = (Throw e, w') ->
      e = TRPCError INTERNAL_SERVER_ERROR "Failed to store credentials securely"
      /\ frame w w')
  /\ (getCredentials accountId w = (Throw e, w') ->
      e = TRPCError INTERNAL_SERVER_ERROR "Failed to retrieve credentials"
      /\ frame w w')
  /\ (forall updates,
        updateCredentials accountId updates w = (Throw e, w') ->
        e = TRPCError INTERNAL_SERVER_ERROR "Failed to update credentials"
        /\ frame w w')
  /\ (revokeCredentials accountId w = (Throw e, w') ->
      e = TRPCError INTERNAL_SERVER_ERROR "Failed to revoke credentials"
      /\ frame w w').
Proof.
  split; [intros ws pf at_ c; apply storeCredentials_throw|].
  split.
  - intros H. destruct (getCredentials_outcome _ _ _ _ H) as (F & He).
    split; [apply He; reflexivity | exact F].
  - split; [intros updates; apply updateCredentials_throw
           | apply revokeCredentials_throw].
Qed.

Lemma unknown_account_throws accountId w w1 :
  Prisma.findUnique accountId w = (Ok None, w1) ->
  (exists w', revokeCredentials accountId w
              = (Throw (TRPCError INTERNAL_SERVER_ERROR "Failed to revoke credentials"),
                 w'))
  /\ forall updates, exists w',
       updateCredentials accountId updates w
       = (Throw (TRPCError INTERNAL_SERVER_ERROR "Failed to update credentials"), w').
Proof.
  intros Hfind. split.
  - unfold revokeCredentials, tryCatch. unfold bind at 1. rewrite Hfind.
    unfold throw at 1. unfold bind at 1. rewrite console_write_run. unfold bind.
    match goal with
    | |- context [logCredentialAccess ?x ?y ?z ?wl] =>
        destruct (logCredentialAccess_run x y z wl) as (wl' & El & Fl); rewrite El
    end.
    eexists. reflexivity.
  - intros updates.
    unfold updateCredentials, tryCatch. unfold bind at 1. rewrite Hfind.
    unfold throw at 1. unfold bind at 1. rewrite console_write_run. unfold bind.
    match goal with
    | |- context [logCredentialAccess ?x ?y ?z ?wl] =>
        destruct (logCredentialAccess_run x y z wl) as (wl' & El & Fl); rewrite El
    end.
    eexists. reflexivity.
Qed.

(** X12.  The NOT_FOUND of the service never reaches a caller.  For an
    account that is not in the table, [revokeCredentials] and
    [updateCredentials] raise it inside their own [try], whose [catch]
    replaces it: both fail with INTERNAL_SERVER_ERROR, and the table is as
    it was. *)
Theorem unknown_account_not_found_is_masked accountId w w1 :
  Prisma.findUnique accountId w = (Ok None, w1) ->
  (exists w',
      revokeCredentials accountId w
      = (Throw (TRPCError INTERNAL_SERVER_ERROR "Failed to revoke credentials"), w')
      /\ socialAccount w' = socialAccount w)
  /\ (forall updates, exists w',
        updateCredentials accountId updates w
        = (Throw (TRPCError INTERNAL_SERVER_ERROR "Failed to update credentials"), w')
        /\ socialAccount w' = socialAccount w)
  /\ (forall updates code msg w',
        code <> INTERNAL_SERVER_ERROR ->
        revokeCredentials accountId w <> (Throw (TRPCError code msg), w')
        /\ updateCredentials accountId updates w <> (Throw (TRPCError code msg), w')).
Proof.
  intros Hfind. destruct (unknown_account_throws _ _ _ Hfind) as ((wr & Er) & Hu).
  split.
  - exists wr. split; [exact Er|].
    apply frame_rows. apply (revokeCredentials_throw _ _ _ _ Er).
  - split.
    + intros updates. destruct (Hu updates) as (wu & Eu). exists wu.
      split; [exact Eu|]. apply frame_rows. apply (updateCredentials_throw _ _ _ _ _ Eu).
    + intros updates code msg w' Hcode. split.
      * rewrite Er. intros [= <- _ _]. contradiction.
      * destruct (Hu updates) as (wu & Eu). rewrite Eu. intros [= <- _ _]. contradiction.
Qed.

End ServiceFailures.

(** ** The credential service: revocation, the sweep, the listing *)

Section ServiceWrites.
Context `{rt : NodeRuntime}.
Import Encryption CredentialService CredentialQueries.

Lemma wrote_rows rows w w' : wrote rows w w' -> socialAccount w' = rows.
Proof. intros F. apply (frame_rows _ _ F). Qed.

Lemma wrote_online rows w w' : wrote rows w w' -> prismaOnline w' = prismaOnline w.
Proof. intros F. apply (frame_online _ _ F). Qed.

Lemma wrote_clock rows w w' : wrote rows w w' -> clock w' = clock w.
Proof. intros F. apply (frame_clock _ _ F). Qed.

Lemma wrote_key rows w w' :
  wrote rows w w' -> env_ENCRYPTION_KEY w' = env_ENCRYPTION_KEY w.
Proof. intros F. apply (frame_key _ _ F). Qed.

Lemma wrote_frame rows w w1 w2 : wrote rows w w1 -> frame w1 w2 -> wrote rows w w2.
Proof. unfold wrote. apply frame_trans. Qed.

Lemma frame_wrote rows w w1 : frame w w1 -> wrote rows w (set_socialAccount rows w1).
Proof.
  unfold wrote, frame. cbn. tauto.
Qed.

Lemma revokeCredentials_wrote accountId w account :
  prismaOnline w = true ->
  List.find (Prisma.has_id accountId) (socialAccount w) = Some account ->
  exists w',
    revokeCredentials accountId w = (Ok tt, w')
    /\ wrote (updated_rows accountId (deactivate (clock w)) (socialAccount w)) w w'.
Proof.
  intros Hon Hfind. unfold revokeCredentials, tryCatch, bind.
  rewrite findUnique_run, Hon, Hfind.
  unfold Date_now at 1. unfold gets at 1. cbv beta iota.
  rewrite (update_run _ _ _ _ Hon Hfind).
  match goal with
  | |- context [logCredentialAccess ?x ?y ?z ?w0] =>
      destruct (logCredentialAccess_run x y z w0) as (w' & El & Fl); rewrite El
  end.
  exists w'. split; [reflexivity|]. exact Fl.
Qed.

Lemma apply_deactivate_twice now x :
  Prisma.apply_update (deactivate now) (Prisma.apply_update (deactivate now) x)
  = Prisma.apply_update (deactivate now) x.
Proof. reflexivity. Qed.



Lemma has_id_false accountId r : id r <> accountId -> Prisma.has_id accountId r = false.
Proof.
  intros Hne. unfold Prisma.has_id. destruct (String.eqb_spec (id r) accountId); congruence.
Qed.


Lemma updateManyExpired_run now d w :
  prismaOnline w = true ->
  Prisma.updateManyExpired now d w
  = (Ok (length (List.filter (Prisma.expired_active now) (socialAccount w))),
     set_socialAccount
       (map (fun x => if Prisma.expired_active now x then Prisma.apply_update d x else x)
          (socialAccount w)) w).
Proof.
  intros Hon. unfold Prisma.updateManyExpired, bind. rewrite query_run, Hon. reflexivity.
Qed.

Lemma cleanupExpiredCredentials_online w :
  prismaOnline w = true ->
  exists w',
    cleanupExpiredCredentials w
    = (Ok (length (List.filter (Prisma.expired_active (clock w)) (socialAccount w))), w')
    /\ wrote (swept (clock w) (socialAccount w)) w w'.
Proof.
  intros Hon. unfold cleanupExpiredCredentials, tryCatch, bind.
  unfold Date_now at 1. unfold gets at 1. cbv beta iota.
  rewrite (updateManyExpired_run _ _ _ Hon). rewrite console_write_run.
  eexists. split; [reflexivity|]. apply frame_set_console.
Qed.

Lemma cleanupExpiredCredentials_offline w :
  prismaOnline w = false ->
  exists w', cleanupExpiredCredentials w = (Ok 0%nat, w') /\ frame w w'.
Proof.
  intros Hoff. unfold cleanupExpiredCredentials, tryCatch, bind.
  unfold Date_now at 1. unfold gets at 1. cbv beta iota.
  unfold Prisma.updateManyExpired, bind. rewrite query_run, Hoff.
  rewrite console_write_run.
  eexists. split; [reflexivity|]. apply frame_set_console.
Qed.

Lemma expired_active_deactivated now x :
  Prisma.expired_active now (Prisma.apply_update (deactivate now) x) = false.
Proof.
  unfold Prisma.expired_active. cbn.
  destruct (tokenExpiresAt x); [apply andb_false_r | reflexivity].
Qed.

Lemma swept_clean now rows r : In r (swept now rows) -> Prisma.expired_active now r = false.
Proof.
  unfold swept. rewrite in_map_iff. intros (x & <- & _).
  destruct (Prisma.expired_active now x) eqn:Hx;
    [apply expired_active_deactivated | exact Hx].
Qed.

Lemma swept_keeps now rows r :
  In r rows -> Prisma.expired_active now r = false -> In r (swept now rows).
Proof.
  intros Hin Hr. unfold swept. apply in_map_iff. exists r. rewrite Hr. auto.
Qed.

Lemma swept_twice now rows : swept now (swept now rows) = swept now rows.
Proof.
  unfold swept at 1. rewrite <- (map_id (swept now rows)) at 2.
  apply map_ext_in. intros x Hx. rewrite (swept_clean _ _ _ Hx). reflexivity.
Qed.

Lemma swept_ids now rows : map id (swept now rows) = map id rows.
Proof.
  unfold swept. rewrite map_map. apply map_ext. intros x.
  destruct (Prisma.expired_active now x); reflexivity.
Qed.

Lemma filter_none {A} (f : A -> bool) l :
  (forall x, In x l -> f x = false) -> List.filter f l = [].
Proof.
  induction l as [|x l IH]; intros H; [reflexivity|]. cbn.
  rewrite (H x (or_introl eq_refl)). apply IH. intros y Hy. apply H. right. exact Hy.
Qed.

(** X14.  The expiry sweep.  [cleanupExpiredCredentials] never throws.
    With the database answering it returns the number of active records
    whose expiry lies before the clock and deactivates exactly those: no
    record is added or removed, every other record is untouched, afterwards
    no active record is past its expiry, and a second sweep at the same
    clock returns 0 and changes nothing.  With the database down it returns
    0 and the table is as it was.  The background job around it completes
    normally and leaves the same table. *)
Theorem cleanupExpiredCredentials_sweeps w :
  exists n w1,
    cleanupExpiredCredentials w = (Ok n, w1)
    /\ map id (socialAccount w1) = map id (socialAccount w)
    /\ (prismaOnline w = true ->
        n = length (List.filter (Prisma.expired_active (clock w)) (socialAccount w))
        /\ (forall r, In r (socialAccount w1) ->
                      Prisma.expired_active (clock w) r = false)
        /\ (forall r, In r (socialAccount w) ->
                      Prisma.expired_active (clock w) r = false ->
                      In r (socialAccount w1))
        /\ exists w2, cleanupExpiredCredentials w1 = (Ok 0%nat, w2)
                      /\ socialAccount w2 = socialAccount w1)
    /\ (prismaOnline w = false -> n = 0%nat /\ socialAccount w1 = socialAccount w)
    /\ exists wj, CredentialUtils.cleanupExpiredCredentials w = (Ok tt, wj)
                  /\ socialAccount wj = socialAccount w1.
Proof.
  destruct (prismaOnline w) eqn:Hon.
  - destruct (cleanupExpiredCredentials_online w Hon) as (w1 & E1 & W1).
    pose proof (wrote_rows _ _ _ W1) as Hrows1.
    eexists _, w1. split; [exact E1|].
    split; [rewrite Hrows1; apply swept_ids|].
    split.
    + intros _. split; [reflexivity|].
      split; [intros r Hr; rewrite Hrows1 in Hr; exact (swept_clean _ _ _ Hr)|].
      split; [intros r Hin Hr; rewrite Hrows1; exact (swept_keeps _ _ _ Hin Hr)|].
      assert (Hon1 : prismaOnline w1 = true)
        by (rewrite (wrote_online _ _ _ W1); exact Hon).
      destruct (cleanupExpiredCredentials_online w1 Hon1) as (w2 & E2 & W2).
      exists w2. rewrite (wrote_clock _ _ _ W1), Hrows1 in E2.
      rewrite (filter_none _ _ (swept_clean _ _)) in E2.
      split; [exact E2|].
      rewrite (wrote_rows _ _ _ W2), (wrote_clock _ _ _ W1), Hrows1.
      apply swept_twice.
    + split; [discriminate|].
      unfold CredentialUtils.cleanupExpiredCredentials, tryCatch.
      unfold bind at 1. rewrite console_write_run.
      set (w0 := set_console _ w).
      assert (Hon0 : prismaOnline w0 = true) by exact Hon.
      destruct (cleanupExpiredCredentials_online w0 Hon0) as (w0' & E0 & W0).
      unfold bind. rewrite E0, console_write_run.
      eexists. split; [reflexivity|].
      cbn [socialAccount set_console]. rewrite (wrote_rows _ _ _ W0), Hrows1.
      reflexivity.
  - destruct (cleanupExpiredCredentials_offline w Hon) as (w1 & E1 & F1).
    exists 0%nat, w1. split; [exact E1|].
    split; [rewrite (frame_rows _ _ F1); reflexivity|].
    split; [discriminate|].
    split; [intros _; split; [reflexivity | apply (frame_rows _ _ F1)]|].
    unfold CredentialUtils.cleanupExpiredCredentials, tryCatch.
    unfold bind at 1. rewrite console_write_run.
    set (w0 := set_console _ w).
    assert (Hoff0 : prismaOnline w0 = false) by exact Hon.
    destruct (cleanupExpiredCredentials_offline w0 Hoff0) as (w0' & E0 & F0).
    unfold bind. rewrite E0, console_write_run.
    eexists. split; [reflexivity|].
    cbn [socialAccount set_console]. rewrite (frame_rows _ _ F0), (frame_rows _ _ F1).
    reflexivity.
Qed.

Lemma insert_desc_perm r l : insert_desc r l ≡ₚ r :: l.
Proof.
  induction l as [|x l IH]; [reflexivity|]. cbn [insert_desc].
  destruct (createdAt x <=? createdAt r); [reflexivity|].
  rewrite IH. apply Permutation_swap.
Qed.

Lemma orderBy_perm l : orderBy_createdAt_desc l ≡ₚ l.
Proof.
  induction l as [|x l IH]; [reflexivity|].
  unfold orderBy_createdAt_desc in *. cbn [fold_right].
  rewrite insert_desc_perm, IH. reflexivity.
Qed.

Lemma insert_desc_sorted r l :
  Sorted (fun a b => createdAt b <= createdAt a) l ->
  Sorted (fun a b => createdAt b <= createdAt a) (insert_desc r l).
Proof.
  induction l as [|x l IH]; intros Hs; cbn [insert_desc].
  - repeat constructor.
  - destruct (createdAt x <=? createdAt r) eqn:Hx.
    + constructor; [exact Hs|]. constructor. apply Z.leb_le. exact Hx.
    + apply Z.leb_gt in Hx. inversion Hs as [|? ? Hl Hhd]; subst.
      constructor; [apply IH; exact Hl|].
      destruct l as [|y l']; cbn [insert_desc].
      * constructor. lia.
      * destruct (createdAt y <=? createdAt r).
        -- constructor. lia.
        -- constructor. inversion Hhd; subst. assumption.
Qed.

Lemma orderBy_sorted l :
  Sorted (fun a b => createdAt b <= createdAt a) (orderBy_createdAt_desc l).
Proof.
  induction l as [|x l IH]; [constructor|].
  unfold orderBy_createdAt_desc in *. cbn [fold_right].
  apply insert_desc_sorted. exact IH.
Qed.

Lemma sorted_stored l :
  Sorted (fun a b => createdAt b <= createdAt a) l ->
  Sorted (fun a b => sc_createdAt b <= sc_createdAt a) (map mapToStoredCredentials l).
Proof.
  induction 1 as [|x l Hl IH Hhd]; [constructor|].
  cbn [map]. constructor; [exact IH|].
  destruct Hhd; constructor. assumption.
Qed.

Lemma getWorkspaceAccounts_run ws w :
  prismaOnline w = true ->
  getWorkspaceAccounts ws w
  = (Ok (map mapToStoredCredentials
           (orderBy_createdAt_desc (List.filter (listed ws) (socialAccount w)))), w).
Proof.
  intros Hon. unfold getWorkspaceAccounts, findMany, tryCatch, bind.
  rewrite query_run, Hon. reflexivity.
Qed.

(** X15.  [getWorkspaceAccounts] lists exactly the active records of the
    workspace, each once, newest first, and changes nothing: a record of
    another workspace or a deactivated one is never in the answer. *)
Theorem getWorkspaceAccounts_lists_active ws w :
  prismaOnline w = true ->
  exists accounts,
    getWorkspaceAccounts ws w = (Ok accounts, w)
    /\ accounts
       ≡ₚ map mapToStoredCredentials (List.filter (listed ws) (socialAccount w))
    /\ Sorted (fun a b => sc_createdAt b <= sc_createdAt a) accounts
    /\ (forall s, In s accounts -> sc_workspaceId s = ws /\ sc_isActive s = true).
Proof.
  intros Hon. eexists. split; [apply (getWorkspaceAccounts_run _ _ Hon)|].
  split; [apply Permutation_map, orderBy_perm|].
  split; [apply sorted_stored, orderBy_sorted|].
  intros s Hs. apply in_map_iff in Hs. destruct Hs as (r & <- & Hr).
  apply (Permutation_in _ (orderBy_perm _)) in Hr.
  apply filter_In in Hr. destruct Hr as [_ Hl]. unfold listed in Hl.
  apply andb_true_iff in Hl. destruct Hl as [Hws Hact].
  apply String.eqb_eq in Hws. split; [exact Hws | exact Hact].
Qed.

(** X16.  A revoked account leaves the listing: after a successful
    [revokeCredentials], [getWorkspaceAccounts] of any workspace answers
    without a record of that account. *)
Theorem revoked_account_not_listed accountId ws w account :
  prismaOnline w = true ->
  List.find (Prisma.has_id accountId) (socialAccount w) = Some account ->
  exists w1 accounts,
    revokeCredentials accountId w = (Ok tt, w1)
    /\ getWorkspaceAccounts ws w1 = (Ok accounts, w1)
    /\ forall s, In s accounts -> sc_id s <> accountId.
Proof.
  intros Hon Hfind.
  destruct (revokeCredentials_wrote _ _ _ Hon Hfind) as (w1 & E1 & W1).
  assert (Hon1 : prismaOnline w1 = true) by (rewrite (wrote_online _ _ _ W1); exact Hon).
  eexists w1, _. split; [exact E1|].
  split; [apply (getWorkspaceAccounts_run _ _ Hon1)|].
  intros s Hs. apply in_map_iff in Hs. destruct Hs as (r & <- & Hr).
  apply (Permutation_in _ (orderBy_perm _)) in Hr.
  apply filter_In in Hr. destruct Hr as [Hin Hl].
  rewrite (wrote_rows _ _ _ W1) in Hin. unfold updated_rows in Hin.
  apply in_map_iff in Hin. destruct Hin as (x & Hx & _).
  unfold listed in Hl. apply andb_true_iff in Hl. destruct Hl as [_ Hact].
  cbn [sc_id mapToStoredCredentials]. intros Hid.
  destruct (Prisma.has_id accountId x) eqn:Hhas.
  - subst r. cbn in Hact. discriminate.
  - subst r. unfold Prisma.has_id in Hhas. rewrite Hid, String.eqb_refl in Hhas.
    discriminate.
Qed.

End ServiceWrites.

(** ** The credential service: store, then fetch *)

Section StoreThenFetch.
Context `{rt : NodeRuntime}.
Import Encryption CredentialService.

Lemma pad_length n : String.length (Prisma.pad n) = n.
Proof.
  induction n as [|n IH]; [reflexivity|]. cbn [Prisma.pad String.length].
  rewrite IH. reflexivity.
Qed.

Lemma longest_ge rows r :
  In r rows -> (String.length (id r) <= Prisma.longest rows)%nat.
Proof.
  induction rows as [|x rows IH]; [intros []|].
  cbn [Prisma.longest]. intros [->|Hin]; [lia|].
  specialize (IH Hin). lia.
Qed.

Lemma cuid_fresh rows r : In r rows -> id r <> Prisma.cuid rows.
Proof.
  intros Hin Heq. pose proof (longest_ge _ _ Hin) as Hle.
  rewrite Heq in Hle. unfold Prisma.cuid in Hle. rewrite pad_length in Hle. lia.
Qed.

Lemma find_app_fresh {A} (f : A -> bool) l x :
  (forall y, In y l -> f y = false) -> f x = true -> List.find f (l ++ [x]) = Some x.
Proof.
  induction l as [|y l IH]; intros Hl Hx; cbn.
  - rewrite Hx. reflexivity.
  - rewrite (Hl y (or_introl eq_refl)). apply IH; [|exact Hx].
    intros z Hz. apply Hl. right. exact Hz.
Qed.

Lemma find_stored_row ws pf at_ c enc now rows :
  List.find (Prisma.has_id (id (stored_row ws pf at_ c enc now rows)))
    (stored_rows ws pf at_ c enc now rows)
  = Some (stored_row ws pf at_ c enc now rows).
Proof.
  unfold stored_row, stored_rows.
  destruct (List.find (Prisma.has_key ws pf (cred_platformAccountId c)) rows)
    as [existing|] eqn:Hkey.
  - assert (Hmem : exists r, List.find (Prisma.has_id (id existing)) rows = Some r).
    { apply (find_some_of_member _ _ existing).
      - apply (List.find_some _ _ Hkey).
      - unfold Prisma.has_id. apply String.eqb_refl. }
    destruct Hmem as (r & Hr). rewrite Hr.
    destruct (List.find_some _ _ Hr) as [_ Hid].
    unfold Prisma.has_id in Hid. apply String.eqb_eq in Hid.
    cbn [id Prisma.apply_update]. rewrite Hid.
    apply find_updated_rows. exact Hr.
  - apply find_app_fresh.
    + intros y Hy. apply has_id_false. cbn [id Prisma.new_row].
      apply cuid_fresh. exact Hy.
    + unfold Prisma.has_id. apply String.eqb_refl.
Qed.

Lemma storeCredentials_stored ws pf at_ c w k :
  env_ENCRYPTION_KEY w = Some k -> k <> "" -> prismaOnline w = true ->
  exists enc w',
    storeCredentials ws pf at_ c w
    = (Ok (mapToStoredCredentials
             (stored_row ws pf at_ c enc (clock w) (socialAccount w))), w')
    /\ opens k (enc_encryptedAccessToken enc) (accessToken c)
    /\ refresh_sealed k (refreshToken c) (enc_encryptedRefreshToken enc)
    /\ wrote (stored_rows ws pf at_ c enc (clock w) (socialAccount w)) w w'.
Proof.
  intros Hk Hne Hon. unfold storeCredentials, stored_rows, stored_row.
  destruct (encryptCredentials_run k (accessToken c) (refreshToken c) (expiresAt c)
              (scope c) w Hk Hne) as (enc & w1 & E1 & F1 & O1 & R1).
  assert (Hon1 : prismaOnline w1 = true) by (rewrite (frame_online _ _ F1); exact Hon).
  pose proof (frame_rows _ _ F1) as Hrows1.
  pose proof (frame_clock _ _ F1) as Hclock1.
  unfold tryCatch, bind. rewrite E1, (findUniqueByKey_run _ _ _ _ Hon1), Hrows1.
  exists enc.
  destruct (List.find (Prisma.has_key ws pf (cred_platformAccountId c)) (socialAccount w))
    as [existing|] eqn:Hfind.
  - unfold Date_now, gets.
    assert (Hmem : exists r, List.find (Prisma.has_id (id existing)) (socialAccount w)
                             = Some r).
    { apply (find_some_of_member _ _ existing).
      - apply (List.find_some _ _ Hfind).
      - unfold Prisma.has_id. apply String.eqb_refl. }
    destruct Hmem as (r & Hr). rewrite Hr.
    assert (Hr1 : List.find (Prisma.has_id (id existing)) (socialAccount w1) = Some r)
      by (rewrite Hrows1; exact Hr).
    rewrite (update_run _ _ _ _ Hon1 Hr1).
    match goal with
    | |- context [logCredentialAccess ?x ?y ?z ?wl] =>
        destruct (logCredentialAccess_run x y z wl) as (w2 & E2 & F2); rewrite E2
    end.
    unfold ret. try rewrite Hclock1 in F2; try rewrite Hrows1 in F2;
      try rewrite Hclock1; try rewrite Hrows1. exists w2. split; [reflexivity|].
    split; [exact O1|]. split; [exact R1|].
    refine (frame_trans _ _ _ _ F2). apply frame_wrote. exact F1.
  - assert (Hnone : List.find
              (Prisma.has_key (Prisma.new_workspaceId (store_create ws pf at_ c enc))
                 (Prisma.new_platform (store_create ws pf at_ c enc))
                 (Prisma.new_platformAccountId (store_create ws pf at_ c enc)))
              (socialAccount w1) = None) by (rewrite Hrows1; exact Hfind).
    rewrite (create_run _ _ Hon1 Hnone).
    match goal with
    | |- context [logCredentialAccess ?x ?y ?z ?wl] =>
        destruct (logCredentialAccess_run x y z wl) as (w2 & E2 & F2); rewrite E2
    end.
    unfold ret. try rewrite Hclock1 in F2; try rewrite Hrows1 in F2;
      try rewrite Hclock1; try rewrite Hrows1. exists w2. split; [reflexivity|].
    split; [exact O1|]. split; [exact R1|].
    refine (frame_trans _ _ _ _ F2). apply frame_wrote. exact F1.
Qed.

Lemma getCredentials_fetched accountId w w1 account k a r :
  Prisma.findUnique accountId w = (Ok (Some account), w1) ->
  env_ENCRYPTION_KEY w = Some k ->
  fetchable k account (clock w) a r ->
  exists w',
    getCredentials accountId w
    = (Ok (Some {| accessToken := a;
                   refreshToken := r;
                   expiresAt := tokenExpiresAt account;
                   scope := None;
                   cred_platformAccountId := platformAccountId account;
                   cred_displayName := displayName account;
                   cred_permissions := permissions account;
                   cred_platformMetadata := platformMetadata account |}), w')
    /\ frame w w'.
Proof.
  intros Hfind Hk (Hact & Hexp & Ha & Hr).
  destruct (findUnique_ok _ _ _ _ Hfind) as (-> & _ & _).
  unfold getCredentials, tryCatch, bind. rewrite Hfind, Hact. cbn [negb].
  unfold Date_now at 1. unfold gets at 1. cbv beta iota. rewrite Hexp.
  rewrite (decryptCredentials_run k _ _ a r w Hk Ha Hr).
  match goal with
  | |- context [logCredentialAccess ?x ?y ?z ?w0] =>
      destruct (logCredentialAccess_run x y z w0) as (w' & El & Fl); rewrite El
  end.
  unfold ret. exists w'. split; [reflexivity | exact Fl].
Qed.

(** X17.  Store, then fetch.  After [storeCredentials] succeeds,
    [getCredentials] on the id it answered returns the access token that was
    stored, the refresh token when it was a non-empty string (absent
    otherwise), the expiry, the account id, the display name, the
    permissions and the metadata; the scope does not come back.  This holds
    for a first connection, and for a reconnection that supplies a refresh
    token and an expiry; the supplied expiry must not be already past. *)
Theorem storeCredentials_then_getCredentials ws pf at_ c w :
  key_configured w -> prismaOnline w = true ->
  (forall t, expiresAt c = Some t -> clock w <= t) ->
  List.find (Prisma.has_key ws pf (cred_platformAccountId c)) (socialAccount w) = None
  \/ (truthy_ostring (refreshToken c) = true /\ expiresAt c <> None
      /\ NoDup (map id (socialAccount w))) ->
  exists s w1 w2,
    storeCredentials ws pf at_ c w = (Ok s, w1)
    /\ getCredentials (sc_id s) w1
       = (Ok (Some {| accessToken := accessToken c;
                      refreshToken := if truthy_ostring (refreshToken c)
                                      then refreshToken c else None;
                      expiresAt := expiresAt c;
                      scope := None;
                      cred_platformAccountId := cred_platformAccountId c;
                      cred_displayName := cred_displayName c;
                      cred_permissions := cred_permissions c;
                      cred_platformMetadata := cred_platformMetadata c |}), w2).
Proof.
  intros (k & Hk & Hne) Hon Hexp Hcase.
  destruct (storeCredentials_stored ws pf at_ c w k Hk Hne Hon)
    as (enc & w1 & E1 & Oa & Rr & W1).
  set (row := stored_row ws pf at_ c enc (clock w) (socialAccount w)) in *.
  assert (Hon1 : prismaOnline w1 = true) by (rewrite (wrote_online _ _ _ W1); exact Hon).
  assert (Hk1 : env_ENCRYPTION_KEY w1 = Some k) by (rewrite (wrote_key _ _ _ W1); exact Hk).
  assert (Hfind1 : Prisma.findUnique (id row) w1 = (Ok (Some row), w1)).
  { rewrite findUnique_run, Hon1, (wrote_rows _ _ _ W1).
    unfold row. rewrite find_stored_row. reflexivity. }
  assert (Hfields :
            encryptedAccessToken row = enc_encryptedAccessToken enc
            /\ isActive row = true
            /\ displayName row = cred_displayName c
            /\ permissions row = cred_permissions c
            /\ platformMetadata row = cred_platformMetadata c
            /\ platformAccountId row = cred_platformAccountId c
            /\ tokenExpiresAt row = expiresAt c
            /\ encryptedRefreshToken row = enc_encryptedRefreshToken enc).
  { unfold row, stored_row.
    destruct Hcase as [Hnone|(Htr & Hsome & Hnd)].
    - rewrite Hnone. cbn. auto 10.
    - destruct (List.find (Prisma.has_key ws pf (cred_platformAccountId c))
                  (socialAccount w)) as [existing|] eqn:Hkey; [|cbn; auto 10].
      assert (Hex : List.find (Prisma.has_id (id existing)) (socialAccount w)
                    = Some existing).
      { destruct (List.find_some _ _ Hkey) as [Hin _].
        clear - Hin Hnd. induction (socialAccount w) as [|x l IH]; [destruct Hin|].
        cbn [map] in Hnd. inversion Hnd as [|? ? Hx Hl]; subst.
        cbn [List.find]. unfold Prisma.has_id at 1.
        destruct (String.eqb_spec (id x) (id existing)) as [Heq|Hneq].
        - destruct Hin as [->|Hin]; [reflexivity|].
          exfalso. apply Hx. rewrite Heq.
          apply (proj2 (list_elem_of_In _ _)). apply in_map. exact Hin.
        - destruct Hin as [->|Hin]; [contradiction|]. apply IH; assumption. }
      rewrite Hex. cbn.
      destruct (List.find_some _ _ Hkey) as [_ Hk3].
      apply has_key_true in Hk3. destruct Hk3 as (_ & _ & Hpid).
      unfold refresh_sealed in Rr. rewrite Htr in Rr.
      destruct Rr as (blob & Hb & _). rewrite Hb.
      destruct (expiresAt c) as [t|]; [|contradiction]. auto 10. }
  destruct Hfields as (Hfa & Hfact & Hfd & Hfp & Hfm & Hfid & Hfe & Hfr).
  assert (Hfetch : fetchable k row (clock w1) (accessToken c)
                     (if truthy_ostring (refreshToken c) then refreshToken c else None)).
  { unfold fetchable. split; [exact Hfact|]. split.
    - unfold token_expired. rewrite Hfe, (wrote_clock _ _ _ W1).
      destruct (expiresAt c) as [t|]; [|reflexivity].
      apply Z.ltb_ge. apply Hexp. reflexivity.
    - split; [rewrite Hfa; exact Oa|].
      unfold refresh_stored. rewrite Hfr. unfold refresh_sealed in Rr.
      destruct (truthy_ostring (refreshToken c)) eqn:Htr.
      + destruct Rr as (blob & -> & Hbne & Ob).
        rewrite (truthy_string_true _ Hbne).
        destruct (refreshToken c) as [x|]; [|discriminate Htr].
        exists x. split; [reflexivity | exact Ob].
      + rewrite Rr. reflexivity. }
  destruct (getCredentials_fetched _ _ _ _ _ _ _ Hfind1 Hk1 Hfetch) as (w2 & E2 & _).
  eexists _, w1, w2. split; [exact E1|].
  cbn [sc_id mapToStoredCredentials]. rewrite E2, Hfe, Hfid, Hfd, Hfp, Hfm.
  reflexivity.
Qed.

End StoreThenFetch.

(** ** What every call preserves *)

Section Preservation.
Context `{rt : NodeRuntime}.
Variable R : World -> World -> Prop.
Hypothesis R_refl : forall w, R w w.
Hypothesis R_trans : forall w1 w2 w3, R w1 w2 -> R w2 w3 -> R w1 w3.






Lemma preserves_frame {A} (m : M A) :
  (forall w w', frame w w' -> R w w') -> preserves frame m -> preserves R m.
Proof.
  intros HF Hm w r w' E. apply HF. exact (Hm _ _ _ E).
Qed.

End Preservation.

Section UniqueKeys.
Context `{rt : NodeRuntime}.
Import Encryption CredentialService.










Lemma has_key_row_key ws pf pid r :
  Prisma.has_key ws pf pid r = true <-> row_key r = (ws, pf, pid).
Proof.
  unfold row_key. split.
  - intros H. apply has_key_true in H. destruct H as (-> & -> & ->). reflexivity.
  - intros [= <- <- <-]. apply has_key_refl.
Qed.


Lemma query_same w r w' : Prisma.query w = (r, w') -> w' = w.
Proof.
  rewrite query_run. destruct (prismaOnline w); intros [= _ <-]; reflexivity.
Qed.










End UniqueKeys.


Section UniqueKeysOfTheService.
Context `{rt : NodeRuntime}.
Import Encryption CredentialService.





End UniqueKeysOfTheService.

(** ** The providers: token refresh *)

Section Refresh.
Context `{rt : NodeRuntime}.
Import Encryption CredentialService SocialAuthProvider ProviderBase.

Lemma handleOAuthError_frame {A} err context w r w' :
  handleOAuthError (A := A) err context w = (r, w') -> frame w w'.
Proof.
  unfold handleOAuthError, bind. rewrite console_write_run.
  unfold throw.
  repeat match goal with
         | |- context [match ?x with _ => _ end] => destruct x
         end; intros [= _ <-]; apply frame_set_console.
Qed.

Lemma refreshToken_of_none accountId w wg :
  getCredentials accountId w = (Ok None, wg) ->
  XAuthFlow.refreshToken accountId w
  = (Throw (TRPCError NOT_FOUND "No refresh token available"), wg)
  /\ FacebookAuthFlow.refreshToken accountId w
     = (Throw (TRPCError NOT_FOUND "No refresh token available"), wg).
Proof.
  intros E. unfold XAuthFlow.refreshToken, FacebookAuthFlow.refreshToken,
    getStoredCredentials.
  rewrite !(bind_ok _ _ _ _ _ E). split; reflexivity.
Qed.

Lemma refreshToken_of_tokenless accountId w c wg :
  getCredentials accountId w = (Ok (Some c), wg) ->
  truthy_ostring (refreshToken c) = false ->
  XAuthFlow.refreshToken accountId w
  = (Throw (TRPCError NOT_FOUND "No refresh token available"), wg)
  /\ FacebookAuthFlow.refreshToken accountId w
     = (Throw (TRPCError NOT_FOUND "No refresh token available"), wg).
Proof.
  intros E Hr. unfold XAuthFlow.refreshToken, FacebookAuthFlow.refreshToken,
    getStoredCredentials.
  rewrite !(bind_ok _ _ _ _ _ E), Hr. split; reflexivity.
Qed.

Lemma unrefreshable_not_found accountId w w1 found :
  Prisma.findUnique accountId w = (Ok found, w1) ->
  unrefreshable found w ->
  exists w',
    XAuthFlow.refreshToken accountId w
    = (Throw (TRPCError NOT_FOUND "No refresh token available"), w')
    /\ FacebookAuthFlow.refreshToken accountId w
       = (Throw (TRPCError NOT_FOUND "No refresh token available"), w')
    /\ frame w w'.
Proof.
  intros Hfind Hcase.
  assert (Hnone : forall (H : match found with
                               | None => True
                               | Some account =>
                                   isActive account = false
                                   \/ expiry_passed account (clock w)
                               end),
            exists w',
              XAuthFlow.refreshToken accountId w
              = (Throw (TRPCError NOT_FOUND "No refresh token available"), w')
              /\ FacebookAuthFlow.refreshToken accountId w
                 = (Throw (TRPCError NOT_FOUND "No refresh token available"), w')
              /\ frame w w').
  { intros H. destruct (getCredentials_none_run _ _ _ _ Hfind H) as (w' & E & F).
    exists w'. destruct (refreshToken_of_none _ _ _ E). auto. }
  destruct found as [account|]; [|apply Hnone; exact I].
  destruct Hcase as [Hc|[Hc|(k & a & Hk & Hf)]];
    [apply Hnone; auto | apply Hnone; auto |].
  destruct (getCredentials_some_run _ _ _ _ _ _ _ Hfind Hk Hf)
    as (c & w' & E & _ & Hr & _ & _ & F).
  exists w'. destruct (refreshToken_of_tokenless _ _ _ _ E) as [Hx Hfb];
    [rewrite Hr; reflexivity | auto].
Qed.

(** X19.  When nothing can be refreshed.  For an account that is not in the
    table, is inactive, is past its expiry, or holds no refresh token,
    [refreshToken] of the X and of the Facebook provider throws NOT_FOUND
    before any request is sent, and writes nothing.  In particular an
    active record whose token has already expired is one [needsRefresh]
    answers true for and [refreshToken] refuses. *)
Theorem refreshToken_not_found accountId w w1 found :
  Prisma.findUnique accountId w = (Ok found, w1) ->
  unrefreshable found w ->
  (exists w',
      XAuthFlow.refreshToken accountId w
      = (Throw (TRPCError NOT_FOUND "No refresh token available"), w')
      /\ FacebookAuthFlow.refreshToken accountId w
         = (Throw (TRPCError NOT_FOUND "No refresh token available"), w')
      /\ frame w w')
  /\ (forall account,
        found = Some account -> isActive account = true ->
        expiry_passed account (clock w) ->
        needsRefresh accountId w = (Ok true, w)).
Proof.
  intros Hfind Hcase. split; [exact (unrefreshable_not_found _ _ _ _ Hfind Hcase)|].
  intros account -> Hact (t & Ht & Hlt).
  destruct (findUnique_ok _ _ _ _ Hfind) as (-> & _ & _).
  unfold needsRefresh, tryCatch, bind. rewrite Hfind, Hact, Ht. cbn [negb].
  unfold Date_now, gets, ret.
  replace (t <=? clock w + 5 * 60 * 1000) with true
    by (symmetry; apply Z.leb_le; lia).
  reflexivity.
Qed.

Lemma updateCredentials_merge_row accountId w w1 account k a r updates :
  Prisma.findUnique accountId w = (Ok (Some account), w1) ->
  env_ENCRYPTION_KEY w = Some k -> k <> "" ->
  fetchable k account (clock w) a r ->
  truthy_ostring (u_accessToken updates) || truthy_ostring (u_refreshToken updates) = true ->
  exists stored w' encA encR,
    updateCredentials accountId updates w = (Ok stored, w')
    /\ wrote (updated_rows accountId
                (updateData updates (Some encA, encR) (clock w)) (socialAccount w)) w w'
    /\ opens k encA
         (default "" (or_else (or_else (u_accessToken updates) (Some a)) (Some "")))
    /\ if truthy_ostring (or_else (u_refreshToken updates) r)
       then exists blob, encR = Some blob
                         /\ opens k blob (default "" (or_else (u_refreshToken updates) r))
       else encR = None.
Proof.
  intros Hfind Hk Hne Hfetch Hsupplied.
  destruct (getCredentials_some_run _ _ _ _ _ _ _ Hfind Hk Hfetch)
    as (c & wa & Eg & Hca & Hcr & _ & _ & Fg).
  destruct (findUnique_ok _ _ _ _ Hfind) as (-> & Hon & Hrow).
  assert (Hka : env_ENCRYPTION_KEY wa = Some k) by (rewrite (frame_key _ _ Fg); exact Hk).
  unfold updateCredentials, tryCatch, bind. rewrite Hfind.
  unfold Date_now at 1. unfold gets at 1. cbv beta iota.
  rewrite Hsupplied, Eg. cbv beta iota.
  cbn [fmap option_fmap option_map mbind option_bind]. rewrite Hca, Hcr.
  match goal with
  | |- context [encryptCredentials ?A ?R ?E ?S wa] =>
      destruct (encryptCredentials_run k A R E S wa Hka Hne)
        as (enc & wb & Ee & Fe & Oa & Rr); rewrite Ee
  end.
  cbv beta iota. unfold ret at 1. cbv beta iota.
  pose proof (frame_trans _ _ _ Fg Fe) as Fb.
  assert (Honb : prismaOnline wb = true) by (rewrite (frame_online _ _ Fb); exact Hon).
  assert (Hfindb : List.find (Prisma.has_id accountId) (socialAccount wb) = Some account)
    by (rewrite (frame_rows _ _ Fb); symmetry; exact Hrow).
  rewrite (update_run _ _ _ _ Honb Hfindb).
  match goal with
  | |- context [logCredentialAccess ?x ?y ?z ?w0] =>
      destruct (logCredentialAccess_run x y z w0) as (wc & El & Fl); rewrite El
  end.
  unfold ret. eexists _, wc, _, _. split; [reflexivity|].
  split.
  { refine (frame_trans _ _ _ _ Fl). rewrite (frame_rows _ _ Fb).
    apply frame_wrote. exact Fb. }
  split; [exact Oa|].
  unfold refresh_sealed in Rr.
  destruct (truthy_ostring (or_else (u_refreshToken updates) r)).
  - destruct Rr as (blob & -> & Hbne & Ob). cbn [truthy_ostring].
    rewrite (truthy_string_true _ Hbne). eauto.
  - rewrite Rr. reflexivity.
Qed.

Lemma truthy_ostring_some s : s <> "" -> truthy_ostring (Some s) = true.
Proof. intros H. cbn. apply truthy_string_true. exact H. Qed.

(** X20.  A refresh that the platform answers.  For an active, unexpired
    record with a refresh token on file, when the token endpoint answers ok,
    [refreshToken] of the X provider returns the platform's tokens and
    leaves the record active with the new access token sealed in it, the
    refresh token rotated if the platform sent a new one and kept if not,
    and the expiry moved to the new lifetime when the platform stated one
    (it stays as it was otherwise). *)
Theorem x_refreshToken_success accountId w w1 account k a r st tokens :
  Prisma.findUnique accountId w = (Ok (Some account), w1) ->
  env_ENCRYPTION_KEY w = Some k -> k <> "" ->
  fetchable k account (clock w) a (Some r) -> r <> "" ->
  tokenEndpoint (network w) X = Responds true st tokens ->
  tok_accessToken tokens <> "" ->
  exists w' account',
    XAuthFlow.refreshToken accountId w = (Ok tokens, w')
    /\ List.find (Prisma.has_id accountId) (socialAccount w') = Some account'
    /\ isActive account' = true
    /\ opens k (encryptedAccessToken account') (tok_accessToken tokens)
    /\ (exists blob, encryptedRefreshToken account' = Some blob
                     /\ opens k blob (rotated r (tok_refreshToken tokens)))
    /\ tokenExpiresAt account'
       = match expiry_of (clock w) (tok_expiresIn tokens) with
         | Some t => Some t
         | None => tokenExpiresAt account
         end.
Proof.
  intros Hfind Hk Hne Hfetch Hr Hnet Hacc.
  destruct (getCredentials_some_run _ _ _ _ _ _ _ Hfind Hk Hfetch)
    as (c & wa & Eg & _ & Hcr & _ & _ & Fg).
  destruct (findUnique_ok _ _ _ _ Hfind) as (-> & Hon & Hrow).
  unfold XAuthFlow.refreshToken, getStoredCredentials.
  rewrite (bind_ok _ _ _ _ _ Eg), Hcr, (truthy_ostring_some _ Hr). cbn [negb].
  assert (Hfinda : Prisma.findUnique accountId wa = (Ok (Some account), wa)).
  { rewrite findUnique_run, (frame_online _ _ Fg), Hon, (frame_rows _ _ Fg), <- Hrow.
    reflexivity. }
  assert (Hka : env_ENCRYPTION_KEY wa = Some k) by (rewrite (frame_key _ _ Fg); exact Hk).
  assert (Hfa : fetchable k account (clock wa) a (Some r))
    by (rewrite (frame_clock _ _ Fg); exact Hfetch).
  assert (Hsup : truthy_ostring (u_accessToken (XAuthFlow.refreshed tokens (clock wa)))
                 || truthy_ostring
                      (u_refreshToken (XAuthFlow.refreshed tokens (clock wa))) = true).
  { cbn [u_accessToken XAuthFlow.refreshed]. rewrite (truthy_ostring_some _ Hacc).
    reflexivity. }
  destruct (updateCredentials_merge_row _ _ _ _ _ _ _ _ Hfinda Hka Hne Hfa Hsup)
    as (stored & wb & encA & encR & Eu & Wu & Oa & Or).
  unfold tryCatch, bind, Date_now, gets.
  destruct Fg as (_ & _ & _ & Hclk & _ & _ & _ & _ & Hnetw).
  rewrite Hnetw, Hnet. cbn [negb].
  unfold updateStoredCredentials, bind. rewrite Eu. unfold ret.
  eexists wb, _. split; [reflexivity|].
  rewrite (wrote_rows _ _ _ Wu).
  assert (Hfindrow : List.find (Prisma.has_id accountId) (socialAccount wa) = Some account).
  { destruct (findUnique_ok _ _ _ _ Hfinda) as (_ & _ & H). symmetry. exact H. }
  split; [apply (find_updated_rows _ _ _ _ Hfindrow)|].
  destruct Hfetch as (Hact & _).
  cbn [isActive encryptedAccessToken encryptedRefreshToken tokenExpiresAt
       Prisma.apply_update updateData Prisma.upd_isActive Prisma.upd_encryptedAccessToken
       Prisma.upd_encryptedRefreshToken Prisma.upd_tokenExpiresAt fst snd default
       u_expiresAt u_accessToken u_refreshToken XAuthFlow.refreshed].
  split; [exact Hact|].
  split.
  { cbn [u_accessToken XAuthFlow.refreshed] in Oa.
    unfold or_else in Oa. rewrite (truthy_ostring_some _ Hacc) in Oa.
    cbn [truthy_ostring default] in Oa.
    rewrite (truthy_string_true _ Hacc) in Oa. exact Oa. }
  split.
  { cbn [u_refreshToken XAuthFlow.refreshed] in Or. unfold or_else in Or.
    unfold rotated.
    destruct (truthy_ostring (tok_refreshToken tokens)) eqn:Hrot.
    - rewrite Hrot in Or. destruct Or as (blob & -> & Ob). eauto.
    - rewrite (truthy_ostring_some _ Hr) in Or. destruct Or as (blob & -> & Ob).
      cbn [default] in Ob. eauto. }
  rewrite Hclk. reflexivity.
Qed.

(** X21.  A refresh that the platform refuses.  With a refresh token on
    file, a token endpoint that rejects the request or answers without ok
    makes [refreshToken] throw the error [handleOAuthError] assigns (an
    INTERNAL_SERVER_ERROR for an answer that is not ok), and the stored
    credentials are as they were. *)
Theorem x_refreshToken_endpoint_failure accountId w w1 account k a r :
  Prisma.findUnique accountId w = (Ok (Some account), w1) ->
  env_ENCRYPTION_KEY w = Some k ->
  fetchable k account (clock w) a (Some r) -> r <> "" ->
  (forall e, tokenEndpoint (network w) X = Rejects e ->
     exists msg w',
       XAuthFlow.refreshToken accountId w = (Throw (TRPCError (oauth_error_code e) msg), w')
       /\ frame w w')
  /\ (forall st body, tokenEndpoint (network w) X = Responds false st body ->
        exists w',
          XAuthFlow.refreshToken accountId w
          = (Throw (TRPCError INTERNAL_SERVER_ERROR
                      "Failed to X token refresh. Please try again."), w')
          /\ frame w w').
Proof.
  intros Hfind Hk Hfetch Hr.
  destruct (getCredentials_some_run _ _ _ _ _ _ _ Hfind Hk Hfetch)
    as (c & wa & Eg & _ & Hcr & _ & _ & Fg).
  pose proof Fg as (_ & _ & _ & _ & _ & _ & _ & _ & Hnetw).
  split.
  - intros e Hnet. unfold XAuthFlow.refreshToken, getStoredCredentials.
    rewrite (bind_ok _ _ _ _ _ Eg), Hcr, (truthy_ostring_some _ Hr). cbn [negb].
    unfold tryCatch, bind, gets. rewrite Hnetw, Hnet. unfold throw at 1.
    destruct (handleOAuthError_run (A := OAuthTokens) e "X token refresh" wa)
      as (msg & w' & E).
    exists msg, w'. split; [exact E|].
    exact (frame_trans _ _ _ Fg (handleOAuthError_frame _ _ _ _ _ E)).
  - intros st body Hnet. unfold XAuthFlow.refreshToken, getStoredCredentials.
    rewrite (bind_ok _ _ _ _ _ Eg), Hcr, (truthy_ostring_some _ Hr). cbn [negb].
    unfold tryCatch, bind, gets. rewrite Hnetw, Hnet. cbn [negb]. unfold throw at 1.
    eexists. split; [reflexivity|].
    refine (frame_trans _ _ _ Fg _). apply frame_set_console.
Qed.

End Refresh.

(** ** The X provider: authorization request and callback *)

Section XFlow.
Context `{web : NodeWeb}.
Import Encryption OAuthStateManager OAuthSessionStore CredentialService
  SocialAuthProvider ProviderBase.

Lemma frame_store w w' : frame w w' -> sessionStore w' = sessionStore w.
Proof. intros (_ & _ & _ & _ & _ & _ & H & _). exact H. Qed.

Lemma frame_network w w' : frame w w' -> network w' = network w.
Proof. intros (_ & _ & _ & _ & _ & _ & _ & _ & H). exact H. Qed.

Lemma frame_secret w w' : frame w w' -> configured_secret w' = configured_secret w.
Proof.
  intros (_ & H1 & H2 & _). unfold configured_secret. rewrite H1, H2. reflexivity.
Qed.

Lemma stored_verifier_frame w w' state :
  frame w w' -> stored_verifier w' state = stored_verifier w state.
Proof.
  intros F. unfold stored_verifier. rewrite (frame_store _ _ F), (frame_clock _ _ F).
  reflexivity.
Qed.

(** The callback up to the verifier: with the state accepted, what is left
    is the guarded exchange when a verifier is stored, BAD_REQUEST when
    not. *)
Lemma x_callback_after_state code state redirectUri w d w1 :
  parseState state w
  = (Ok {| state_data := Some d; isValid := true; error := None |}, w1) ->
  frame w w1 ->
  match stored_verifier w state with
  | Some v =>
      XAuthProvider.handleCallback code state redirectUri w
      = tryCatch
          (tokens <- XAuthProvider.exchangeCodeForTokens code redirectUri v ;;
           account <- XAuthProvider.getAccountInfo (tok_accessToken tokens) ;;
           storeForState X d account tokens ;;;
           ret (account, tokens))
          (fun err => handleOAuthError err "X OAuth callback")
          (set_sessionStore (delete ("pkce:" +:+ state) (sessionStore w1)) w1)
  | None =>
      exists w',
        XAuthProvider.handleCallback code state redirectUri w
        = (Throw (TRPCError BAD_REQUEST "PKCE code verifier not found"), w')
        /\ socialAccount w' = socialAccount w
  end.
Proof.
  intros E F. unfold XAuthProvider.handleCallback.
  rewrite (bind_ok _ _ _ _ _ E). cbn [isValid state_data].
  assert (Hget : forall (k : option json -> M (PlatformAccount * OAuthTokens)),
            bind (get ("pkce:" +:+ state)) k w1
            = match sessionStore w !! ("pkce:" +:+ state) with
              | Some entry =>
                  k (if clock w >? entry_expiresAt entry then None
                     else Some (data entry))
                    (set_sessionStore (delete ("pkce:" +:+ state) (sessionStore w1)) w1)
              | None => k None w1
              end).
  { intros k. unfold bind. rewrite get_run, (frame_store _ _ F), (frame_clock _ _ F).
    destruct (sessionStore w !! ("pkce:" +:+ state)); reflexivity. }
  rewrite Hget. clear Hget. unfold stored_verifier.
  destruct (sessionStore w !! ("pkce:" +:+ state)) as [entry|].
  2:{ cbn. eexists. split; [reflexivity | apply (frame_rows _ _ F)]. }
  destruct (clock w >? entry_expiresAt entry).
  { cbn. eexists. split; [reflexivity|]. cbn. apply (frame_rows _ _ F). }
  cbn [mbind option_bind].
  destruct (property (data entry) "codeVerifier") as [v|].
  2:{ cbn. eexists. split; [reflexivity|]. cbn. apply (frame_rows _ _ F). }
  destruct (truthy (Some v)).
  - reflexivity.
  - eexists. split; [reflexivity|]. cbn. apply (frame_rows _ _ F).
Qed.

Lemma x_callback_rejects code state redirectUri w :
  (exists msg w',
      XAuthProvider.handleCallback code state redirectUri w
      = (Throw (TRPCError BAD_REQUEST msg), w'))
  <-> (~ state_accepted w state \/ stored_verifier w state = None).
Proof.
  destruct (parseState_outcome state w) as (result & w1 & E & F & Hv & Hi).
  destruct (isValid result) eqn:Hval.
  - destruct (Hv eq_refl) as (Herr & _ & d & Hd & _).
    assert (Hres : result = {| state_data := Some d; isValid := true; error := None |}).
    { destruct result as [sd iv er]. cbn in *. subst. reflexivity. }
    rewrite Hres in E.
    pose proof (x_callback_after_state code state redirectUri w d w1 E F) as Hrun.
    destruct (stored_verifier w state) as [v|].
    + rewrite Hrun. split.
      * intros (msg & w' & Hbad). exfalso.
        exact (guarded_never_bad_request _ _ _ _ _ Hbad).
      * intros [Hno|Hno]; [|discriminate]. exfalso. apply Hno.
        eexists _, _. split; [exact E | reflexivity].
    + destruct Hrun as (w' & Hrun & _). split; [auto|]. intros _. eauto.
  - split.
    + intros _. left. intros (result' & w' & E' & Hval').
      rewrite E in E'. injection E' as <- <-. congruence.
    + intros _. unfold XAuthProvider.handleCallback.
      rewrite (bind_ok _ _ _ _ _ E), Hval. eauto.
Qed.

Lemma x_callback_rejection_writes_nothing code state redirectUri w msg w' :
  XAuthProvider.handleCallback code state redirectUri w
  = (Throw (TRPCError BAD_REQUEST msg), w') ->
  socialAccount w' = socialAccount w.
Proof.
  destruct (parseState_outcome state w) as (result & w1 & E & F & Hv & Hi).
  destruct (isValid result) eqn:Hval.
  - destruct (Hv eq_refl) as (Herr & _ & d & Hd & _).
    assert (Hres : result = {| state_data := Some d; isValid := true; error := None |}).
    { destruct result as [sd iv er]. cbn in *. subst. reflexivity. }
    rewrite Hres in E.
    pose proof (x_callback_after_state code state redirectUri w d w1 E F) as Hrun.
    destruct (stored_verifier w state) as [v|].
    + rewrite Hrun. intros Hbad. exfalso.
      exact (guarded_never_bad_request _ _ _ _ _ Hbad).
    + destruct Hrun as (w2 & -> & Hrows). intros [= _ <-]. exact Hrows.
  - unfold XAuthProvider.handleCallback. rewrite (bind_ok _ _ _ _ _ E), Hval.
    intros [= _ <-]. apply (frame_rows _ _ F).
Qed.

(** X22.  When the X callback answers BAD_REQUEST: exactly when [parseState]
    does not accept the state or no live, non-empty PKCE verifier is stored
    under it.  With both in place the outcome is never BAD_REQUEST; and a
    callback rejected this way has written nothing to the table. *)
Theorem x_callback_bad_request_iff code state redirectUri w :
  ((exists msg w',
       XAuthProvider.handleCallback code state redirectUri w
       = (Throw (TRPCError BAD_REQUEST msg), w'))
   <-> (~ state_accepted w state \/ stored_verifier w state = None))
  /\ (forall msg w',
        XAuthProvider.handleCallback code state redirectUri w
        = (Throw (TRPCError BAD_REQUEST msg), w') ->
        socialAccount w' = socialAccount w).
Proof.
  split; [apply x_callback_rejects|].
  intros msg w'. apply x_callback_rejection_writes_nothing.
Qed.

Lemma provider_storeCredentials_stored p ws account tokens w k :
  env_ENCRYPTION_KEY w = Some k -> k <> "" -> prismaOnline w = true ->
  exists enc w',
    SocialAuthProvider.storeCredentials p ws account tokens w = (Ok tt, w')
    /\ wrote (stored_rows ws (platform_tag p) (accountType_tag (acc_accountType account))
                (credentials_of account tokens (clock w)) enc (clock w)
                (socialAccount w)) w w'
    /\ opens k (enc_encryptedAccessToken enc) (tok_accessToken tokens)
    /\ refresh_sealed k (tok_refreshToken tokens) (enc_encryptedRefreshToken enc).
Proof.
  intros Hk Hne Hon. unfold SocialAuthProvider.storeCredentials, bind.
  unfold Date_now at 1. unfold gets at 1. cbv beta iota.
  destruct (storeCredentials_stored ws (platform_tag p)
              (accountType_tag (acc_accountType account))
              (credentials_of account tokens (clock w)) w k Hk Hne Hon)
    as (enc & w' & E & Oa & Rr & W).
  unfold credentials_of in E at 1. rewrite E. unfold ret.
  exists enc, w'. auto.
Qed.

Lemma set_sessionStore_frame s w w1 :
  frame w w1 -> frame (set_sessionStore s w) (set_sessionStore s w1).
Proof. unfold frame. cbn. tauto. Qed.

Lemma x_callback_success code state redirectUri w d w1 ws v k st1 tokens st2 user :
  parseState state w
  = (Ok {| state_data := Some d; isValid := true; error := None |}, w1) ->
  frame w w1 ->
  property d "workspaceId" = Some (JStr ws) ->
  stored_verifier w state = Some v ->
  env_ENCRYPTION_KEY w = Some k -> k <> "" -> prismaOnline w = true ->
  tokenEndpoint (network w) X = Responds true st1 tokens ->
  userEndpoint (network w) X = Responds true st2 user ->
  exists account enc w3,
    XAuthProvider.handleCallback code state redirectUri w = (Ok (account, tokens), w3)
    /\ acc_id account = user_id user
    /\ acc_accountType account = PERSONAL
    /\ acc_permissions account = XAuthProvider.getRequiredScopes
    /\ wrote (stored_rows ws "x" "personal"
                (credentials_of account tokens (clock w)) enc (clock w)
                (socialAccount w))
             (set_sessionStore (delete ("pkce:" +:+ state) (sessionStore w)) w) w3
    /\ opens k (enc_encryptedAccessToken enc) (tok_accessToken tokens)
    /\ refresh_sealed k (tok_refreshToken tokens) (enc_encryptedRefreshToken enc).
Proof.
  intros E F Hws Hv Hk Hne Hon Htok Huser.
  pose proof (x_callback_after_state code state redirectUri w d w1 E F) as Hrun.
  rewrite Hv in Hrun. rewrite Hrun. clear Hrun.
  rewrite (frame_store _ _ F).
  set (wd := set_sessionStore (delete ("pkce:" +:+ state) (sessionStore w)) w1).
  assert (Fd : frame (set_sessionStore (delete ("pkce:" +:+ state) (sessionStore w)) w) wd)
    by (apply set_sessionStore_frame; exact F).
  assert (Hnet : network wd = network w) by (apply (frame_network _ _ F)).
  unfold tryCatch. unfold bind at 1.
  unfold XAuthProvider.exchangeCodeForTokens, bind at 1. unfold gets at 1.
  cbv beta iota. rewrite Hnet, Htok. cbn [negb]. unfold ret at 1. cbv beta iota.
  unfold bind at 1.
  unfold XAuthProvider.getAccountInfo, tryCatch, bind at 1. unfold gets at 1.
  cbv beta iota. rewrite Hnet, Huser. cbn [negb]. unfold ret at 1. cbv beta iota.
  unfold bind at 1. unfold storeForState. rewrite Hws.
  match goal with
  | |- context [SocialAuthProvider.storeCredentials X ws ?acct tokens wd] =>
      destruct (provider_storeCredentials_stored X ws acct tokens wd k)
        as (enc & w3 & Es & Ws & Oa & Rr);
      [ rewrite (frame_key _ _ Fd); exact Hk
      | exact Hne
      | rewrite (frame_online _ _ Fd); exact Hon
      | rewrite Es; exists acct, enc, w3 ]
  end.
  unfold ret. split; [reflexivity|].
  split; [reflexivity|]. split; [reflexivity|]. split; [reflexivity|].
  split; [|auto].
  unfold wrote in *. cbn [acc_accountType accountType_tag platform_tag] in Ws.
  assert (Hclk : clock wd = clock w) by (apply (frame_clock _ _ F)).
  assert (Hrows : socialAccount wd = socialAccount w) by (apply (frame_rows _ _ F)).
  rewrite Hclk, Hrows in Ws.
  refine (frame_trans _ _ _ _ Ws).
  unfold frame in *. cbn in *. tauto.
Qed.

Lemma initiateAuth_run clientId ws at_ redirectUri w secret :
  configured_secret w = Some secret ->
  exists a w1 v,
    XAuthFlow.initiateAuth clientId ws at_ redirectUri w = (Ok a, w1)
    /\ auth_state a
       = minted secret ws X at_ (clock w) (fst (randomBytes (entropy w) 16))
    /\ sessionStore w1
       = <["pkce:" +:+ auth_state a :=
             {| data := JObj [("codeVerifier", JStr v)];
                entry_expiresAt := clock w + DEFAULT_TTL |}]> (sessionStore w)
    /\ v <> ""
    /\ cleanupTimer w1 = true
    /\ clock w1 = clock w
    /\ socialAccount w1 = socialAccount w.
Proof.
  intros Hs. unfold XAuthFlow.initiateAuth.
  rewrite (bind_ok _ _ _ _ _ (generateState_run ws X at_ w secret Hs)).
  unfold bind at 1. unfold generateCodeVerifier, bind at 1, crypto_randomBytes.
  cbn [entropy set_entropy].
  pose proof (randomBytes_length (snd (randomBytes (entropy w) 16)) 32) as Hlen.
  destruct (randomBytes (snd (randomBytes (entropy w) 16)) 32) as [rnd e2] eqn:Er.
  cbn [fst] in Hlen. unfold ret at 1. cbv beta iota.
  unfold bind at 1.
  match goal with
  | |- context [set ?key ?v0 None ?w0] =>
      destruct (set_run key v0 None w0) as [Eset|[Ht Eset]]; rewrite Eset
  end.
  - unfold ret. eexists _, _, _. split; [reflexivity|].
    cbn. split; [reflexivity|]. split; [reflexivity|].
    split; [|auto].
    intros Hv. apply base64url_encode_empty in Hv. subst rnd. discriminate Hlen.
  - unfold ret. eexists _, _, _. split; [reflexivity|].
    cbn. split; [reflexivity|]. split; [reflexivity|].
    split; [|auto].
    intros Hv. apply base64url_encode_empty in Hv. subst rnd. discriminate Hlen.
Qed.

(** X23.  The X authorization flow, end to end.  [initiateAuth] mints a
    state and stores a PKCE verifier under it, with the cleanup timer
    running.  A callback that brings this state back within ten minutes,
    with the platform answering, completes: it returns the account with the
    platform's tokens and the table holds a record for the workspace of the
    state, platform x, and the platform's user id.  The verifier is spent by
    that callback: the same callback replayed, at any later time, is
    rejected with BAD_REQUEST. *)
Theorem x_authorization_flow clientId ws at_ redirectUri code w secret :
  configured_secret w = Some secret -> ws <> "" -> clock w <> 0 ->
  exists a w1,
    XAuthFlow.initiateAuth clientId ws at_ redirectUri w = (Ok a, w1)
    /\ stored_verifier w1 (auth_state a) <> None
    /\ cleanupTimer w1 = true
    /\ forall w2 k st1 tokens st2 user,
         configured_secret w2 = Some secret ->
         sessionStore w2 = sessionStore w1 ->
         clock w2 - clock w <= STATE_EXPIRY_MS ->
         env_ENCRYPTION_KEY w2 = Some k -> k <> "" -> prismaOnline w2 = true ->
         tokenEndpoint (network w2) X = Responds true st1 tokens ->
         userEndpoint (network w2) X = Responds true st2 user ->
         exists account w3 row,
           XAuthProvider.handleCallback code (auth_state a) redirectUri w2
           = (Ok (account, tokens), w3)
           /\ In row (socialAccount w3)
           /\ workspaceId row = ws /\ platform row = "x"
           /\ platformAccountId row = user_id user
           /\ forall t, exists msg w4,
                XAuthProvider.handleCallback code (auth_state a) redirectUri
                  (set_clock t w3)
                = (Throw (TRPCError BAD_REQUEST msg), w4).
Proof.
  intros Hs Hws Ht.
  destruct (initiateAuth_run clientId ws at_ redirectUri w secret Hs)
    as (a & w1 & v & Ei & Hstate & Hstore & Hv & Htimer & Hclk1 & _).
  exists a, w1. split; [exact Ei|].
  assert (Htruthy : truthy (Some (JStr v)) = true).
  { cbn. destruct (String.eqb_spec v ""); [contradiction | reflexivity]. }
  assert (Hsv : forall w2, sessionStore w2 = sessionStore w1 ->
            clock w2 - clock w <= STATE_EXPIRY_MS ->
            stored_verifier w2 (auth_state a) = Some (JStr v)).
  { intros w2 Hst Hwin. unfold stored_verifier.
    rewrite Hst, Hstore, lookup_insert_eq. cbn [entry_expiresAt data].
    replace (clock w2 >? clock w + DEFAULT_TTL) with false.
    - cbn. destruct (String.eqb_spec v ""); [contradiction | reflexivity].
    - symmetry. rewrite Z.gtb_ltb. apply Z.ltb_ge.
      unfold STATE_EXPIRY_MS in Hwin. unfold DEFAULT_TTL. lia. }
  split.
  { rewrite (Hsv w1 eq_refl); [discriminate|].
    rewrite Hclk1. unfold STATE_EXPIRY_MS. lia. }
  split; [exact Htimer|].
  intros w2 k st1 tokens st2 user Hs2 Hst Hwin Hk Hne Hon Htok Huser.
  pose proof (randomBytes_length (entropy w) 16) as Hlen.
  pose proof (parseState_minted secret ws X at_ (clock w)
                (fst (randomBytes (entropy w) 16)) w2 Hs2) as Hparse.
  rewrite (minted_fields_pass _ _ _ Hws Ht Hlen) in Hparse.
  replace (clock w2 - clock w >? STATE_EXPIRY_MS) with false in Hparse
    by (symmetry; rewrite Z.gtb_ltb; apply Z.ltb_ge; lia).
  rewrite <- Hstate in Hparse.
  destruct (x_callback_success code (auth_state a) redirectUri w2 _ w2 ws (JStr v) k
              st1 tokens st2 user Hparse (frame_refl w2) eq_refl (Hsv w2 Hst Hwin)
              Hk Hne Hon Htok Huser)
    as (account & enc & w3 & Ec & Hid & Hty & _ & W3 & _ & _).
  destruct (stored_rows_member ws "x" "personal"
              (credentials_of account tokens (clock w2)) enc (clock w2)
              (socialAccount w2)) as (row & Hin & Hkey).
  apply has_key_true in Hkey. destruct Hkey as (Hrw & Hrp & Hri).
  exists account, w3, row. split; [exact Ec|].
  split; [rewrite (wrote_rows _ _ _ W3); exact Hin|].
  split; [exact Hrw|]. split; [exact Hrp|].
  split; [rewrite Hri; exact Hid|].
  intros t. apply x_callback_rejects. right.
  unfold stored_verifier. cbn [sessionStore set_clock].
  rewrite (frame_store _ _ W3). cbn [sessionStore set_socialAccount set_sessionStore].
  rewrite lookup_delete_eq. reflexivity.
Qed.

End XFlow.

(** ** The providers: permissions *)

Section Permissions.
Context `{rt : NodeRuntime}.
Import SocialAuthProvider ProviderBase.

Lemma every_included_spec requiredScopes permissions :
  every_included requiredScopes permissions = true
  <-> forall scope, In scope requiredScopes -> In scope permissions.
Proof.
  unfold every_included. rewrite forallb_forall. split.
  - intros H scope Hin. specialize (H scope Hin). apply existsb_exists in H.
    destruct H as (x & Hx & Heq). apply String.eqb_eq in Heq. subst. exact Hx.
  - intros H scope Hin. apply existsb_exists. exists scope.
    split; [apply H; exact Hin | apply String.eqb_refl].
Qed.

Lemma handleOAuthError_throws {A} err context w (a : A) w' :
  handleOAuthError err context w <> (Ok a, w').
Proof.
  destruct (handleOAuthError_run (A := A) err context w) as (msg & w1 & E).
  rewrite E. discriminate.
Qed.

Lemma x_getAccountInfo_ok accessToken w account w' :
  XAuthProvider.getAccountInfo accessToken w = (Ok account, w') ->
  acc_permissions account = XAuthProvider.getRequiredScopes /\ w' = w.
Proof.
  unfold XAuthProvider.getAccountInfo, tryCatch, bind, gets.
  destruct (userEndpoint (network w) X) as [e|ok st user].
  - unfold throw. intros H. exfalso. exact (handleOAuthError_throws _ _ _ _ _ H).
  - destruct ok; cbn [negb].
    + unfold ret. intros [= <- <-]. auto.
    + unfold throw. intros H. exfalso. exact (handleOAuthError_throws _ _ _ _ _ H).
Qed.

Lemma x_validatePermissions_of_account accessToken w account w' :
  XAuthProvider.getAccountInfo accessToken w = (Ok account, w') ->
  XAuthFlow.validatePermissions (acc_permissions account) = true
  /\ forall permissions,
       XAuthFlow.validatePermissions permissions = true
       <-> forall scope, In scope XAuthProvider.getRequiredScopes -> In scope permissions.
Proof.
  intros H. destruct (x_getAccountInfo_ok _ _ _ _ H) as (Hp & _).
  split.
  - rewrite Hp. reflexivity.
  - intros permissions. apply every_included_spec.
Qed.

Lemma facebook_getAccountInfo_ok accessToken w account w' :
  FacebookAuthProvider.getAccountInfo accessToken w = (Ok account, w') ->
  acc_permissions account
  = match permissionsEndpoint (network w) with
    | Responds true _ perms =>
        map fst (List.filter (fun p => String.eqb (snd p) "granted") perms)
    | _ => []
    end.
Proof.
  unfold FacebookAuthProvider.getAccountInfo, tryCatch. unfold bind at 1.
  unfold gets at 1. cbv beta iota.
  destruct (userEndpoint (network w) FACEBOOK) as [e|ok st user].
  - unfold throw. intros H. exfalso. exact (handleOAuthError_throws _ _ _ _ _ H).
  - destruct ok; cbn [negb].
    2:{ unfold throw. intros H. exfalso. exact (handleOAuthError_throws _ _ _ _ _ H). }
    unfold bind at 1.
    unfold FacebookAuthProvider.getUserPermissions, tryCatch, bind, gets.
    destruct (permissionsEndpoint (network w)) as [e|ok st' perms].
    + unfold throw. rewrite console_write_run. unfold ret. intros [= <- _]. reflexivity.
    + destruct ok; cbn [negb].
      * unfold ret. intros [= <- _]. reflexivity.
      * rewrite console_write_run. unfold ret. intros [= <- _]. reflexivity.
Qed.

Lemma facebook_validatePermissions_of_account accessToken w account w' :
  FacebookAuthProvider.getAccountInfo accessToken w = (Ok account, w') ->
  (FacebookAuthFlow.validatePermissions (acc_permissions account) = true
   <-> exists st perms,
         permissionsEndpoint (network w) = Responds true st perms
         /\ forall scope, In scope FacebookAuthFlow.getRequiredScopes ->
                          In (scope, "granted") perms).
Proof.
  intros H. rewrite (facebook_getAccountInfo_ok _ _ _ _ H).
  unfold FacebookAuthFlow.validatePermissions. rewrite every_included_spec.
  assert (Hgranted : forall perms scope,
            In scope (map fst (List.filter (fun p : string * string =>
                                              String.eqb (snd p) "granted") perms))
            <-> In (scope, "granted") perms).
  { intros perms scope. rewrite in_map_iff. split.
    - intros ([s st] & <- & Hin). apply filter_In in Hin. destruct Hin as [Hin Hst].
      cbn in Hst. apply String.eqb_eq in Hst. subst. exact Hin.
    - intros Hin. exists (scope, "granted"). split; [reflexivity|].
      apply filter_In. split; [exact Hin | reflexivity]. }
  destruct (permissionsEndpoint (network w)) as [e|ok st perms].
  - split.
    + intros Hall. destruct (Hall "pages_show_list"). cbn. auto.
    + intros (st & perms & [=] & _).
  - destruct ok.
    + split.
      * intros Hall. exists st, perms. split; [reflexivity|].
        intros scope Hin. apply Hgranted. apply Hall. exact Hin.
      * intros (st' & perms' & [= _ <-] & Hall) scope Hin.
        apply Hgranted. apply Hall. exact Hin.
    + split.
      * intros Hall. destruct (Hall "pages_show_list"). cbn. auto.
      * intros (st' & perms' & [=] & _).
Qed.

(** X23.  [validatePermissions] on the accounts the providers report.  On X
    the check cannot fail for a connected account: the permissions
    [getAccountInfo] reports are the required scopes themselves.  On
    Facebook it reflects what the user granted: it answers true on the
    account's permissions exactly when the permissions request was answered
    ok and lists each of the five required scopes as granted; when that
    request fails the account carries no permission and the check answers
    false.  On any list, the X check answers true exactly when every
    required scope is in it. *)
Theorem validatePermissions_of_accounts accessToken w account w' :
  (XAuthProvider.getAccountInfo accessToken w = (Ok account, w') ->
   XAuthFlow.validatePermissions (acc_permissions account) = true
   /\ forall permissions,
        XAuthFlow.validatePermissions permissions = true
        <-> forall scope, In scope XAuthProvider.getRequiredScopes ->
                          In scope permissions)
  /\ (FacebookAuthProvider.getAccountInfo accessToken w = (Ok account, w') ->
      (FacebookAuthFlow.validatePermissions (acc_permissions account) = true
       <-> exists st perms,
             permissionsEndpoint (network w) = Responds true st perms
             /\ forall scope, In scope FacebookAuthFlow.getRequiredScopes ->
                              In (scope, "granted") perms)).
Proof.
  split; [apply x_validatePermissions_of_account
         | apply facebook_validatePermissions_of_account].
Qed.

End Permissions.

(** ** The Facebook provider: a first connection *)

Section FacebookFlow.
Context `{web : NodeWeb}.
Import Encryption OAuthStateManager CredentialService SocialAuthProvider ProviderBase.

Lemma facebook_initiateAuth_run clientId ws a redirectUri w secret :
  configured_secret w = Some secret ->
  exists auth w1,
    FacebookAuthFlow.initiateAuth clientId ws a redirectUri w = (Ok auth, w1)
    /\ auth_state auth
       = minted secret ws FACEBOOK a (clock w) (fst (randomBytes (entropy w) 16))
    /\ frame w w1.
Proof.
  intros Hs. unfold FacebookAuthFlow.initiateAuth.
  rewrite (bind_ok _ _ _ _ _ (generateState_run ws FACEBOOK a w secret Hs)).
  unfold ret. eexists _, _. split; [reflexivity|].
  split; [reflexivity | apply frame_set_entropy].
Qed.

(** The Facebook callback on a state the manager minted, with the platform
    answering: the account of the platform's user is stored, without a
    refresh token, in the workspace of the state. *)
Lemma facebook_callback_minted secret ws p a t rnd code redirectUri w2 k st1 body st2 user :
  configured_secret w2 = Some secret -> ws <> "" -> t <> 0 -> length rnd = 16%nat ->
  clock w2 - t <= STATE_EXPIRY_MS ->
  env_ENCRYPTION_KEY w2 = Some k -> k <> "" -> prismaOnline w2 = true ->
  tokenEndpoint (network w2) FACEBOOK = Responds true st1 body ->
  userEndpoint (network w2) FACEBOOK = Responds true st2 user ->
  exists account enc w3,
    FacebookAuthProvider.handleCallback code (minted secret ws p a t rnd) redirectUri w2
    = (Ok (account,
           {| tok_accessToken := tok_accessToken body; tok_refreshToken := None;
              tok_expiresIn := tok_expiresIn body; tok_scope := None |}), w3)
    /\ acc_id account = user_id user
    /\ acc_accountType account = PERSONAL
    /\ wrote (stored_rows ws "facebook" "personal"
                (credentials_of account
                   {| tok_accessToken := tok_accessToken body; tok_refreshToken := None;
                      tok_expiresIn := tok_expiresIn body; tok_scope := None |}
                   (clock w2)) enc (clock w2) (socialAccount w2)) w2 w3
    /\ opens k (enc_encryptedAccessToken enc) (tok_accessToken body)
    /\ enc_encryptedRefreshToken enc = None.
Proof.
  intros Hs2 Hws Ht Hlen Hwin Hk Hne Hon Htok Huser.
  pose proof (parseState_minted secret ws p a t rnd w2 Hs2) as Hparse.
  rewrite (minted_fields_pass _ _ _ Hws Ht Hlen) in Hparse.
  replace (clock w2 - t >? STATE_EXPIRY_MS) with false in Hparse
    by (symmetry; rewrite Z.gtb_ltb; apply Z.ltb_ge; lia).
  unfold FacebookAuthProvider.handleCallback. rewrite (bind_ok _ _ _ _ _ Hparse).
  cbn [isValid state_data].
  set (d := stateData ws p a t (Hex.encode rnd)).
  change (property d "accountType") with (Some (JStr (accountType_tag a))).
  unfold tryCatch, bind.
  unfold FacebookAuthProvider.exchangeCodeForTokens at 1. unfold bind, gets.
  rewrite Htok. cbn [negb]. unfold ret at 1. cbv beta iota.
  unfold FacebookAuthProvider.getAccountInfo at 1. unfold tryCatch, bind, gets.
  rewrite Huser. cbn [negb].
  match goal with
  | |- context [FacebookAuthProvider.getUserPermissions ?tk w2] =>
      destruct (getUserPermissions_run tk w2) as (perms & wp & Ep & Fp); rewrite Ep
  end.
  unfold ret at 1. cbv beta iota.
  set (tokens := {| tok_accessToken := tok_accessToken body; tok_refreshToken := None;
                    tok_expiresIn := tok_expiresIn body; tok_scope := None |}).
  assert (Hstore : forall account w0, frame w2 w0 ->
            acc_accountType account = PERSONAL ->
            exists enc w3,
              storeForState FACEBOOK d account tokens w0 = (Ok tt, w3)
              /\ wrote (stored_rows ws "facebook" "personal"
                          (credentials_of account tokens (clock w2)) enc (clock w2)
                          (socialAccount w2)) w2 w3
              /\ opens k (enc_encryptedAccessToken enc) (tok_accessToken body)
              /\ enc_encryptedRefreshToken enc = None).
  { intros account w0 F0 Hty. unfold storeForState.
    change (property d "workspaceId") with (Some (JStr ws)). cbv beta iota.
    destruct (provider_storeCredentials_stored FACEBOOK ws account tokens w0 k)
      as (enc & w3 & E & W & Oa & Rr).
    - rewrite (frame_key _ _ F0). exact Hk.
    - exact Hne.
    - rewrite (frame_online _ _ F0). exact Hon.
    - exists enc, w3. split; [exact E|].
      rewrite Hty, (frame_clock _ _ F0), (frame_rows _ _ F0) in W.
      split; [|split; [exact Oa | exact Rr]].
      unfold wrote in *. refine (frame_trans _ _ _ _ W).
      unfold frame in *. cbn in *. tauto. }
  destruct a; cbn [accountType_tag].
  - unfold ret at 1. cbv beta iota.
    match goal with
    | |- context [storeForState FACEBOOK d ?acct tokens wp] =>
        destruct (Hstore acct wp Fp eq_refl) as (enc & w3 & E & H)
    end.
    rewrite E. unfold ret. eexists _, enc, w3. split; [reflexivity|].
    split; [reflexivity|]. split; [reflexivity | exact H].
  - unfold ret at 1. cbv beta iota.
    match goal with
    | |- context [storeForState FACEBOOK d ?acct tokens wp] =>
        destruct (Hstore acct wp Fp eq_refl) as (enc & w3 & E & H)
    end.
    rewrite E. unfold ret. eexists _, enc, w3. split; [reflexivity|].
    split; [reflexivity|]. split; [reflexivity | exact H].
  - match goal with
    | |- context [FacebookAuthProvider.getUserPages ?tk wp] =>
        destruct (getUserPages_run tk wp) as (pages & wg & Eg & Fg); rewrite Eg
    end.
    unfold ret at 1. cbv beta iota.
    match goal with
    | |- context [storeForState FACEBOOK d ?acct tokens wg] =>
        destruct (Hstore acct wg (frame_trans _ _ _ Fp Fg) eq_refl)
          as (enc & w3 & E & H)
    end.
    rewrite E. unfold ret. eexists _, enc, w3. split; [reflexivity|].
    split; [reflexivity|]. split; [reflexivity | exact H].
Qed.

Lemma token_expired_passed account now :
  token_expired account now = true -> expiry_passed account now.
Proof.
  unfold token_expired, expiry_passed.
  destruct (tokenExpiresAt account) as [t|]; [|discriminate].
  intros H. apply Z.ltb_lt in H. eauto.
Qed.

(** X26.  A Facebook connection cannot be refreshed.  [initiateAuth] mints a
    state; the callback that brings it back within ten minutes, with the
    platform answering, connects an account the workspace did not have: its
    record is active, keyed by the workspace, facebook and the platform's
    user id, and holds no refresh token, since the token exchange never
    reports one.  [refreshToken] on that record throws NOT_FOUND at every
    later time. *)
Theorem facebook_connection_cannot_refresh clientId ws a redirectUri code w secret :
  configured_secret w = Some secret -> ws <> "" -> clock w <> 0 ->
  exists auth w1,
    FacebookAuthFlow.initiateAuth clientId ws a redirectUri w = (Ok auth, w1)
    /\ forall w2 k st1 body st2 user,
         configured_secret w2 = Some secret ->
         clock w2 - clock w <= STATE_EXPIRY_MS ->
         env_ENCRYPTION_KEY w2 = Some k -> k <> "" -> prismaOnline w2 = true ->
         tokenEndpoint (network w2) FACEBOOK = Responds true st1 body ->
         userEndpoint (network w2) FACEBOOK = Responds true st2 user ->
         List.find (Prisma.has_key ws "facebook" (user_id user)) (socialAccount w2)
         = None ->
         exists result w3 row,
           FacebookAuthProvider.handleCallback code (auth_state auth) redirectUri w2
           = (Ok result, w3)
           /\ List.find (Prisma.has_key ws "facebook" (user_id user)) (socialAccount w3)
              = Some row
           /\ isActive row = true
           /\ encryptedRefreshToken row = None
           /\ forall t, exists w4,
                FacebookAuthFlow.refreshToken (id row) (set_clock t w3)
                = (Throw (TRPCError NOT_FOUND "No refresh token available"), w4).
Proof.
  intros Hs Hws Ht.
  destruct (facebook_initiateAuth_run clientId ws a redirectUri w secret Hs)
    as (auth & w1 & Ei & Hstate & _).
  exists auth, w1. split; [exact Ei|].
  intros w2 k st1 body st2 user Hs2 Hwin Hk Hne Hon Htok Huser Hfresh.
  pose proof (randomBytes_length (entropy w) 16) as Hlen.
  destruct (facebook_callback_minted secret ws FACEBOOK a (clock w)
              (fst (randomBytes (entropy w) 16)) code redirectUri w2 k st1 body st2 user
              Hs2 Hws Ht Hlen Hwin Hk Hne Hon Htok Huser)
    as (account & enc & w3 & Ec & Hid & Hty & W3 & Oa & Renc).
  rewrite <- Hstate in Ec.
  set (tokens := {| tok_accessToken := tok_accessToken body; tok_refreshToken := None;
                    tok_expiresIn := tok_expiresIn body; tok_scope := None |}) in *.
  set (c := credentials_of account tokens (clock w2)) in *.
  pose proof (find_stored_row ws "facebook" "personal" c enc (clock w2)
                (socialAccount w2)) as Hfindrow.
  assert (Hkeyc : cred_platformAccountId c = user_id user) by exact Hid.
  assert (Hrow : stored_row ws "facebook" "personal" c enc (clock w2) (socialAccount w2)
                 = Prisma.new_row (store_create ws "facebook" "personal" c enc)
                     (socialAccount w2) (clock w2)).
  { unfold stored_row. rewrite Hkeyc, Hfresh. reflexivity. }
  assert (Hrows : stored_rows ws "facebook" "personal" c enc (clock w2) (socialAccount w2)
                  = socialAccount w2
                    ++ [Prisma.new_row (store_create ws "facebook" "personal" c enc)
                          (socialAccount w2) (clock w2)]).
  { unfold stored_rows. rewrite Hkeyc, Hfresh. reflexivity. }
  rewrite Hrow in Hfindrow.
  set (row := Prisma.new_row (store_create ws "facebook" "personal" c enc)
                (socialAccount w2) (clock w2)) in *.
  eexists _, w3, row. split; [exact Ec|].
  split.
  { rewrite (wrote_rows _ _ _ W3), Hrows. apply find_app_fresh.
    - intros y Hy. destruct (Prisma.has_key ws "facebook" (user_id user) y) eqn:Hy2;
        [|reflexivity].
      pose proof (find_none _ _ Hfresh y Hy) as Hy3. congruence.
    - apply has_key_row_key. unfold row, row_key. cbn. rewrite <- Hkeyc. reflexivity. }
  split; [reflexivity|]. split; [exact Renc|].
  intros t.
  assert (Hfind4 : Prisma.findUnique (id row) (set_clock t w3)
                   = (Ok (Some row), set_clock t w3)).
  { rewrite findUnique_run. cbn [prismaOnline socialAccount set_clock].
    rewrite (wrote_online _ _ _ W3), Hon, (wrote_rows _ _ _ W3), Hfindrow.
    reflexivity. }
  assert (Hun : unrefreshable (Some row) (set_clock t w3)).
  { unfold unrefreshable. cbn [clock set_clock].
    destruct (token_expired row t) eqn:Hexp.
    - right. left. exact (token_expired_passed _ _ Hexp).
    - right. right. exists k, (tok_accessToken body).
      split; [cbn [env_ENCRYPTION_KEY set_clock]; rewrite (wrote_key _ _ _ W3); exact Hk|].
      unfold fetchable. split; [reflexivity|]. split; [exact Hexp|].
      split; [exact Oa|]. unfold refresh_stored.
      change (encryptedRefreshToken row) with (enc_encryptedRefreshToken enc).
      rewrite Renc. reflexivity. }
  destruct (unrefreshable_not_found _ _ _ _ Hfind4 Hun) as (w4 & _ & Efb & _).
  exists w4. exact Efb.
Qed.

End FacebookFlow.

(** ** The credential utilities *)

Section Utilities.
Context `{rt : NodeRuntime}.
Import CredentialService CredentialUtils.

Lemma calls_in_window userId operation reset times :
  forall c limits,
    limits !! (userId +:+ ":" +:+ operation)
    = Some {| count := c; resetTime := reset |} ->
    1 <= c <= 10 ->
    Forall (fun t => t <= reset) times ->
    fst (calls userId operation times limits)
    = repeat true (Nat.min (length times) (Z.to_nat (10 - c)))
      ++ repeat false (length times - Z.to_nat (10 - c))
    /\ exists c',
         snd (calls userId operation times limits) !! (userId +:+ ":" +:+ operation)
         = Some {| count := c'; resetTime := reset |}.
Proof.
  induction times as [|t times IH]; intros c limits Hl Hc Hall.
  - cbn. split; [reflexivity | eauto].
  - inversion Hall as [|? ? Ht Hrest]; subst.
    cbn [calls]. unfold checkCredentialRateLimit. rewrite Hl. cbn [resetTime count].
    replace (t >? reset) with false by (symmetry; rewrite Z.gtb_ltb; apply Z.ltb_ge; lia).
    destruct (Z.eq_dec c 10) as [->|Hlt].
    + cbn [Z.geb Z.compare Pos.compare Pos.compare_cont].
      change (10 >=? 10) with true. cbv iota.
      destruct (IH 10 limits Hl ltac:(lia) Hrest) as (Hans & c' & Hfin).
      destruct (calls userId operation times limits) as [answers limits2].
      cbn [fst snd] in *. split; [|eauto].
      rewrite Hans. change (Z.to_nat (10 - 10)) with 0%nat.
      rewrite !Nat.min_0_r, !Nat.sub_0_r. reflexivity.
    + replace (c >=? 10) with false by (symmetry; rewrite Z.geb_leb; apply Z.leb_gt; lia).
      set (limits1 := <[userId +:+ ":" +:+ operation :=
                          {| count := c + 1; resetTime := reset |}]> limits).
      assert (Hl1 : limits1 !! (userId +:+ ":" +:+ operation)
                    = Some {| count := c + 1; resetTime := reset |})
        by apply lookup_insert_eq.
      destruct (IH (c + 1) limits1 Hl1 ltac:(lia) Hrest) as (Hans & c' & Hfin).
      destruct (calls userId operation times limits1) as [answers limits2].
      cbn [fst snd] in *. split; [|eauto].
      rewrite Hans.
      replace (Z.to_nat (10 - c)) with (S (Z.to_nat (10 - (c + 1)))) by lia.
      cbn [length]. rewrite <- Nat.succ_min_distr. reflexivity.
Qed.

(** X27.  The rate limit of the credential operations.  Calls for one user
    and operation that fall within a minute of the first are answered true
    for the first ten and false for every later one, whatever their order
    in time; once the minute has passed the next call is allowed again and
    opens a new window. *)
Theorem rate_limit_ten_per_window userId operation t0 rest limits :
  limits !! (userId +:+ ":" +:+ operation) = None ->
  Forall (fun t => t <= t0 + 60 * 1000) rest ->
  fst (calls userId operation (t0 :: rest) limits)
  = repeat true (Nat.min (S (length rest)) 10)
    ++ repeat false (S (length rest) - 10)
  /\ forall t, t0 + 60 * 1000 < t ->
       fst (checkCredentialRateLimit userId operation t
              (snd (calls userId operation (t0 :: rest) limits))) = true.
Proof.
  intros Hnone Hall.
  set (limits1 := <[userId +:+ ":" +:+ operation :=
                      {| count := 1; resetTime := t0 + 60 * 1000 |}]> limits).
  assert (Hl1 : limits1 !! (userId +:+ ":" +:+ operation)
                = Some {| count := 1; resetTime := t0 + 60 * 1000 |})
    by apply lookup_insert_eq.
  assert (Hfirst : calls userId operation (t0 :: rest) limits
                   = (true :: fst (calls userId operation rest limits1),
                      snd (calls userId operation rest limits1))).
  { cbn [calls]. unfold checkCredentialRateLimit. rewrite Hnone. fold limits1.
    destruct (calls userId operation rest limits1); reflexivity. }
  rewrite Hfirst. clear Hfirst.
  destruct (calls_in_window userId operation (t0 + 60 * 1000) rest 1 limits1 Hl1
              ltac:(lia) Hall) as (Hans & c' & Hfin).
  destruct (calls userId operation rest limits1) as [answers limits2].
  cbn [fst snd] in *. split.
  - rewrite Hans. change (Z.to_nat (10 - 1)) with 9%nat.
    change 10%nat with (S 9). rewrite <- Nat.succ_min_distr. reflexivity.
  - intros t Ht. unfold checkCredentialRateLimit. rewrite Hfin. cbn [resetTime].
    replace (t >? t0 + 60 * 1000) with true
      by (symmetry; rewrite Z.gtb_ltb; apply Z.ltb_lt; lia).
    reflexivity.
Qed.

(** X28.  The expiry utilities against the service.  On the expiry of an
    active record [isCredentialExpiringSoon] answers what [needsRefresh]
    answers for the record.  [isCredentialExpired] answers true exactly when
    the expiry is at or before the clock: it implies expiring soon, and it
    differs from the test of [getCredentials] at the one instant where the
    expiry equals the clock, which the service still counts as valid. *)
Theorem expiry_utilities_agree accountId w w1 account :
  Prisma.findUnique accountId w = (Ok (Some account), w1) ->
  isActive account = true ->
  (exists b, needsRefresh accountId w = (Ok b, w)
             /\ isCredentialExpiringSoon (tokenExpiresAt account) w = (Ok b, w))
  /\ (exists b, isCredentialExpired (tokenExpiresAt account) w = (Ok b, w)
                /\ (b = true <-> expiry_passed account (clock w)
                                 \/ tokenExpiresAt account = Some (clock w))
                /\ (b = true ->
                    isCredentialExpiringSoon (tokenExpiresAt account) w = (Ok true, w))
                /\ (token_expired account (clock w) = true -> b = true))
  /\ (tokenExpiresAt account = Some (clock w) ->
      token_expired account (clock w) = false).
Proof.
  intros Hfind Hact.
  destruct (findUnique_ok _ _ _ _ Hfind) as (-> & _ & _).
  split; [|split].
  - unfold needsRefresh, isCredentialExpiringSoon, tryCatch, bind.
    rewrite Hfind, Hact. cbn [negb].
    destruct (tokenExpiresAt account) as [t|]; [|eexists; split; reflexivity].
    unfold Date_now, gets, ret. eexists. split; reflexivity.
  - unfold isCredentialExpired, isCredentialExpiringSoon, token_expired, expiry_passed.
    destruct (tokenExpiresAt account) as [t|].
    + unfold bind, Date_now, gets, ret. eexists. split; [reflexivity|].
      split; [|split].
      * rewrite Z.leb_le. split.
        -- intros Hle. destruct (Z.eq_dec t (clock w)) as [->|Hne]; [auto|].
           left. exists t. split; [reflexivity | lia].
        -- intros [(t' & [= <-] & Hlt)|[= ->]]; lia.
      * rewrite Z.leb_le. intros Hle.
        replace (t <=? clock w + 5 * 60 * 1000) with true
          by (symmetry; apply Z.leb_le; lia).
        reflexivity.
      * rewrite Z.ltb_lt, Z.leb_le. lia.
    + eexists. split; [reflexivity|]. split; [|split].
      * split; [discriminate|]. intros [(t' & [=] & _)|[=]].
      * discriminate.
      * discriminate.
  - unfold token_expired. intros ->. apply Z.ltb_irrefl.
Qed.

End Utilities.

(** ** The role tables *)

Section Roles.
Import WorkspaceMiddleware.

(** X29.  [canManageUserRole] respects the hierarchy of [getRoleLevel].
    Whoever may manage a member ranks strictly above that member and is at
    least an admin; nobody may manage an owner, and nobody may manage a
    member of their own rank.  Between the four roles of the enum the
    converse holds too: an admin or owner may manage every role ranked
    strictly below. *)
Theorem canManageUserRole_follows_levels managerRole targetRole :
  (canManageUserRole managerRole targetRole = true ->
   getRoleLevel targetRole < getRoleLevel managerRole
   /\ 3 <= getRoleLevel managerRole
   /\ targetRole <> OWNER)
  /\ canManageUserRole managerRole managerRole = false
  /\ (known_role managerRole -> known_role targetRole ->
      3 <= getRoleLevel managerRole ->
      getRoleLevel targetRole < getRoleLevel managerRole ->
      canManageUserRole managerRole targetRole = true).
Proof.
  unfold canManageUserRole, getRoleLevel, known_role, OWNER, ADMIN, MEMBER, VIEWER.
  split; [|split].
  - destruct (String.eqb_spec managerRole "owner") as [->|Hm1].
    + destruct (String.eqb_spec targetRole "owner") as [->|Ht1]; [discriminate|].
      intros _. split; [|split; [lia | exact Ht1]].
      repeat match goal with
             | |- context [String.eqb targetRole ?s] =>
                 destruct (String.eqb targetRole s)
             end; lia.
    + destruct (String.eqb_spec managerRole "admin") as [->|Hm2]; [|discriminate].
      destruct (String.eqb_spec targetRole "member") as [->|Ht3].
      * intros _. cbn. split; [lia|]. split; [lia | discriminate].
      * destruct (String.eqb_spec targetRole "viewer") as [->|Ht4]; [|discriminate].
        intros _. cbn. split; [lia|]. split; [lia | discriminate].
  - destruct (String.eqb_spec managerRole "owner") as [->|Hm1]; [reflexivity|].
    destruct (String.eqb_spec managerRole "admin") as [->|Hm2]; reflexivity.
  - intros [-> | [-> | [-> | ->]]] [-> | [-> | [-> | ->]]]; cbn; intros; try reflexivity; lia.
Qed.

Lemma permission_tag_inj p q : permission_tag p = permission_tag q -> p = q.
Proof. destruct p, q; cbn; intros H; try reflexivity; discriminate H. Qed.

(** X30.  The permission tables.  A permission a role holds is held by every
    role of the enum ranked above it; a role outside the enum holds none;
    only the owner may delete the workspace or manage billing; and the table
    the client consults answers, for every role and every permission of the
    enum, exactly what the server's table answers. *)
Theorem permission_tables_consistent role permission :
  (forall higher,
      known_role higher -> getRoleLevel role <= getRoleLevel higher ->
      hasPermission role permission = true -> hasPermission higher permission = true)
  /\ (~ known_role role -> hasPermission role permission = false)
  /\ (hasPermission role DELETE_WORKSPACE = true \/ hasPermission role MANAGE_BILLING = true
      -> role = OWNER)
  /\ hasRolePermission role (permission_tag permission) = hasPermission role permission.
Proof.
  unfold hasPermission, hasRolePermission, getPermissionsForRole, getRolePermissions,
    getRoleLevel, known_role, OWNER, ADMIN, MEMBER, VIEWER.
  destruct (String.eqb_spec role "owner") as [->|H1].
  { split; [|split; [|split]].
    - intros higher [-> | [-> | [-> | ->]]]; cbn; intros; try assumption; lia.
    - intros Hno. exfalso. apply Hno. auto.
    - reflexivity.
    - destruct permission; reflexivity. }
  destruct (String.eqb_spec role "admin") as [->|H2].
  { split; [|split; [|split]].
    - intros higher [-> | [-> | [-> | ->]]]; cbn; intros Hle Hp;
        try assumption; try lia; destruct permission; try reflexivity; discriminate Hp.
    - intros Hno. exfalso. apply Hno. auto.
    - cbn. intros [H|H]; discriminate H.
    - destruct permission; reflexivity. }
  destruct (String.eqb_spec role "member") as [->|H3].
  { split; [|split; [|split]].
    - intros higher [-> | [-> | [-> | ->]]]; cbn; intros Hle Hp;
        try assumption; try lia; destruct permission; try reflexivity; discriminate Hp.
    - intros Hno. exfalso. apply Hno. auto.
    - cbn. intros [H|H]; discriminate H.
    - destruct permission; reflexivity. }
  destruct (String.eqb_spec role "viewer") as [->|H4].
  { split; [|split; [|split]].
    - intros higher [-> | [-> | [-> | ->]]]; cbn; intros Hle Hp;
        try assumption; try lia; destruct permission; try reflexivity; discriminate Hp.
    - intros Hno. exfalso. apply Hno. auto.
    - cbn. intros [H|H]; discriminate H.
    - destruct permission; reflexivity. }
  split; [|split; [|split]].
  - intros higher _ _ Hp. discriminate Hp.
  - reflexivity.
  - cbn. intros [H|H]; discriminate H.
  - reflexivity.
Qed.

End Roles.

(** ** The colon-separated state strings *)

Section StateStrings.
Context `{web : NodeWeb}.

Lemma split_colon_plain s : no_colon s -> split_colon s = [s].
Proof.
  unfold no_colon. induction s as [|c s IH]; [reflexivity|].
  cbn [list_ascii_of_string forallb split_colon]. intros H.
  apply andb_true_iff in H. destruct H as [Hc Hs].
  apply negb_true_iff in Hc. rewrite Hc, (IH Hs). reflexivity.
Qed.

Lemma split_colon_app s rest :
  no_colon s -> split_colon (s +:+ ":" +:+ rest) = s :: split_colon rest.
Proof.
  unfold no_colon. induction s as [|c s IH]; [reflexivity|].
  cbn [list_ascii_of_string forallb]. intros H.
  apply andb_true_iff in H. destruct H as [Hc Hs].
  apply negb_true_iff in Hc.
  change (String c s +:+ ":" +:+ rest) with (String c (s +:+ ":" +:+ rest)).
  cbn [split_colon]. rewrite Hc, (IH Hs). reflexivity.
Qed.

Lemma no_colon_digits s :
  forallb is_digit (list_ascii_of_string s) = true -> no_colon s.
Proof.
  unfold no_colon. induction s as [|c s IH]; [reflexivity|].
  cbn [list_ascii_of_string forallb]. intros H.
  apply andb_true_iff in H. destruct H as [Hc Hs]. rewrite (IH Hs), andb_true_r.
  apply negb_true_iff. destruct (Ascii.eqb_spec c ":") as [->|]; [|reflexivity].
  discriminate Hc.
Qed.

Lemma digit_no_colon n : Ascii.eqb (Hex.digit n) ":" = false.
Proof.
  unfold Hex.digit.
  repeat match goal with
         | |- context [match ?x with _ => _ end] => destruct x
         end; reflexivity.
Qed.

Lemma no_colon_hex b : no_colon (Hex.encode b).
Proof.
  unfold no_colon. induction b as [|x b IH]; [reflexivity|].
  cbn [Hex.encode list_ascii_of_string forallb].
  rewrite !digit_no_colon, IH. reflexivity.
Qed.

Lemma platform_tag_inj p q : platform_tag p = platform_tag q -> p = q.
Proof. destruct p, q; cbn; intros H; try reflexivity; discriminate H. Qed.

Lemma no_colon_platform_tag p : no_colon (platform_tag p).
Proof. destruct p; reflexivity. Qed.

Lemma no_colon_accountType_tag a : no_colon (accountType_tag a).
Proof. destruct a; reflexivity. Qed.

Lemma truthy_string_iff s : truthy_string s = true <-> s <> "".
Proof.
  split; [intros H ->; discriminate H | apply truthy_string_true].
Qed.

(** X31.  The state strings of the provider base class are bound to the
    platform.  A state [generateState] makes for a workspace whose id is
    non-empty and has no colon reads back, under [parseState] of any
    provider, with the workspace, platform, account type and timestamp it
    was made with; it is valid exactly when it is read by the provider of
    the same platform no later than ten minutes after it was made. *)
Theorem base_state_platform_bound p ws a w :
  no_colon ws -> ws <> "" -> clock_reading (clock w) ->
  exists state w1,
    BaseState.generateState p ws a w = (Ok state, w1)
    /\ forall q w2, exists r,
         BaseState.parseState q state w2 = (Ok r, w2)
         /\ BaseState.workspaceId r = ws
         /\ BaseState.platform_name r = platform_tag p
         /\ BaseState.accountType r = accountType_tag a
         /\ BaseState.timestamp r = Some (clock w)
         /\ (BaseState.isValid r = true
             <-> clock w2 - clock w <= 10 * 60 * 1000 /\ q = p).
Proof.
  intros Hws Hne Hclk.
  unfold BaseState.generateState, bind, Date_now, gets, crypto_randomBytes, ret.
  pose proof (randomBytes_length (entropy w) 16) as Hlen.
  destruct (randomBytes (entropy w) 16) as [rnd e1]. cbn [fst] in Hlen.
  cbn [clock set_entropy].
  eexists _, _. split; [reflexivity|].
  intros q w2.
  destruct (Number_toString_digits (clock w) Hclk) as (Htne & Htd).
  unfold BaseState.parseState, tryCatch.
  rewrite base64url_decode_encode, string_of_list_byte_of_string.
  rewrite (split_colon_app _ _ Hws), (split_colon_app _ _ (no_colon_platform_tag p)),
    (split_colon_app _ _ (no_colon_accountType_tag a)),
    (split_colon_app _ _ (no_colon_digits _ Htd)),
    (split_colon_plain _ (no_colon_hex rnd)).
  cbn [element nth].
  rewrite (truthy_string_true _ Hne), platform_tag_truthy, accountType_tag_truthy,
    (truthy_string_true _ Htne),
    (truthy_string_true _ (Hex_encode_nonempty rnd Hlen)).
  cbn [negb orb]. unfold bind, Date_now, gets, ret.
  rewrite (parseInt10_toString _ Hclk).
  eexists. split; [reflexivity|].
  cbn [BaseState.workspaceId BaseState.platform_name BaseState.accountType
       BaseState.timestamp BaseState.isValid].
  repeat (split; [reflexivity|]).
  rewrite andb_true_iff, Z.leb_le, String.eqb_eq. split.
  - intros [Hw Hp]. split; [exact Hw|]. symmetry. exact (platform_tag_inj _ _ Hp).
  - intros [Hw ->]. auto.
Qed.

(** X32.  The state strings of the credential utilities.  A state
    [generateOAuthState] makes for a workspace id and a platform name that
    are non-empty and have no colon reads back, under [parseOAuthState],
    with the workspace, platform and timestamp it was made with, and is
    valid exactly until ten minutes after it was made; no platform is
    checked. *)
Theorem utility_state_roundtrip ws pf w :
  no_colon ws -> ws <> "" -> no_colon pf -> pf <> "" -> clock_reading (clock w) ->
  exists state w1,
    CredentialUtils.generateOAuthState ws pf w = (Ok state, w1)
    /\ forall w2, exists r,
         CredentialUtils.parseOAuthState state w2 = (Ok r, w2)
         /\ CredentialUtils.workspaceId r = ws
         /\ CredentialUtils.platform r = pf
         /\ CredentialUtils.timestamp r = Some (clock w)
         /\ (CredentialUtils.isValid r = true <-> clock w2 - clock w <= 10 * 60 * 1000).
Proof.
  intros Hws Hne Hpf Hpne Hclk.
  unfold CredentialUtils.generateOAuthState, bind, Date_now, gets, crypto_randomBytes,
    ret.
  pose proof (randomBytes_length (entropy w) 16) as Hlen.
  destruct (randomBytes (entropy w) 16) as [rnd e1]. cbn [fst] in Hlen.
  cbn [clock set_entropy].
  eexists _, _. split; [reflexivity|].
  intros w2.
  destruct (Number_toString_digits (clock w) Hclk) as (Htne & Htd).
  unfold CredentialUtils.parseOAuthState, tryCatch.
  rewrite base64url_decode_encode, string_of_list_byte_of_string.
  rewrite (split_colon_app _ _ Hws), (split_colon_app _ _ Hpf),
    (split_colon_app _ _ (no_colon_digits _ Htd)),
    (split_colon_plain _ (no_colon_hex rnd)).
  cbn [element nth].
  rewrite (truthy_string_true _ Hne), (truthy_string_true _ Hpne),
    (truthy_string_true _ Htne),
    (truthy_string_true _ (Hex_encode_nonempty rnd Hlen)).
  cbn [negb orb]. unfold bind, Date_now, gets, ret.
  rewrite (parseInt10_toString _ Hclk).
  eexists. split; [reflexivity|].
  cbn [CredentialUtils.workspaceId CredentialUtils.platform CredentialUtils.timestamp
       CredentialUtils.isValid].
  repeat (split; [reflexivity|]).
  apply Z.leb_le.
Qed.

End StateStrings.

(** ** The promises of the schema, at every entry point *)

Section UniqueKeysOfTheProviders.
Context `{rt : NodeRuntime}.
Import Encryption CredentialService SocialAuthProvider ProviderBase.




End UniqueKeysOfTheProviders.


Section UniqueKeysEverywhere.
Context `{rt : NodeRuntime}.
Import Encryption CredentialService SocialAuthProvider ProviderBase.





End UniqueKeysEverywhere.

Section UniqueKeysTheorem.
Context `{rt : NodeRuntime}.
Import Encryption CredentialService.



End UniqueKeysTheorem.

(** * Examples in the reference runtime *)

Module Examples.
Import Reference Encryption OAuthStateManager OAuthSessionStore CredentialService.

(** *** Runs *)

(** What [parseState] answered: validity and reason. *)
Definition verdict (r : Result ParsedState * World) : option (bool * option string) :=
  match fst r with
  | Ok p => Some (OAuthStateManager.isValid p, OAuthStateManager.error p)
  | Throw _ => None
  end.

(** The state of one workspace, nine and eleven minutes after it was minted. *)
Example parseState_run :
  match generateState "ws1" LINKEDIN PERSONAL world0 with
  | (Ok tok, w1) =>
      (verdict (parseState tok (set_clock (clock w1 + minutes 9) w1)),
       verdict (parseState tok (set_clock (clock w1 + minutes 11) w1)))
      = (Some (true, None), Some (false, Some "State has expired"))
  | (Throw _, _) => False
  end.
Proof. vm_compute. reflexivity. Qed.

(** The Facebook callback on a state minted for x, five minutes later: one
    row, for workspace ws1, of platform facebook. *)
Example facebook_callback_run :
  match generateState "ws1" X PERSONAL world_answering with
  | (Ok tok, w1) =>
      match FacebookAuthProvider.handleCallback "code" tok "https://app/cb/facebook"
              (set_clock (clock w1 + minutes 5) w1) with
      | (Ok (account, _), w2) =>
          map (fun r => (workspaceId r, platform r, platformAccountId r, isActive r))
            (socialAccount w2)
          = [("ws1", "facebook", "1000", true)]
      | (Throw _, _) => False
      end
  | (Throw _, _) => False
  end.
Proof. vm_compute. reflexivity. Qed.

(** A refresh-token update of a deactivated record: the access token that
    is stored afterwards decrypts to the empty string. *)
Example updateCredentials_run :
  match updateCredentials "acct1" (refresh_only "1//refresh")
          (world_with (record false None)) with
  | (Ok _, w1) =>
      match socialAccount w1 with
      | [row] => fst (decrypt (encryptedAccessToken row) w1) = Ok ""
      | _ => False
      end
  | (Throw _, _) => False
  end.
Proof. vm_compute. reflexivity. Qed.

(** Revoking an account whose token expired a millisecond ago: it returns,
    and the record is still active. *)
Example revokeAccess_run :
  match XAuthProvider.revokeAccess "acct1"
          (world_with (record true (Some 1699999999999))) with
  | (Ok _, w1) => map isActive (socialAccount w1) = [true]
  | (Throw _, _) => False
  end.
Proof. vm_compute. reflexivity. Qed.

(** [needsRefresh] three and ten minutes before the expiry, and without one. *)
Example needsRefresh_run :
  (fst (needsRefresh "acct1" (world_with (record true (Some (1700000000000 + minutes 3))))),
   fst (needsRefresh "acct1" (world_with (record true (Some (1700000000000 + minutes 10))))),
   fst (needsRefresh "acct1" (world_with (record true None))))
  = (Ok true, Ok false, Ok false).
Proof. vm_compute. reflexivity. Qed.

(** *** The claims at these worlds *)

Lemma master_key_configured : key_configured world0.
Proof. exists "master-key". split; [reflexivity | discriminate]. Qed.


(** C3, the counterexample: a token minted for the empty workspace id is
    invalid nine minutes later. *)
Lemma parseState_rejects_empty_workspace :
  exists tok w1,
    generateState "" X PERSONAL world0 = (Ok tok, w1)
    /\ parseState tok (set_clock (clock world0 + minutes 9) w1)
       = (Ok {| state_data := None; isValid := false;
                error := Some "Invalid state format" |},
          set_clock (clock world0 + minutes 9) w1).
Proof.
  eexists _, _. split.
  - apply (generateState_run "" X PERSONAL world0 "state-secret"). reflexivity.
  - rewrite (parseState_minted "state-secret"); reflexivity.
Qed.

(** C3, an instance of the amended claim. *)
Lemma parseState_window_example :
  exists tok w1 d,
    generateState "ws1" LINKEDIN PERSONAL world0 = (Ok tok, w1)
    /\ (forall w2, configured_secret w2 = Some "state-secret" ->
          clock w2 = clock world0 + 9 * 60 * 1000 ->
          parseState tok w2
          = (Ok {| state_data := Some d; isValid := true; error := None |}, w2))
    /\ (forall w2, configured_secret w2 = Some "state-secret" ->
          clock w2 = clock world0 + 11 * 60 * 1000 ->
          parseState tok w2
          = (Ok {| state_data := Some d; isValid := false;
                   error := Some "State has expired" |}, w2)).
Proof.
  apply (parseState_window "ws1" LINKEDIN PERSONAL world0 "state-secret");
    [reflexivity | discriminate | discriminate].
Defined.

(** C1, an instance: the x-minted state at the Facebook callback. *)
Lemma facebook_callback_accepts_x_state_example :
  exists tok w1,
    generateState "ws1" X PERSONAL world0 = (Ok tok, w1)
    /\ forall w2, configured_secret w2 = Some "state-secret" ->
         clock w2 - clock world0 <= STATE_EXPIRY_MS ->
         (exists d, parseState tok w2
                    = (Ok {| state_data := Some d; isValid := true; error := None |}, w2)
                    /\ property d "platform" = Some (JStr "x"))
         /\ (forall msg w3,
               FacebookAuthProvider.handleCallback "code" tok "https://app/cb/facebook" w2
               <> (Throw (TRPCError BAD_REQUEST msg), w3))
         /\ (forall k st1 body st2 user,
               env_ENCRYPTION_KEY w2 = Some k -> k <> "" -> prismaOnline w2 = true ->
               tokenEndpoint (network w2) FACEBOOK = Responds true st1 body ->
               userEndpoint (network w2) FACEBOOK = Responds true st2 user ->
               exists result w3 row,
                 FacebookAuthProvider.handleCallback "code" tok "https://app/cb/facebook" w2
                 = (Ok result, w3)
                 /\ In row (socialAccount w3)
                 /\ workspaceId row = "ws1" /\ platform row = "facebook"
                 /\ platformAccountId row = user_id user).
Proof.
  apply (facebook_callback_accepts_x_state "ws1" PERSONAL world0 "state-secret");
    [reflexivity | discriminate | discriminate].
Defined.

(** C6, the counterexample: an inactive record whose expiry is three
    minutes ahead lies within the lookahead, and the answer is [false]. *)
Lemma needsRefresh_inactive_within_lookahead :
  within_lookahead (record false (Some (1700000000000 + minutes 3)))
    (clock (world_with (record false (Some (1700000000000 + minutes 3)))))
  /\ needsRefresh "acct1" (world_with (record false (Some (1700000000000 + minutes 3))))
     = (Ok false, world_with (record false (Some (1700000000000 + minutes 3)))).
Proof.
  split.
  - eexists. split; [reflexivity|]. vm_compute. discriminate.
  - reflexivity.
Qed.

(** C6, an instance of the amended claim: the same expiry on an active record. *)
Lemma needsRefresh_active_iff_example :
  exists b,
    needsRefresh "acct1" (world_with (record true (Some (1700000000000 + 3 * 60 * 1000))))
    = (Ok b, world_with (record true (Some (1700000000000 + 3 * 60 * 1000))))
    /\ (b = true <->
        within_lookahead (record true (Some (1700000000000 + 3 * 60 * 1000)))
          (clock (world_with (record true (Some (1700000000000 + 3 * 60 * 1000))))))
    /\ (tokenExpiresAt (record true (Some (1700000000000 + 3 * 60 * 1000))) = None ->
        b = false)
    /\ (tokenExpiresAt (record true (Some (1700000000000 + 3 * 60 * 1000)))
        = Some (clock (world_with (record true (Some (1700000000000 + 3 * 60 * 1000))))
                + 3 * 60 * 1000) -> b = true)
    /\ (tokenExpiresAt (record true (Some (1700000000000 + 3 * 60 * 1000)))
        = Some (clock (world_with (record true (Some (1700000000000 + 3 * 60 * 1000))))
                + 10 * 60 * 1000) -> b = false).
Proof.
  apply (needsRefresh_active_iff "acct1"
           (world_with (record true (Some (1700000000000 + 3 * 60 * 1000))))
           (world_with (record true (Some (1700000000000 + 3 * 60 * 1000))))
           (record true (Some (1700000000000 + 3 * 60 * 1000))) eq_refl eq_refl).
Defined.

(** C8, instances: no record, an inactive record, an expired record. *)
Lemma getCredentials_null_example :
  (exists w', getCredentials "acct1" world0 = (Ok None, w')
              /\ socialAccount w' = socialAccount world0)
  /\ (exists w', getCredentials "acct1" (world_with (record false None)) = (Ok None, w')
                 /\ socialAccount w' = socialAccount (world_with (record false None)))
  /\ (exists w', getCredentials "acct1" (world_with (record true (Some 1699999999999)))
                 = (Ok None, w')
                 /\ socialAccount w'
                    = socialAccount (world_with (record true (Some 1699999999999)))).
Proof.
  split; [|split].
  - apply (getCredentials_null "acct1" world0 world0 None eq_refl I).
  - apply (getCredentials_null "acct1" (world_with (record false None))
             (world_with (record false None)) (Some (record false None)) eq_refl).
    left. reflexivity.
  - apply (getCredentials_null "acct1" (world_with (record true (Some 1699999999999)))
             (world_with (record true (Some 1699999999999)))
             (Some (record true (Some 1699999999999))) eq_refl).
    right. exists 1699999999999. split; [reflexivity|]. vm_compute. reflexivity.
Defined.


(** C10, instances: no record, an inactive record, the database down. *)
Lemma needsRefresh_missing_inactive_failing_example :
  needsRefresh "acct1" world0 = (Ok false, world0)
  /\ needsRefresh "acct1" (world_with (record false (Some 1700000000001)))
     = (Ok false, world_with (record false (Some 1700000000001)))
  /\ exists w', needsRefresh "acct1" world_down = (Ok true, w').
Proof.
  split; [|split].
  - apply (needsRefresh_missing_inactive_failing "acct1" world0 (Ok None) world0 eq_refl).
  - apply (needsRefresh_missing_inactive_failing "acct1"
             (world_with (record false (Some 1700000000001)))
             (Ok (Some (record false (Some 1700000000001))))
             (world_with (record false (Some 1700000000001))) eq_refl eq_refl).
  - apply (needsRefresh_missing_inactive_failing "acct1" world_down
             (Throw (JsError "Can't reach database server" None)) world_down eq_refl).
Defined.

(** C4, an instance: the deactivated record after a refresh-token update. *)
Lemma updateCredentials_blanks_access_token_example :
  exists stored w' account',
    updateCredentials "acct1" (refresh_only "1//refresh") (world_with (record false None))
    = (Ok stored, w')
    /\ List.find (Prisma.has_id "acct1") (socialAccount w') = Some account'
    /\ opens "master-key" (encryptedAccessToken account') ""
    /\ exists blob, encryptedRefreshToken account' = Some blob
                    /\ opens "master-key" blob "1//refresh".
Proof.
  apply (updateCredentials_blanks_access_token "acct1" (world_with (record false None))
           (world_with (record false None)) (record false None) "master-key"
           "1//refresh" eq_refl).
  - left. reflexivity.
  - reflexivity.
  - discriminate.
  - discriminate.
Defined.

(** C5, an instance: revoking an account whose token expired a millisecond ago. *)
Lemma revokeAccess_leaves_expired_active_example :
  exists w',
    XAuthProvider.revokeAccess "acct1" (world_with (record true (Some 1699999999999)))
    = (Ok tt, w')
    /\ socialAccount w' = socialAccount (world_with (record true (Some 1699999999999)))
    /\ List.find (Prisma.has_id "acct1") (socialAccount w')
       = Some (record true (Some 1699999999999)).
Proof.
  apply (revokeAccess_leaves_expired_active "acct1"
           (world_with (record true (Some 1699999999999)))
           (world_with (record true (Some 1699999999999)))
           (record true (Some 1699999999999)) eq_refl eq_refl).
  exists 1699999999999. split; [reflexivity|]. vm_compute. reflexivity.
Defined.

(** C7, the counterexample: after a second store without a refresh token
    the one row of the key still holds the first call's refresh token. *)
Lemma storeCredentials_keeps_stale_refresh_token :
  refreshToken (credentials "Ada L." "access-2" None) = None
  /\ exists s1 w1 s2 w2 row blob,
       storeCredentials "ws1" "x" "personal"
         (credentials "Ada" "access-1" (Some "refresh-1")) world0 = (Ok s1, w1)
       /\ storeCredentials "ws1" "x" "personal"
            (credentials "Ada L." "access-2" None) w1 = (Ok s2, w2)
       /\ List.filter (Prisma.has_key "ws1" "x" "12345") (socialAccount w2) = [row]
       /\ encryptedRefreshToken row = Some blob
       /\ opens "master-key" blob "refresh-1".
Proof.
  split; [reflexivity|].
  apply (storeCredentials_twice_stale "ws1" "x" "personal" "personal"
           (credentials "Ada" "access-1" (Some "refresh-1"))
           (credentials "Ada L." "access-2" None) world0 "master-key");
    try reflexivity; try discriminate.
  cbn. lia.
Qed.

(** C7, an instance of the amended claim: two stores with different display names. *)
Lemma storeCredentials_twice_one_record_example :
  exists s1 w1 s2 w2 row,
    storeCredentials "ws1" "x" "personal"
      (credentials "Ada" "access-1" (Some "refresh-1")) world0 = (Ok s1, w1)
    /\ storeCredentials "ws1" "x" "personal"
         (credentials "Ada L." "access-2" (Some "refresh-2")) w1 = (Ok s2, w2)
    /\ List.filter (Prisma.has_key "ws1" "x" "12345") (socialAccount w2) = [row]
    /\ isActive row = true
    /\ opens "master-key" (encryptedAccessToken row) "access-2"
    /\ displayName row = "Ada L."
    /\ permissions row = ["tweet.read"; "tweet.write"]
    /\ platformMetadata row = JObj [("platform", JStr "x")]
    /\ (truthy_ostring (Some "refresh-2") = true ->
        exists blob, encryptedRefreshToken row = Some blob
                     /\ opens "master-key" blob "refresh-2")
    /\ (forall t, @None Z = Some t -> tokenExpiresAt row = Some t).
Proof.
  apply (storeCredentials_twice_one_record "ws1" "x" "personal" "personal"
           (credentials "Ada" "access-1" (Some "refresh-1"))
           (credentials "Ada L." "access-2" (Some "refresh-2")) world0 "master-key");
    try reflexivity; try discriminate.
  cbn. lia.
Defined.

End Examples.

(** * Further examples in the reference runtime *)

Module MoreExamples.
Import Reference ReferenceWeb Encryption CredentialService.

(** *** Worlds *)

(** What the reference runtime seals [text] into: 64 bytes of salt, nonce
    and tag, then the text. *)
Definition sealed (text : string) : string :=
  string_of_list_byte (repeat x00 64 ++ list_byte_of_string text).

(** The record of an X account connected ten minutes ago, with a refresh
    token, valid for another hour. *)
Definition connected : SocialAccount :=
  {| id := "acct1";
     workspaceId := "ws1";
     platform := "x";
     accountType := "personal";
     platformAccountId := "12345";
     displayName := "Ada";
     encryptedAccessToken := sealed "access-1";
     encryptedRefreshToken := Some (sealed "refresh-1");
     tokenExpiresAt := Some (1700000000000 + minutes 60);
     isActive := true;
     permissions := ["tweet.read"; "tweet.write"; "users.read"; "offline.access"];
     platformMetadata := JObj [("platform", JStr "x")];
     createdAt := 1700000000000 - minutes 10;
     updatedAt := 1700000000000 - minutes 10 |}.

(** A token endpoint that answers with a new access token and no new
    refresh token. *)
Definition refreshing : Network :=
  {| tokenEndpoint := fun _ =>
       Responds true "OK"
         {| tok_accessToken := "access-2"; tok_refreshToken := None;
            tok_expiresIn := Some 7200; tok_scope := None |};
     userEndpoint := fun _ => Rejects (JsError "fetch failed" None);
     permissionsEndpoint := Rejects (JsError "fetch failed" None);
     pagesEndpoint := Rejects (JsError "fetch failed" None);
     revokeEndpoint := fun _ => Rejects (JsError "fetch failed" None) |}.

Definition world_refreshing : World :=
  {| env_ENCRYPTION_KEY := Some "master-key";
     env_OAUTH_STATE_SECRET := Some "state-secret";
     env_AUTH_SECRET := None;
     clock := 1700000000000;
     entropy := tt;
     console := [];
     socialAccount := [connected];
     prismaOnline := true;
     sessionStore := ∅;
     cleanupTimer := false;
     network := refreshing |}.

(** The session store after one [set]. *)
Definition world_session : World :=
  snd (OAuthSessionStore.set "pkce:abc" (JObj [("codeVerifier", JStr "v3r1f13r")])
         None world0).

(** *** Runs *)

(** Eleven operations within one minute: the eleventh is refused. *)
Example rate_limit_run :
  fst (calls "user1" "READ" [0; 1; 2; 3; 4; 5; 6; 7; 8; 9; 10] ∅)
  = [true; true; true; true; true; true; true; true; true; true; false].
Proof. vm_compute. reflexivity. Qed.

(** The base-class state of the x provider, read by the x provider and by
    the Facebook provider five minutes later. *)
Example base_state_run :
  match BaseState.generateState X "ws1" PERSONAL world0 with
  | (Ok state, w1) =>
      (option_map BaseState.isValid
         (match fst (BaseState.parseState X state
                       (set_clock (clock w1 + minutes 5) w1)) with
          | Ok r => Some r | Throw _ => None end),
       option_map BaseState.isValid
         (match fst (BaseState.parseState FACEBOOK state
                       (set_clock (clock w1 + minutes 5) w1)) with
          | Ok r => Some r | Throw _ => None end))
      = (Some true, Some false)
  | (Throw _, _) => False
  end.
Proof. vm_compute. reflexivity. Qed.

(** Two tokens of different length at the CSRF check: it throws. *)
Example validateCSRFToken_run :
  (fst (OAuthStateTokens.validateCSRFToken "token" "token" world0),
   fst (OAuthStateTokens.validateCSRFToken "token" "" world0),
   fst (OAuthStateTokens.validateCSRFToken "token" "tokens" world0))
  = (Ok true, Ok false,
     Throw (JsError "Input buffers must have the same byte length" None)).
Proof. vm_compute. reflexivity. Qed.

(** *** The properties at these worlds *)

Lemma reference_opens text : opens "master-key" (sealed text) text.
Proof.
  intros w Hk. unfold decrypt, tryCatch, bind, gets. rewrite Hk.
  unfold sealed. cbn [truthy_string String.eqb negb].
  change (base64_decode (string_of_list_byte (repeat x00 64 ++ list_byte_of_string text)))
    with (list_byte_of_string
            (string_of_list_byte (repeat x00 64 ++ list_byte_of_string text))).
  rewrite list_byte_of_string_of_list_byte.
  change (aes256gcm_open ?k ?iv ?aad ?tag ?c) with (Some c).
  replace (drop (SALT_LENGTH + IV_LENGTH + TAG_LENGTH)
             (repeat x00 64 ++ list_byte_of_string text))
    with (list_byte_of_string text) by reflexivity.
  unfold ret. rewrite string_of_list_byte_of_string. reflexivity.
Qed.

Lemma connected_fetchable :
  fetchable "master-key" connected (clock world_refreshing) "access-1" (Some "refresh-1").
Proof.
  split; [reflexivity|]. split; [vm_compute; reflexivity|].
  split; [apply reference_opens|].
  unfold refresh_stored. cbn [encryptedRefreshToken connected].
  replace (truthy_string (sealed "refresh-1")) with true by (vm_compute; reflexivity).
  exists "refresh-1". split; [reflexivity | apply reference_opens].
Qed.

(** X1, an instance: "hé" against itself and against "he". *)
Lemma secureCompare_correct_example :
  (EncryptionUtils.secureCompare [104; 233] [104; 233] = true
   <-> [104; 233] = [104; 233])
  /\ (EncryptionUtils.secureCompare [104; 233] [104; 101] = true
      <-> [104; 233] = [104; 101]).
Proof.
  split.
  - apply (secureCompare_correct [104; 233] [104; 233]);
      repeat constructor; unfold code_unit; lia.
  - apply (secureCompare_correct [104; 233] [104; 101]);
      repeat constructor; unfold code_unit; lia.
Defined.

(** X3, an instance: an access token with an empty refresh token. *)
Lemma credentials_roundtrip_example :
  exists enc w1,
    encryptCredentials "access-1" (Some "") (Some 1700003600000) (Some ["tweet.read"])
      world0 = (Ok enc, w1)
    /\ decryptCredentials (enc_encryptedAccessToken enc) (enc_encryptedRefreshToken enc) w1
       = (Ok {| dec_accessToken := "access-1";
                dec_refreshToken := if truthy_ostring (Some "") then Some "" else None;
                dec_scope := None |}, w1).
Proof.
  apply (credentials_roundtrip "access-1" (Some "") (Some 1700003600000)
           (Some ["tweet.read"]) world0 Examples.master_key_configured).
Defined.

Lemma world_session_covered : timer_covers world_session.
Proof. intros _. reflexivity. Qed.

(** X9, an instance: the store after one [set]. *)
Lemma timer_covers_preserved_example :
  (forall key v ttl, exists w1,
      OAuthSessionStore.set key v ttl world_session = (Ok tt, w1) /\ timer_covers w1)
  /\ (forall key, exists v w1,
        OAuthSessionStore.get key world_session = (Ok v, w1) /\ timer_covers w1)
  /\ (forall key, exists b w1,
        OAuthSessionStore.has key world_session = (Ok b, w1) /\ timer_covers w1)
  /\ (exists w1, OAuthSessionStore.cleanup world_session = (Ok tt, w1)
                 /\ timer_covers w1).
Proof.
  apply (timer_covers_preserved world_session world_session_covered).
Defined.

(** X11, an instance: an account id that is not in the table. *)
Lemma unknown_account_not_found_is_masked_example :
  (exists w',
      revokeCredentials "ghost" world0
      = (Throw (TRPCError INTERNAL_SERVER_ERROR "Failed to revoke credentials"), w')
      /\ socialAccount w' = socialAccount world0)
  /\ (forall updates, exists w',
        updateCredentials "ghost" updates world0
        = (Throw (TRPCError INTERNAL_SERVER_ERROR "Failed to update credentials"), w')
        /\ socialAccount w' = socialAccount world0)
  /\ (forall updates code msg w',
        code <> INTERNAL_SERVER_ERROR ->
        revokeCredentials "ghost" world0 <> (Throw (TRPCError code msg), w')
        /\ updateCredentials "ghost" updates world0 <> (Throw (TRPCError code msg), w')).
Proof.
  apply (unknown_account_not_found_is_masked "ghost" world0 world0 eq_refl).
Defined.


(** X14, an instance: the listing of workspace ws1. *)
Lemma getWorkspaceAccounts_lists_active_example :
  exists accounts,
    CredentialQueries.getWorkspaceAccounts "ws1" world_refreshing
    = (Ok accounts, world_refreshing)
    /\ accounts
       ≡ₚ map mapToStoredCredentials
            (List.filter (listed "ws1") (socialAccount world_refreshing))
    /\ Sorted (fun a b => sc_createdAt b <= sc_createdAt a) accounts
    /\ (forall s, In s accounts -> sc_workspaceId s = "ws1" /\ sc_isActive s = true).
Proof.
  apply (getWorkspaceAccounts_lists_active "ws1" world_refreshing eq_refl).
Defined.

(** X15, an instance: the listing after the account is revoked. *)
Lemma revoked_account_not_listed_example :
  exists w1 accounts,
    revokeCredentials "acct1" world_refreshing = (Ok tt, w1)
    /\ CredentialQueries.getWorkspaceAccounts "ws1" w1 = (Ok accounts, w1)
    /\ forall s, In s accounts -> sc_id s <> "acct1".
Proof.
  apply (revoked_account_not_listed "acct1" "ws1" world_refreshing connected
           eq_refl eq_refl).
Defined.

(** X16, an instance: a first connection, stored and fetched. *)
Lemma storeCredentials_then_getCredentials_example :
  exists s w1 w2,
    storeCredentials "ws1" "x" "personal"
      (credentials "Ada" "access-1" (Some "refresh-1")) world0 = (Ok s, w1)
    /\ getCredentials (sc_id s) w1
       = (Ok (Some {| accessToken := "access-1";
                      refreshToken := if truthy_ostring (Some "refresh-1")
                                      then Some "refresh-1" else None;
                      expiresAt := None;
                      scope := None;
                      cred_platformAccountId := "12345";
                      cred_displayName := "Ada";
                      cred_permissions := ["tweet.read"; "tweet.write"];
                      cred_platformMetadata := JObj [("platform", JStr "x")] |}), w2).
Proof.
  apply (storeCredentials_then_getCredentials "ws1" "x" "personal"
           (credentials "Ada" "access-1" (Some "refresh-1")) world0
           Examples.master_key_configured eq_refl).
  - intros t [=].
  - left. reflexivity.
Defined.



(** X18, an instance: a token that expired a millisecond ago. *)
Lemma refreshToken_not_found_example :
  (exists w',
      XAuthFlow.refreshToken "acct1" (world_with (record true (Some 1699999999999)))
      = (Throw (TRPCError NOT_FOUND "No refresh token available"), w')
      /\ FacebookAuthFlow.refreshToken "acct1"
           (world_with (record true (Some 1699999999999)))
         = (Throw (TRPCError NOT_FOUND "No refresh token available"), w')
      /\ frame (world_with (record true (Some 1699999999999))) w')
  /\ (forall account,
        Some (record true (Some 1699999999999)) = Some account ->
        isActive account = true ->
        expiry_passed account (clock (world_with (record true (Some 1699999999999)))) ->
        needsRefresh "acct1" (world_with (record true (Some 1699999999999)))
        = (Ok true, world_with (record true (Some 1699999999999)))).
Proof.
  apply (refreshToken_not_found "acct1" (world_with (record true (Some 1699999999999)))
           (world_with (record true (Some 1699999999999)))
           (Some (record true (Some 1699999999999))) eq_refl).
  right. left. exists 1699999999999. split; [reflexivity|]. vm_compute. reflexivity.
Defined.

(** X19, an instance: the connected account is refreshed; the endpoint
    sends no new refresh token, so the old one is sealed again. *)
Lemma x_refreshToken_success_example :
  exists w' account',
    XAuthFlow.refreshToken "acct1" world_refreshing
    = (Ok {| tok_accessToken := "access-2"; tok_refreshToken := None;
             tok_expiresIn := Some 7200; tok_scope := None |}, w')
    /\ List.find (Prisma.has_id "acct1") (socialAccount w') = Some account'
    /\ isActive account' = true
    /\ opens "master-key" (encryptedAccessToken account') "access-2"
    /\ (exists blob, encryptedRefreshToken account' = Some blob
                     /\ opens "master-key" blob (rotated "refresh-1" None))
    /\ tokenExpiresAt account'
       = match SocialAuthProvider.expiry_of (clock world_refreshing) (Some 7200) with
         | Some t => Some t
         | None => tokenExpiresAt connected
         end.
Proof.
  apply (x_refreshToken_success "acct1" world_refreshing world_refreshing connected
           "master-key" "access-1" "refresh-1" "OK"
           {| tok_accessToken := "access-2"; tok_refreshToken := None;
              tok_expiresIn := Some 7200; tok_scope := None |}
           eq_refl eq_refl);
    [discriminate | exact connected_fetchable | discriminate | reflexivity
    | discriminate].
Defined.

(** The connected account on a server that reaches no endpoint. *)
Definition world_cut_off : World := set_socialAccount [connected] world0.

(** X20, an instance: the token endpoint cannot be reached. *)
Lemma x_refreshToken_endpoint_failure_example :
  exists msg w',
    XAuthFlow.refreshToken "acct1" world_cut_off
    = (Throw (TRPCError (oauth_error_code (JsError "fetch failed" None)) msg), w')
    /\ frame world_cut_off w'.
Proof.
  apply (proj1 (x_refreshToken_endpoint_failure "acct1" world_cut_off world_cut_off
                  connected "master-key" "access-1" "refresh-1"
                  eq_refl eq_refl connected_fetchable ltac:(discriminate))
           (JsError "fetch failed" None) eq_refl).
Defined.

(** X22, an instance: a connection of workspace ws1 started on the
    reference server. *)
Lemma x_authorization_flow_example :
  exists a w1,
    XAuthFlow.initiateAuth "client-1" "ws1" PERSONAL "https://app.example/cb" world0
    = (Ok a, w1)
    /\ stored_verifier w1 (ProviderBase.auth_state a) <> None
    /\ cleanupTimer w1 = true
    /\ forall w2 k st1 tokens st2 user,
         configured_secret w2 = Some "state-secret" ->
         sessionStore w2 = sessionStore w1 ->
         clock w2 - clock world0 <= OAuthStateManager.STATE_EXPIRY_MS ->
         env_ENCRYPTION_KEY w2 = Some k -> k <> "" -> prismaOnline w2 = true ->
         tokenEndpoint (network w2) X = Responds true st1 tokens ->
         userEndpoint (network w2) X = Responds true st2 user ->
         exists account w3 row,
           XAuthProvider.handleCallback "code-1" (ProviderBase.auth_state a) "https://app.example/cb" w2
           = (Ok (account, tokens), w3)
           /\ In row (socialAccount w3)
           /\ workspaceId row = "ws1" /\ platform row = "x"
           /\ platformAccountId row = user_id user
           /\ forall t, exists msg w4,
                XAuthProvider.handleCallback "code-1" (ProviderBase.auth_state a)
                  "https://app.example/cb" (set_clock t w3)
                = (Throw (TRPCError BAD_REQUEST msg), w4).
Proof.
  apply (x_authorization_flow "client-1" "ws1" PERSONAL "https://app.example/cb"
           "code-1" world0 "state-secret" eq_refl);
    [discriminate | vm_compute; discriminate].
Defined.

(** X24, an instance: a Facebook page connection of workspace ws1. *)
Lemma facebook_connection_cannot_refresh_example :
  exists auth w1,
    FacebookAuthFlow.initiateAuth "client-1" "ws1" PAGE "https://app.example/cb" world0
    = (Ok auth, w1)
    /\ forall w2 k st1 body st2 user,
         configured_secret w2 = Some "state-secret" ->
         clock w2 - clock world0 <= OAuthStateManager.STATE_EXPIRY_MS ->
         env_ENCRYPTION_KEY w2 = Some k -> k <> "" -> prismaOnline w2 = true ->
         tokenEndpoint (network w2) FACEBOOK = Responds true st1 body ->
         userEndpoint (network w2) FACEBOOK = Responds true st2 user ->
         List.find (Prisma.has_key "ws1" "facebook" (user_id user)) (socialAccount w2)
         = None ->
         exists result w3 row,
           FacebookAuthProvider.handleCallback "code-1" (ProviderBase.auth_state auth)
             "https://app.example/cb" w2
           = (Ok result, w3)
           /\ List.find (Prisma.has_key "ws1" "facebook" (user_id user)) (socialAccount w3)
              = Some row
           /\ isActive row = true
           /\ encryptedRefreshToken row = None
           /\ forall t, exists w4,
                FacebookAuthFlow.refreshToken (id row) (set_clock t w3)
                = (Throw (TRPCError NOT_FOUND "No refresh token available"), w4).
Proof.
  apply (facebook_connection_cannot_refresh "client-1" "ws1" PAGE
           "https://app.example/cb" "code-1" world0 "state-secret" eq_refl);
    [discriminate | vm_compute; discriminate].
Defined.

(** X25, an instance: twelve operations in the first minute, then one
    after the window. *)
Lemma rate_limit_ten_per_window_example :
  fst (calls "user1" "READ" [0; 1; 2; 3; 4; 5; 6; 7; 8; 9; 10; 60000] ∅)
  = repeat true (Nat.min 12 10) ++ repeat false (12 - 10)
  /\ forall t, 0 + 60 * 1000 < t ->
       fst (CredentialUtils.checkCredentialRateLimit "user1" "READ" t
              (snd (calls "user1" "READ" [0; 1; 2; 3; 4; 5; 6; 7; 8; 9; 10; 60000] ∅)))
       = true.
Proof.
  apply (rate_limit_ten_per_window "user1" "READ" 0
           [1; 2; 3; 4; 5; 6; 7; 8; 9; 10; 60000] ∅).
  - vm_compute. reflexivity.
  - repeat constructor; lia.
Defined.

(** X26, an instance: the connected account an hour before its expiry. *)
Lemma expiry_utilities_agree_example :
  (exists b, needsRefresh "acct1" world_refreshing = (Ok b, world_refreshing)
             /\ CredentialUtils.isCredentialExpiringSoon (tokenExpiresAt connected)
                  world_refreshing = (Ok b, world_refreshing))
  /\ (exists b, CredentialUtils.isCredentialExpired (tokenExpiresAt connected)
                  world_refreshing = (Ok b, world_refreshing)
                /\ (b = true <-> expiry_passed connected (clock world_refreshing)
                                 \/ tokenExpiresAt connected
                                    = Some (clock world_refreshing))
                /\ (b = true ->
                    CredentialUtils.isCredentialExpiringSoon (tokenExpiresAt connected)
                      world_refreshing = (Ok true, world_refreshing))
                /\ (token_expired connected (clock world_refreshing) = true -> b = true))
  /\ (tokenExpiresAt connected = Some (clock world_refreshing) ->
      token_expired connected (clock world_refreshing) = false).
Proof.
  apply (expiry_utilities_agree "acct1" world_refreshing world_refreshing connected
           eq_refl eq_refl).
Defined.

Lemma world0_clock_reading : clock_reading (clock world0).
Proof. unfold clock_reading. cbn. lia. Qed.

(** X29, an instance: a state of the x provider for workspace ws1. *)
Lemma base_state_platform_bound_example :
  exists state w1,
    BaseState.generateState X "ws1" PERSONAL world0 = (Ok state, w1)
    /\ forall q w2, exists r,
         BaseState.parseState q state w2 = (Ok r, w2)
         /\ BaseState.workspaceId r = "ws1"
         /\ BaseState.platform_name r = platform_tag X
         /\ BaseState.accountType r = accountType_tag PERSONAL
         /\ BaseState.timestamp r = Some (clock world0)
         /\ (BaseState.isValid r = true
             <-> clock w2 - clock world0 <= 10 * 60 * 1000 /\ q = X).
Proof.
  apply (base_state_platform_bound X "ws1" PERSONAL world0 eq_refl);
    [discriminate | exact world0_clock_reading].
Defined.

(** X30, an instance: a utility state for workspace ws1 and platform x. *)
Lemma utility_state_roundtrip_example :
  exists state w1,
    CredentialUtils.generateOAuthState "ws1" "x" world0 = (Ok state, w1)
    /\ forall w2, exists r,
         CredentialUtils.parseOAuthState state w2 = (Ok r, w2)
         /\ CredentialUtils.workspaceId r = "ws1"
         /\ CredentialUtils.platform r = "x"
         /\ CredentialUtils.timestamp r = Some (clock world0)
         /\ (CredentialUtils.isValid r = true
             <-> clock w2 - clock world0 <= 10 * 60 * 1000).
Proof.
  apply (utility_state_roundtrip "ws1" "x" world0 eq_refl);
    [discriminate | reflexivity | discriminate | exact world0_clock_reading].
Defined.

End MoreExamples.
